(** * Exam-helper workflow: a shallow embedding and its checked properties

    The Python sources under [app/] are embedded module by module:
    - [Py]: the fragment of Python the code relies on (exceptions and
      [try]/[except], JSON values, [str.replace], [str.strip], [str.lower]);
    - [ConversationStore]: [app/utils/conversation_store.py];
    - [IntentDetector]: [app/utils/intent_detector.py];
    - [State]: [app/agents/state.py];
    - [Agents]: the four capability handlers under [app/agents];
    - [OrchestratorNode]: [app/nodes/orchestrator_node.py];
    - [Workflow]: [app/workflows/multi_agentic_workflow.py];
    - [Sessions]: hydration and greeting of the same file, and the console
      loop of [app/main.py];
    - [Tools] and [Firecrawl]: [app/tools/exam_helper_tools.py] and
      [app/tools/firecrawl_tool.py].

    External collaborators (the completion model, the tool-calling loops of
    LangChain and LangGraph, the compiled state graph, the wall clock) are
    section variables or explicit arguments.  Strings are sequences of code
    points below 256. *)

From Stdlib Require Import ZArith Ascii String List.
From stdpp Require Import base option list gmap strings pretty fin_maps.

Set Warnings "-register-all".
Local Open Scope string_scope.

(** ** Python fragment *)

Module Py.

(** Exception classes that occur in the modelled code.  [IOError] is an
    alias of [OSError]; [JSONDecodeError] and [UnicodeDecodeError] both
    derive from [ValueError]; every class derives from [Exception]. *)
Inductive exn_class :=
| JSONDecodeError | OSError | UnicodeDecodeError | ValueError
| KeyError | IndexError | AttributeError | TypeError | RuntimeError.

#[global] Instance exn_class_eq_dec : EqDecision exn_class.
Proof. solve_decision. Defined.

(** An exception instance: its class and the text [str(e)] yields. *)
Record exn := Exn { exn_cls : exn_class; exn_str : string }.

#[global] Instance exn_eq_dec : EqDecision exn.
Proof. solve_decision. Defined.

(** [issubclass c d], restricted to the classes above. *)
Definition issubclass (c d : exn_class) : bool :=
  match c, d with
  | JSONDecodeError, ValueError | UnicodeDecodeError, ValueError => true
  | _, _ => bool_decide (c = d)
  end.

(** Does an [except (d1, ..., dn)] clause catch [e]? *)
Definition caught_by (handlers : list exn_class) (e : exn) : bool :=
  existsb (issubclass (exn_cls e)) handlers.

(** Outcome of running a piece of code: it returns or it raises. *)
Inductive result (A : Type) :=
| Returns (a : A)
| Raises (e : exn).
Arguments Returns {A} a.
Arguments Raises {A} e.

Definition bind {A B} (m : result A) (k : A -> result B) : result B :=
  match m with
  | Returns a => k a
  | Raises e => Raises e
  end.

(** [try: body  except (handlers) as e: handler e] *)
Definition try_except {A} (body : result A) (handlers : list exn_class)
    (handler : exn -> result A) : result A :=
  match body with
  | Returns a => Returns a
  | Raises e => if caught_by handlers e then handler e else Raises e
  end.

(** [try: body  except Exception as e: handler e]; the handler of the
    modelled code always returns. *)
Definition try_except_Exception {A} (body : result A) (handler : exn -> A) : A :=
  match body with
  | Returns a => a
  | Raises e => handler e
  end.

(** JSON documents as [json.load] delivers them: [None], [int], [str],
    [list] and [dict] with string keys.  Booleans and floats are left out;
    no record written by this program holds one. *)
Inductive json :=
| JNull
| JInt (n : Z)
| JStr (s : string)
| JList (l : list json)
| JObj (o : gmap string json).

#[global] Instance json_eq_dec : EqDecision json.
Proof.
  refine (fix go (a b : json) {struct a} : Decision (a = b) :=
    let _ : EqDecision json := @go in
    match a, b with
    | JNull, JNull => left _
    | JInt n, JInt m => cast_if (decide (n = m))
    | JStr s, JStr t => cast_if (decide (s = t))
    | JList l, JList k => cast_if (decide (l = k))
    | JObj o, JObj p => cast_if (decide (o = p))
    | _, _ => right _
    end); abstract congruence.
Defined.

(** Python truthiness of such a value. *)
Definition truthy (j : json) : bool :=
  match j with
  | JNull => false
  | JInt n => negb (n =? 0)%Z
  | JStr s => negb (bool_decide (s = ""))
  | JList l => negb (bool_decide (l = []))
  | JObj o => negb (bool_decide (o = ∅))
  end.

(** [type(x).__name__] *)
Definition type_name (x : json) : string :=
  match x with
  | JNull => "NoneType"
  | JInt _ => "int"
  | JStr _ => "str"
  | JList _ => "list"
  | JObj _ => "dict"
  end.

(** The [AttributeError] of [x.attr] for an attribute the type lacks. *)
Definition no_attribute (x : json) (attr : string) : exn :=
  Exn AttributeError ("'" ++ type_name x ++ "' object has no attribute '" ++ attr ++ "'").

(** [d.get(key, fallback)] on a value that should be a [dict]; any other
    value has no attribute [get]. *)
Definition get_method (d : json) (key : string) (fallback : json) : result json :=
  match d with
  | JObj o => Returns (default fallback (o !! key))
  | _ => Raises (no_attribute d "get")
  end.

(** [len(x)] *)
Definition len (x : json) : result Z :=
  match x with
  | JStr s => Returns (Z.of_nat (String.length s))
  | JList l => Returns (Z.of_nat (length l))
  | JObj o => Returns (Z.of_nat (size o))
  | _ => Raises (Exn TypeError ("object of type '" ++ type_name x ++ "' has no len()"))
  end.

(** [s.replace(old, new)] for a one-character [old] and [new]. *)
Fixpoint replace (old new : ascii) (s : string) : string :=
  match s with
  | EmptyString => EmptyString
  | String c s' =>
      String (if Ascii.eqb c old then new else c) (replace old new s')
  end.

(** [c.isspace()] on code points below 256: tab to carriage return, the
    four information separators, space, NEL and no-break space. *)
Definition isspace (c : ascii) : bool :=
  let n := nat_of_ascii c in
  (((9 <=? n) && (n <=? 13)) || ((28 <=? n) && (n <=? 32))
   || (n =? 133) || (n =? 160))%nat.

Fixpoint lstrip (s : string) : string :=
  match s with
  | EmptyString => EmptyString
  | String c s' => if isspace c then lstrip s' else s
  end.

(** [s.rstrip()]: a character is dropped when it is white space and
    nothing but white space follows it. *)
Fixpoint rstrip (s : string) : string :=
  match s with
  | EmptyString => EmptyString
  | String c s' =>
      match rstrip s' with
      | EmptyString => if isspace c then EmptyString else String c EmptyString
      | t => String c t
      end
  end.

(** [s.strip()] *)
Definition strip (s : string) : string := rstrip (lstrip s).

(** [c.lower()] on code points below 256: A-Z and the Latin-1 capitals
    (U+00C0-U+00D6, U+00D8-U+00DE) move up by 32. *)
Definition lower_char (c : ascii) : ascii :=
  let n := nat_of_ascii c in
  if (((65 <=? n) && (n <=? 90)) || ((192 <=? n) && (n <=? 214))
      || ((216 <=? n) && (n <=? 222)))%nat
  then ascii_of_nat (n + 32) else c.

(** [s.lower()] *)
Fixpoint lower (s : string) : string :=
  match s with
  | EmptyString => EmptyString
  | String c s' => String (lower_char c) (lower s')
  end.

(** The line feed, U+000A. *)
Definition LF : string := String (ascii_of_nat 10) EmptyString.

(** [sep.join(parts)] over strings. *)
Fixpoint join (sep : string) (parts : list string) : string :=
  match parts with
  | [] => ""
  | [p] => p
  | p :: rest => p ++ sep ++ join sep rest
  end.

(** [s.endswith(suffix)] *)
Definition endswith (s suffix : string) : bool :=
  let n := String.length s in
  let k := String.length suffix in
  (k <=? n)%nat && String.eqb (substring (n - k) k s) suffix.

(** [a < b] on decoded JSON values. *)
Fixpoint lt (a b : json) {struct a} : result bool :=
  match a, b with
  | JInt n, JInt m => Returns (n <? m)%Z
  | JStr s, JStr t => Returns (String.ltb s t)
  | JList l, JList k =>
      (fix go (l k : list json) {struct l} : result bool :=
         match l, k with
         | [], [] => Returns false
         | [], _ :: _ => Returns true
         | _ :: _, [] => Returns false
         | x :: l', y :: k' => if decide (x = y) then go l' k' else lt x y
         end) l k
  | _, _ =>
      Raises (Exn TypeError ("'<' not supported between instances of '" ++
                             type_name a ++ "' and '" ++ type_name b ++ "'"))
  end.

(** A stable descending insertion sort by key with that comparison: one
    admissible behaviour of [list.sort(key=key, reverse=True)]. *)
Fixpoint insert_reverse {A} (key : A -> json) (x : A) (sorted : list A)
    : result (list A) :=
  match sorted with
  | [] => Returns [x]
  | y :: ys =>
      match lt (key x) (key y) with
      | Raises e => Raises e
      | Returns true =>
          match insert_reverse key x ys with
          | Returns r => Returns (y :: r)
          | Raises e => Raises e
          end
      | Returns false => Returns (x :: sorted)
      end
  end.

Fixpoint insertion_sort_reverse {A} (key : A -> json) (l : list A)
    : result (list A) :=
  match l with
  | [] => Returns []
  | x :: xs =>
      match insertion_sort_reverse key xs with
      | Returns sorted => insert_reverse key x sorted
      | Raises e => Raises e
      end
  end.

End Py.

Import Py.

#[global] Instance result_ret : MRet result := @Returns.
#[global] Instance result_bind : MBind result := fun A B k m => bind m k.

(** ** The conversation store ([app/utils/conversation_store.py]) *)

Module ConversationStore.

(** What [open(path, "r")] followed by [json.load] does on a file of the
    storage directory: it delivers the decoded document, or it raises
    ([JSONDecodeError] on text that is not JSON, [OSError] when the file
    cannot be opened or read, [UnicodeDecodeError] on bytes that are not
    text in the default encoding). *)
Inductive file :=
| Document (data : json)
| Unreadable (e : exn).

Definition json_load (f : file) : result json :=
  match f with
  | Document data => Returns data
  | Unreadable e => Raises e
  end.

(** The storage directory: file name to file.  The directory can be
    searched and accepts every file name, so that [file_path.exists()] and
    [storage_dir.glob] always answer; writing and unlinking always succeed.
    An [OSError] of those calls (a name that is too long, a directory that
    cannot be searched) lies outside this model. *)
Abbreviation storage := (gmap string file).

(** [_get_conversation_path], relative to [storage_dir]. *)
Definition safe_id (conversation_id : string) : string :=
  replace "\" "_" (replace "/" "_" conversation_id).

Definition _get_conversation_path (conversation_id : string) : string :=
  safe_id conversation_id ++ ".json".

(** [metadata or {}] *)
Definition or_empty (metadata : option (gmap string json)) : gmap string json :=
  match metadata with
  | Some m => m
  | None => ∅
  end.

(** [save_conversation]; [now] is what [datetime.now().isoformat()]
    returns during the call. *)
Definition save_conversation (now : string) (conversation_id : string)
    (messages : list json) (metadata : option (gmap string json))
    (fs : storage) : result storage :=
  let file_path := _get_conversation_path conversation_id in
  let data : gmap string json :=
    {[ "conversation_id" := JStr conversation_id;
       "updated_at" := JStr now;
       "messages" := JList messages;
       "metadata" := JObj (or_empty metadata) ]} in
  created_at ←
    match fs !! file_path with
    | Some f =>
        try_except
          (existing ← json_load f;
           get_method existing "created_at" (JStr now))
          [JSONDecodeError; KeyError]
          (fun _ => Returns (JStr now))
    | None => Returns (JStr now)
    end;
  Returns (<[file_path := Document (JObj (<["created_at" := created_at]> data))]> fs).

(** [load_conversation]; Python's [None] is [JNull].  The lookup is
    [file_path.exists()], which stands before the [try] block. *)
Definition load_conversation (conversation_id : string) (fs : storage) : result json :=
  let file_path := _get_conversation_path conversation_id in
  match fs !! file_path with
  | None => Returns JNull
  | Some f =>
      try_except (json_load f) [JSONDecodeError; OSError]
        (fun _ => Returns JNull)
  end.

(** [get_messages] *)
Definition get_messages (conversation_id : string) (fs : storage) : result json :=
  data ← load_conversation conversation_id fs;
  if truthy data then get_method data "messages" (JList [])
  else Returns (JList []).

(** [delete_conversation]: the answer and the directory afterwards. *)
Definition delete_conversation (conversation_id : string) (fs : storage) : bool * storage :=
  let file_path := _get_conversation_path conversation_id in
  match fs !! file_path with
  | Some _ => (true, delete file_path fs)
  | None => (false, fs)
  end.

(** The summary [list_conversations] builds from one decoded file. *)
Definition summary (data : json) : result (gmap string json) :=
  cid ← get_method data "conversation_id" JNull;
  created ← get_method data "created_at" JNull;
  updated ← get_method data "updated_at" JNull;
  msgs ← get_method data "messages" (JList []);
  n ← len msgs;
  Returns ({[ "conversation_id" := cid;
              "created_at" := created;
              "updated_at" := updated;
              "message_count" := JInt n ]} : gmap string json).

(** The [for] loop of [list_conversations] over the files [glob] yields. *)
Fixpoint collect (files : list (string * file))
    (conversations : list (gmap string json)) : result (list (gmap string json)) :=
  match files with
  | [] => Returns conversations
  | (_, f) :: rest =>
      conversations' ←
        try_except
          (data ← json_load f;
           s ← summary data;
           Returns (conversations ++ [s])%list)
          [JSONDecodeError; OSError]
          (fun _ => Returns conversations);
      collect rest conversations'
  end.

(** [storage_dir.glob("*.json")], which is iterated outside the [try]
    block of the loop: the directory is enumerated in the order of
    [map_to_list]. *)
Definition glob_json (fs : storage) : list (string * file) :=
  filter (fun nf => endswith nf.1 ".json" = true) (map_to_list fs).

(** The sort key of [list_conversations]: [x.get("updated_at", "")]. *)
Definition updated_at_key (x : gmap string json) : json :=
  default (JStr "") (x !! "updated_at").

Section Listing.

(** [list.sort(key=..., reverse=True)] is the interpreter's; it is a
    parameter here. *)
Variable sort_reverse :
  (gmap string json -> json) -> list (gmap string json) ->
  result (list (gmap string json)).

(** [list_conversations] *)
Definition list_conversations (fs : storage) : result (list (gmap string json)) :=
  conversations ← collect (glob_json fs) [];
  sort_reverse updated_at_key conversations.

End Listing.

(** The body of [save_conversation] when [messages] and [metadata] may be
    any decoded value, as [add_message] and [update_metadata] pass on what
    they read from disk.  The file is written before the closing log call
    takes [len(messages)], so the directory is returned beside the outcome. *)
Definition write_record (now : string) (conversation_id : string)
    (messages metadata : json) (fs : storage) : storage * result unit :=
  let file_path := _get_conversation_path conversation_id in
  let data : gmap string json :=
    {[ "conversation_id" := JStr conversation_id;
       "updated_at" := JStr now;
       "messages" := messages;
       "metadata" := if truthy metadata then metadata else JObj ∅ ]} in
  let created_at :=
    match fs !! file_path with
    | Some f =>
        try_except
          (existing ← json_load f;
           get_method existing "created_at" (JStr now))
          [JSONDecodeError; KeyError]
          (fun _ => Returns (JStr now))
    | None => Returns (JStr now)
    end in
  match created_at with
  | Raises e => (fs, Raises e)
  | Returns created_at =>
      (<[file_path := Document (JObj (<["created_at" := created_at]> data))]> fs,
       _ ← len messages; Returns tt)
  end.

(** [messages.append(message)] *)
Definition list_append (messages : json) (message : json) : result json :=
  match messages with
  | JList l => Returns (JList (l ++ [message])%list)
  | _ => Raises (no_attribute messages "append")
  end.

(** [add_message]; [timestamp] is the clock reading taken for the message,
    [now] the one taken by the save. *)
Definition add_message (timestamp now : string) (conversation_id : string)
    (role content : string) (metadata : option (gmap string json))
    (fs : storage) : storage * result unit :=
  let message : gmap string json :=
    {[ "role" := JStr role; "content" := JStr content;
       "timestamp" := JStr timestamp ]} in
  let message :=
    match metadata with
    | Some m => if bool_decide (m = ∅) then message else <["metadata" := JObj m]> message
    | None => message
    end in
  let prepared :=
    messages ← get_messages conversation_id fs;
    messages ← list_append messages (JObj message);
    existing_data ← load_conversation conversation_id fs;
    conv_metadata ←
      (if truthy existing_data then get_method existing_data "metadata" (JObj ∅)
       else Returns (JObj ∅));
    Returns (messages, conv_metadata) in
  match prepared with
  | Raises e => (fs, Raises e)
  | Returns (messages, conv_metadata) =>
      write_record now conversation_id messages conv_metadata fs
  end.

(** [existing_metadata.update(metadata)] *)
Definition dict_update_method (existing_metadata : json) (metadata : gmap string json)
    : result json :=
  match existing_metadata with
  | JObj m => Returns (JObj (metadata ∪ m))
  | _ => Raises (no_attribute existing_metadata "update")
  end.

(** [update_metadata] *)
Definition update_metadata (now : string) (conversation_id : string)
    (metadata : gmap string json) (fs : storage) : storage * result unit :=
  match load_conversation conversation_id fs with
  | Raises e => (fs, Raises e)
  | Returns existing =>
      if truthy existing then
        let prepared :=
          existing_metadata ← get_method existing "metadata" (JObj ∅);
          existing_metadata ← dict_update_method existing_metadata metadata;
          messages ← get_method existing "messages" (JList []);
          Returns (messages, existing_metadata) in
        match prepared with
        | Raises e => (fs, Raises e)
        | Returns (messages, existing_metadata) =>
            write_record now conversation_id messages existing_metadata fs
        end
      else write_record now conversation_id (JList []) (JObj metadata) fs
  end.

(** [clear_all]: the count and the directory afterwards. *)
Definition clear_all (fs : storage) : nat * storage :=
  fold_left (fun acc nf => (S acc.1, delete nf.1 acc.2)) (glob_json fs) (0, fs).

End ConversationStore.

(** ** Messages and conversation state ([app/agents/state.py]) *)

Module State.

(** The content of a LangChain message: a string, or a list of content
    blocks (each a string or a dict). *)
Inductive content :=
| Text (s : string)
| Blocks (l : list json).

#[global] Instance content_eq_dec : EqDecision content.
Proof. solve_decision. Defined.

(** Truthiness of [msg.content]. *)
Definition nonempty (c : content) : bool :=
  match c with
  | Text s => negb (bool_decide (s = ""))
  | Blocks l => negb (bool_decide (l = []))
  end.

(** What [json.dump] writes for a content value. *)
Definition content_json (c : content) : json :=
  match c with
  | Text s => JStr s
  | Blocks l => JList l
  end.

Inductive message :=
| HumanMessage (c : content)
| AIMessage (c : content) (tool_calls : list json)
| ToolMessage (c : content)
| SystemMessage (c : content).

#[global] Instance message_eq_dec : EqDecision message.
Proof. solve_decision. Defined.

(** [msg.content] *)
Definition message_content (m : message) : content :=
  match m with
  | HumanMessage c | AIMessage c _ | ToolMessage c | SystemMessage c => c
  end.

(** [isinstance(msg, AIMessage) and msg.content and
     not getattr(msg, "tool_calls", None)] *)
Definition plain_assistant (m : message) : bool :=
  match m with
  | AIMessage c tool_calls => nonempty c && bool_decide (tool_calls = [])
  | _ => false
  end.

(** [ExamHelperState], a [TypedDict].  A dict is modelled by its typed
    entries, [None] standing for an absent key, so that the same record
    serves for full states and for the partial updates a node returns.
    In [current_response] and [orchestrator_result] the inner [None] is
    Python's. *)
Record ExamHelperState := {
  messages : option (list message);
  user_query : option string;
  user_intent : option string;
  session_summary : option string;
  turn_count : option Z;
  current_response : option (option string);
  error : option (list string);
  orchestrator_result : option (option content);
}.

(** [key in d] for one entry. *)
Definition has_key {A} (entry : option A) : bool :=
  match entry with Some _ => true | None => false end.

(** Truthiness of a dict: it has at least one key. *)
Definition has_keys (st : ExamHelperState) : bool :=
  has_key (messages st) || has_key (user_query st) ||
  has_key (user_intent st) || has_key (session_summary st) ||
  has_key (turn_count st) || has_key (current_response st) ||
  has_key (error st) || has_key (orchestrator_result st).

(** [get_initial_state] *)
Definition get_initial_state : ExamHelperState :=
  {| messages := Some [];
     user_query := Some "";
     user_intent := Some "unknown";
     session_summary := Some "";
     turn_count := Some 0%Z;
     current_response := Some None;
     error := Some [];
     orchestrator_result := Some None |}.

(** [l[-n:]] *)
Definition last_n {A} (n : nat) (l : list A) : list A :=
  skipn (length l - n) l.

Section Context.

(** [str(x)] of a value that is not a string is the interpreter's. *)
Variable str_of : json -> string.

(** [f"{content}"] *)
Definition format_content (c : content) : string :=
  match c with
  | Text s => s
  | Blocks l => str_of (JList l)
  end.

(** [msg.content[:100] + "..." if len(msg.content) > 100 else msg.content] *)
Definition abbreviate (c : content) : result content :=
  match c with
  | Text s =>
      if (100 <? String.length s)%nat
      then Returns (Text (substring 0 100 s ++ "..."))
      else Returns c
  | Blocks l =>
      if (100 <? length l)%nat
      then Raises (Exn TypeError
                     ("can only concatenate list (not " ++ String (ascii_of_nat 34) "str" ++
                      String (ascii_of_nat 34) ") to list"))
      else Returns c
  end.

(** The [for] loop of [get_conversation_context]. *)
Fixpoint context_parts (msgs : list message) : result (list string) :=
  match msgs with
  | [] => Returns []
  | msg :: rest =>
      part ←
        match msg with
        | HumanMessage c => Returns [("User: " ++ format_content c)%string]
        | AIMessage c tool_calls =>
            if plain_assistant msg then
              shown ← abbreviate c;
              Returns [("Exam Helper: " ++ format_content shown)%string]
            else Returns []
        | _ => Returns []
        end;
      parts ← context_parts rest;
      Returns (part ++ parts)%list
  end.

(** [get_conversation_context] with its default [max_messages=6]. *)
Definition get_conversation_context (state : ExamHelperState) : result string :=
  parts ← context_parts (last_n 6 (default [] (messages state)));
  Returns (join LF parts).

End Context.

End State.

Import State.

(** ** The intent classifier ([app/utils/intent_detector.py]) *)

Module IntentDetector.

(** The double quote, U+0022. *)
Definition DQ : string := String (ascii_of_nat 34) EmptyString.

(** [INTENT_DETECTOR_PROMPT.format(message=message)] *)
Definition INTENT_DETECTOR_PROMPT (message : string) : string :=
  "Analyze the user's message and determine their requirement." ++ LF ++ LF ++
  "User message: " ++ DQ ++ message ++ DQ ++ LF ++ LF ++
  "Classify as one of:" ++ LF ++
  "- explain: explain, teach, help me understand, what is " ++ LF ++
  "- learn: create a document, summarise, revision, material " ++ LF ++ LF ++
  "Output ONLY one word: explain, or learn".

(** [response.content.strip()]: a list has no [strip]. *)
Definition content_strip (c : content) : result string :=
  match c with
  | Text s => Returns (strip s)
  | Blocks _ => Raises (Exn AttributeError "'list' object has no attribute 'strip'")
  end.

Section Detector.

Variable str_of : json -> string.

(** [os.getenv("GOOGLE_API_KEY")] *)
Variable GOOGLE_API_KEY : option string.

(** The completion service behind [llm.invoke]: the outcome of the
    [n]-th request made to it, given the prompt sent. *)
Variable completion : nat -> string -> result message.

(** [get_llm]: the key must be set and non-empty. *)
Definition get_llm : result unit :=
  match GOOGLE_API_KEY with
  | Some key =>
      if bool_decide (key = "")
      then Raises (Exn ValueError "Please set GOOGLE_API_KEY in your .env file")
      else Returns tt
  | None => Raises (Exn ValueError "Please set GOOGLE_API_KEY in your .env file")
  end.

(** The body of the [try] block of [detect_intent]; [calls] counts the
    requests made to the completion service so far. *)
Definition classify (message : content) (calls : nat) : result string * nat :=
  match get_llm with
  | Raises e => (Raises e, calls)
  | Returns _ =>
      let outcome :=
        response ← completion calls (INTENT_DETECTOR_PROMPT (format_content str_of message));
        intent ← content_strip (message_content response);
        let intent := lower intent in
        if bool_decide (intent ∈ ["explain"; "learn"]) then Returns intent
        else Returns "unknown"
      in (outcome, S calls)
  end.

(** [detect_intent] *)
Definition detect_intent (message : content) (calls : nat) : string * nat :=
  let '(outcome, calls') := classify message calls in
  (try_except_Exception outcome (fun _ => "unknown"), calls').

End Detector.

End IntentDetector.

(** ** The capability handlers ([app/agents]) *)

Module Agents.

(** The dict a handler returns: [success], the entry under the handler's
    result key ([None] is Python's), the [messages] entry when the dict
    has one, and the list under the key [error]. *)
Record HandlerResult (P : Type) := {
  success : bool;
  result_key : string;
  result_value : option P;
  result_messages : option (list message);
  result_error : list string;
}.
Arguments success {P} _.
Arguments result_key {P} _.
Arguments result_value {P} _.
Arguments result_messages {P} _.
Arguments result_error {P} _.

(** The abstract methods of [BaseAgent]. *)
Class BaseAgent := {
  get_result_key : string;
  get_prompt : option ExamHelperState -> result string;
}.

(** The dict of an [except Exception as e] branch. *)
Definition failed {P} (key : string) (e : exn) : HandlerResult P :=
  {| success := false; result_key := key; result_value := None;
     result_messages := None; result_error := [exn_str e] |}.

(** [BaseAgent.process_query]; [model] is [self.model.ainvoke]. *)
Definition process_query `{BaseAgent} (model : list message -> result message)
    (query : string) (state : option ExamHelperState) : HandlerResult content :=
  try_except_Exception
    (prompt ← get_prompt state;
     response ← model [SystemMessage (Text prompt); HumanMessage (Text query)];
     Returns {| success := true; result_key := get_result_key;
                result_value := Some (message_content response);
                result_messages := None; result_error := [] |})
    (failed get_result_key).

Definition EXPLAINER_AGENT_PROMPT (context : string) : string :=
  LF ++ "Todo" ++ LF.

Definition LEARNER_AGENT_PROMPT (context : string) : string :=
  LF ++ LF ++ "Todo" ++ LF ++ LF ++ "CONVERSATION CONTEXT:" ++ LF ++
  context ++ LF ++ LF.

Definition ORCHESTRATOR_PROMPT (intent : string) : string :=
  LF ++ "Todo" ++ LF ++ LF ++ "CURRENT STATE:" ++ LF ++
  "- Intent: " ++ intent ++ LF.

(** [_extract_text_from_message]: what one block adds to [parts]. *)
Definition block_part (str_of : json -> string) (block : json) : json :=
  match block with
  | JObj d => default (JStr "") (d !! "text")
  | JStr s => block
  | _ => JStr (str_of block)
  end.

(** [p for p in parts if p.strip()] *)
Fixpoint kept_parts (parts : list json) : result (list string) :=
  match parts with
  | [] => Returns []
  | JStr s :: rest =>
      kept ← kept_parts rest;
      Returns (if bool_decide (strip s = "") then kept else s :: kept)
  | p :: _ => Raises (no_attribute p "strip")
  end.

Definition _extract_text_from_message (str_of : json -> string)
    (message : message) : result string :=
  match message_content message with
  | Blocks l =>
      kept ← kept_parts (map (block_part str_of) l);
      Returns (join LF kept)
  | Text s => Returns s
  end.

(** [xs[-1]] *)
Definition last_item {A} (xs : list A) : result A :=
  match last xs with
  | Some x => Returns x
  | None => Raises (Exn IndexError "list index out of range")
  end.

Section Handlers.

Variable str_of : json -> string.

(** [get_conversation_context(state) if state else ""] *)
Definition context_of (state : option ExamHelperState) : result string :=
  match state with
  | Some st => if has_keys st then get_conversation_context str_of st else Returns ""
  | None => Returns ""
  end.

#[export] Instance ExplainerAgent : BaseAgent := {|
  get_result_key := "explainer_agent_result";
  get_prompt state := context ← context_of state; Returns (EXPLAINER_AGENT_PROMPT context)
|}.

#[export] Instance LearnerAgent : BaseAgent := {|
  get_result_key := "learner_agent_result";
  get_prompt state := context ← context_of state; Returns (LEARNER_AGENT_PROMPT context)
|}.

#[export] Instance OrchestratorAgent : BaseAgent := {|
  get_result_key := "orchestrator_result";
  get_prompt state :=
    let intent :=
      match state with
      | Some st => if has_keys st then default "unknown" (user_intent st) else "unknown"
      | None => "unknown"
      end in
    Returns (ORCHESTRATOR_PROMPT intent)
|}.

(** [ExplainerAgent.process_query] *)
Definition explainer_process_query (model : list message -> result message)
    (query : string) (state : option ExamHelperState) : HandlerResult content :=
  try_except_Exception
    (prompt ← get_prompt (BaseAgent := ExplainerAgent) state;
     response ← model [SystemMessage (Text prompt); HumanMessage (Text query)];
     Returns {| success := true;
                result_key := get_result_key (BaseAgent := ExplainerAgent);
                result_value := Some (message_content response);
                result_messages := None; result_error := [] |})
    (failed (get_result_key (BaseAgent := ExplainerAgent))).

(** [LearnerAgent.process_query]; [tool_loop prompt messages] is
    [create_agent(model, tools, system_prompt=prompt).ainvoke] and
    delivers [result["messages"]]. *)
Definition learner_process_query
    (tool_loop : string -> list message -> result (list message))
    (query : string) (state : option ExamHelperState) : HandlerResult string :=
  try_except_Exception
    (prompt ← get_prompt (BaseAgent := LearnerAgent) state;
     trace ← tool_loop prompt [HumanMessage (Text query)];
     final ← last_item trace;
     final_output ← _extract_text_from_message str_of final;
     Returns {| success := true;
                result_key := get_result_key (BaseAgent := LearnerAgent);
                result_value := Some final_output;
                result_messages := None; result_error := [] |})
    (failed (get_result_key (BaseAgent := LearnerAgent))).

(** [OrchestratorAgent.process_query]; [react_agent prompt messages] is
    [create_react_agent(model, tools, prompt=prompt).invoke] and delivers
    the [messages] of the state it returns. *)
Definition orchestrator_process_query
    (react_agent : string -> list message -> result (list message))
    (query : string) (state : option ExamHelperState) : HandlerResult (list message) :=
  try_except_Exception
    (prompt ← get_prompt (BaseAgent := OrchestratorAgent) state;
     trace ← react_agent prompt
               match state with
               | Some st => if has_keys st then default [] (messages st) else []
               | None => []
               end;
     Returns {| success := true; result_key := "orchestrator_result";
                result_value := Some trace;
                result_messages := Some trace; result_error := [] |})
    (failed "orchestrator_result").

End Handlers.

End Agents.

(** ** The router ([app/nodes/orchestrator_node.py]) *)

Module OrchestratorNode.

Import Agents IntentDetector.

(** One step of the loop of [_extract_text] over a list content. *)
Definition text_part (block : json) : result (list json) :=
  match block with
  | JObj d =>
      if bool_decide (d !! "type" = Some (JStr "text")) then
        match d !! "text" with
        | Some t => Returns [t]
        | None => Raises (Exn KeyError "'text'")
        end
      else Returns []
  | JStr _ => Returns [block]
  | _ => Returns []
  end.

Fixpoint text_parts (blocks : list json) : result (list json) :=
  match blocks with
  | [] => Returns []
  | block :: rest =>
      part ← text_part block;
      parts ← text_parts rest;
      Returns (part ++ parts)%list
  end.

(** [sep.join(parts)] when the parts need not be strings: the first item
    that is none, at index [i], is reported. *)
Fixpoint strings_from (i : nat) (parts : list json) : result (list string) :=
  match parts with
  | [] => Returns []
  | JStr s :: rest => strs ← strings_from (S i) rest; Returns (s :: strs)
  | p :: _ =>
      Raises (Exn TypeError ("sequence item " ++ pretty i ++ ": expected str instance, " ++
                             type_name p ++ " found"))
  end.

Definition strings_of (parts : list json) : result (list string) :=
  strings_from 0 parts.

(** [_extract_text] *)
Definition _extract_text (c : content) : result string :=
  match c with
  | Text s => Returns s
  | Blocks l =>
      parts ← text_parts l;
      strs ← strings_of parts;
      Returns (join LF strs)
  end.

(** First loop of [process]: the content of the most recent
    [HumanMessage], scanning [reversed(messages)]. *)
Fixpoint last_user_content (reversed_messages : list message) : content :=
  match reversed_messages with
  | [] => Text ""
  | HumanMessage c :: _ => c
  | _ :: rest => last_user_content rest
  end.

(** [isinstance(msg, ToolMessage) and msg.content] *)
Definition tool_output (msg : message) : bool :=
  match msg with
  | ToolMessage c => nonempty c
  | _ => false
  end.

(** Second loop of [process] over [reversed(result["messages"])]: it
    delivers [orchestrator_response] and [ai_message] as they stand when
    the loop ends. *)
Fixpoint scan (reversed_messages : list message) (ai_message : string)
    : result (content * string) :=
  match reversed_messages with
  | [] => Returns (Text "", ai_message)
  | msg :: rest =>
      if tool_output msg then Returns (message_content msg, ai_message)
      else if plain_assistant msg then
        text ← _extract_text (message_content msg);
        scan rest text
      else scan rest ai_message
  end.

(** The reply [process] computes from the trace of the tool-calling loop. *)
Definition extract_reply (trace : list message) : result content :=
  '(orchestrator_response, ai_message) ← scan (rev trace) "";
  Returns (if bool_decide (orchestrator_response = Text "")
           then Text ai_message else orchestrator_response).

Section Node.

Variable str_of : json -> string.
Variable GOOGLE_API_KEY : option string.
Variable completion : nat -> string -> result message.

(** [self.orchestrator_agent] and the loop built around its model:
    [react_agent prompt messages] is
    [create_react_agent(model, tools, prompt=prompt).invoke] and delivers
    [result["messages"]]. *)
Context (orchestrator_agent : BaseAgent).
Variable react_agent : string -> list message -> result (list message).

(** [OrchestratorNode.process]: the dict returned, and the number of
    requests made to the classifier's completion service. *)
Definition process (state : ExamHelperState) (calls : nat) : ExamHelperState * nat :=
  let user_msg := last_user_content (rev (default [] (messages state))) in
  let current_intent := default "unknown" (user_intent state) in
  let '(current_intent, calls') :=
    if bool_decide (current_intent = "unknown") && nonempty user_msg
    then detect_intent str_of GOOGLE_API_KEY completion user_msg calls
    else (current_intent, calls) in
  (try_except_Exception
     (prompt ← get_prompt (Some state);
      trace ← react_agent prompt (default [] (messages state));
      orchestrator_response ← extract_reply trace;
      Returns {| messages := Some trace;
                 user_query := None;
                 user_intent := Some current_intent;
                 session_summary := None;
                 turn_count := None;
                 current_response := None;
                 error := None;
                 orchestrator_result := Some (Some orchestrator_response) |})
     (fun e =>
        {| messages := None;
           user_query := None;
           user_intent := None;
           session_summary := None;
           turn_count := None;
           current_response := None;
           error := Some [("Orchestrator node failed: " ++ exn_str e)%string];
           orchestrator_result := Some None |}),
   calls').

End Node.

End OrchestratorNode.

(** ** The coordinator ([app/workflows/multi_agentic_workflow.py]) *)

Module Workflow.

Import ConversationStore.

(** The fields of a [MultiAgentWorkflow] that change while it runs. *)
Record MultiAgentWorkflow := {
  conversation_id : string;
  _state : option ExamHelperState;
}.

(** The dict [process_query] returns, entry by entry ([None]: no such
    key); in [response] the inner [None] is Python's. *)
Record QueryResult := {
  success : bool;
  response : option (option content);
  state : option ExamHelperState;
  error : option string;
}.

Definition FALLBACK : string := "Hi there! What's up?".

(** One step of the loop of [_save_conversation]. *)
Definition persisted (msg : message) : list json :=
  match msg with
  | HumanMessage c =>
      [JObj {[ "role" := JStr "user"; "content" := content_json c ]}]
  | AIMessage c tool_calls =>
      if nonempty c then
        if bool_decide (tool_calls = []) then
          [JObj {[ "role" := JStr "assistant"; "content" := content_json c ]}]
        else []
      else []
  | _ => []
  end.

(** [_save_conversation] *)
Definition _save_conversation (now : string) (self : MultiAgentWorkflow)
    (fs : storage) : result storage :=
  match _state self with
  | None => Returns fs
  | Some st =>
      let messages := flat_map persisted (default [] (State.messages st)) in
      let metadata : gmap string json :=
        {[ "user_intent" := JStr (default "unknown" (user_intent st));
           "turn_count" := JInt (default 0%Z (turn_count st)) ]} in
      save_conversation now (conversation_id self) messages (Some metadata) fs
  end.

(** [_get_current_state]: the state, and [self] holding it. *)
Definition _get_current_state (self : MultiAgentWorkflow)
    : ExamHelperState * MultiAgentWorkflow :=
  match _state self with
  | Some st => (st, self)
  | None =>
      (get_initial_state,
       {| conversation_id := conversation_id self; _state := Some get_initial_state |})
  end.

(** One entry after [dict.update]. *)
Definition updated {A} (new old : option A) : option A :=
  match new with
  | Some _ => new
  | None => old
  end.

(** [dict.update]: entries of [upd] replace those of [st]. *)
Definition dict_update (st upd : ExamHelperState) : ExamHelperState :=
  {| messages := updated (messages upd) (messages st);
     user_query := updated (user_query upd) (user_query st);
     user_intent := updated (user_intent upd) (user_intent st);
     session_summary := updated (session_summary upd) (session_summary st);
     turn_count := updated (turn_count upd) (turn_count st);
     current_response := updated (current_response upd) (current_response st);
     State.error := updated (State.error upd) (State.error st);
     orchestrator_result := updated (orchestrator_result upd) (orchestrator_result st) |}.

(** The two assignments that open [process_query]:
    [state["messages"] = list(state.get("messages", [])) + [HumanMessage(...)]]
    and [state["user_query"] = user_message]. *)
Definition with_user_message (st : ExamHelperState) (user_message : string)
    : ExamHelperState :=
  {| messages := Some (default [] (messages st) ++ [HumanMessage (Text user_message)])%list;
     user_query := Some user_message;
     user_intent := user_intent st;
     session_summary := session_summary st;
     turn_count := turn_count st;
     current_response := current_response st;
     State.error := State.error st;
     orchestrator_result := orchestrator_result st |}.

Section Coordinator.

(** What lies outside the coordinator and may change during a turn. *)
Variable World : Type.

(** [self.workflow.invoke(state, self.config)]: the compiled graph. *)
Variable workflow_invoke : ExamHelperState -> World -> result ExamHelperState * World.

(** The dict of the [except Exception as e] branch of [process_query]. *)
Definition failure (e : exn) : QueryResult :=
  {| success := false; response := Some (Some (Text FALLBACK));
     state := None; error := Some (exn_str e) |}.

(** [process_query]; [now] is the clock reading taken by the store.
    The state dict is updated in place before the graph runs, so [self]
    keeps the appended message when the graph raises. *)
Definition process_query (user_message : string) (now : string)
    (self : MultiAgentWorkflow) (fs : storage) (w : World)
    : QueryResult * MultiAgentWorkflow * storage * World :=
  let '(st, self) := _get_current_state self in
  let st := with_user_message st user_message in
  let self := {| conversation_id := conversation_id self; _state := Some st |} in
  match workflow_invoke st w with
  | (Raises e, w') => (failure e, self, fs, w')
  | (Returns final_state, w') =>
      let self := {| conversation_id := conversation_id self;
                     _state := Some final_state |} in
      match _save_conversation now self fs with
      | Raises e => (failure e, self, fs, w')
      | Returns fs' =>
          ({| success := true;
              response := Some (default (Some (Text FALLBACK))
                                  (orchestrator_result final_state));
              state := Some final_state;
              error := None |},
           self, fs', w')
      end
  end.

(** [chat] *)
Definition chat (user_message : string) (now : string)
    (self : MultiAgentWorkflow) (fs : storage) (w : World)
    : option content * MultiAgentWorkflow * storage * World :=
  let '(result, self, fs, w) := process_query user_message now self fs w in
  (default (Some (Text FALLBACK)) (response result), self, fs, w).

(** The loop of [run_interactive_session] in [app/main.py] without its
    console: one [chat] per input line, each paired with the clock reading
    of its save; the replies are collected in order. *)
Fixpoint chats (inputs : list (string * string))
    (self : MultiAgentWorkflow) (fs : storage) (w : World)
    : list (option content) * MultiAgentWorkflow * storage * World :=
  match inputs with
  | [] => ([], self, fs, w)
  | (user_input, now) :: rest =>
      let '(reply, self, fs, w) := chat user_input now self fs w in
      let '(replies, self, fs, w) := chats rest self fs w in
      (reply :: replies, self, fs, w)
  end.

End Coordinator.

Section RouterGraph.

Variable str_of : json -> string.
Variable GOOGLE_API_KEY : option string.
Variable completion : nat -> string -> result message.
Context (orchestrator_agent : Agents.BaseAgent).
Variable react_agent : string -> list message -> result (list message).

(** Modelled from the spec: the nodes and edges of the state graph,
    which [_create_workflow] leaves as a to-do.  Following the
    coordinator's description (append the user message, run the Router,
    persist the post-turn state), the graph is the single node
    [OrchestratorNode.process], whose returned dict is folded into the
    state; the message trace of the node replaces the [messages] entry. *)
Definition router_graph (st : ExamHelperState) (calls : nat)
    : result ExamHelperState * nat :=
  let '(upd, calls') :=
    OrchestratorNode.process str_of GOOGLE_API_KEY completion
      orchestrator_agent react_agent st calls in
  (Returns (dict_update st upd), calls').

(** Modelled from the spec: the counting of round trips.  No node under
    [app/] changes [turn_count], and [_create_workflow] leaves the graph
    that would do so as a to-do; the data model has the counter
    incremented once per completed round trip.  A run of this graph is a run
    of [router_graph] whose returned state has the counter raised by one
    (counting from 0 when the state has no such entry). *)
Definition counting_graph (st : ExamHelperState) (calls : nat)
    : result ExamHelperState * nat :=
  let '(outcome, calls') := router_graph st calls in
  (final ← outcome;
   Returns {| messages := messages final;
              user_query := user_query final;
              user_intent := user_intent final;
              session_summary := session_summary final;
              turn_count := Some (default 0 (turn_count final) + 1)%Z;
              current_response := current_response final;
              State.error := State.error final;
              orchestrator_result := orchestrator_result final |},
   calls').

End RouterGraph.

End Workflow.

(** ** Hydration, greeting and the console loop
       ([app/workflows/multi_agentic_workflow.py], [app/main.py]) *)

Module Sessions.

Import ConversationStore Workflow.

(** How a method that updates the coordinator in place ends: it returns a
    value, or it raises and leaves the coordinator as it stood then, or it
    would store a metadata entry of a type the annotations of
    [ExamHelperState] exclude, which this typed model cannot hold. *)
Inductive outcome (A : Type) :=
| Done (self : MultiAgentWorkflow) (a : A)
| Aborted (self : MultiAgentWorkflow) (e : exn)
| Untyped.
Arguments Done {A} self a.
Arguments Aborted {A} self e.
Arguments Untyped {A}.

(** What the message constructors accept for [content]: a string, or a
    list whose items are strings or dicts; anything else fails validation
    with a [ValueError]. *)
Definition valid_block (block : json) : bool :=
  match block with
  | JStr _ | JObj _ => true
  | _ => false
  end.

Definition message_content_of (c : json) : result content :=
  match c with
  | JStr s => Returns (Text s)
  | JList l =>
      if forallb valid_block l then Returns (Blocks l)
      else Raises (Exn ValueError "validation error for content")
  | _ => Raises (Exn ValueError "validation error for content")
  end.

(** One step of the loop of [_load_conversation_history]. *)
Definition replayed (msg : json) : result (list message) :=
  role ← get_method msg "role" JNull;
  if bool_decide (role = JStr "user") then
    c ← get_method msg "content" (JStr "");
    c ← message_content_of c;
    Returns [HumanMessage c]
  else if bool_decide (role = JStr "assistant") then
    c ← get_method msg "content" (JStr "");
    c ← message_content_of c;
    Returns [AIMessage c []]
  else Returns [].

Fixpoint replay (stored : list json) : result (list message) :=
  match stored with
  | [] => Returns []
  | msg :: rest =>
      first ← replayed msg;
      others ← replay rest;
      Returns (first ++ others)%list
  end.

(** [for msg in stored_messages] with its body, for a truthy
    [stored_messages]: a list is replayed; the items of a string or a dict
    are strings, which have no [get]; a number cannot be iterated. *)
Definition replay_stored (stored_messages : json) : result (list message) :=
  match stored_messages with
  | JList l => replay l
  | JStr _ | JObj _ => Raises (no_attribute (JStr "") "get")
  | _ => Raises (Exn TypeError ("'" ++ type_name stored_messages ++ "' object is not iterable"))
  end.

Definition holding (self : MultiAgentWorkflow) (st : ExamHelperState)
    : MultiAgentWorkflow :=
  {| conversation_id := conversation_id self; _state := Some st |}.

Definition with_messages (st : ExamHelperState) (msgs : list message)
    : ExamHelperState :=
  {| messages := Some msgs; user_query := user_query st;
     user_intent := user_intent st; session_summary := session_summary st;
     turn_count := turn_count st; current_response := current_response st;
     State.error := State.error st; orchestrator_result := orchestrator_result st |}.

Definition with_user_intent (st : ExamHelperState) (intent : string)
    : ExamHelperState :=
  {| messages := messages st; user_query := user_query st;
     user_intent := Some intent; session_summary := session_summary st;
     turn_count := turn_count st; current_response := current_response st;
     State.error := State.error st; orchestrator_result := orchestrator_result st |}.

Definition with_turn_count (st : ExamHelperState) (n : Z) : ExamHelperState :=
  {| messages := messages st; user_query := user_query st;
     user_intent := user_intent st; session_summary := session_summary st;
     turn_count := Some n; current_response := current_response st;
     State.error := State.error st; orchestrator_result := orchestrator_result st |}.

(** The last block of [_load_conversation_history]: restoring intent and
    counter from the record's metadata. *)
Definition restore_metadata (self : MultiAgentWorkflow) (st : ExamHelperState)
    (fs : storage) : outcome unit :=
  match load_conversation (conversation_id self) fs with
  | Raises e => Aborted (holding self st) e
  | Returns conversation_data =>
      if truthy conversation_data then
        match get_method conversation_data "metadata" JNull with
        | Raises e => Aborted (holding self st) e
        | Returns metadata =>
            if truthy metadata then
              match get_method metadata "user_intent" (JStr "unknown") with
              | Raises e => Aborted (holding self st) e
              | Returns (JStr intent) =>
                  let st := with_user_intent st intent in
                  match get_method metadata "turn_count" (JInt 0) with
                  | Raises e => Aborted (holding self st) e
                  | Returns (JInt n) => Done (holding self (with_turn_count st n)) tt
                  | Returns _ => Untyped
                  end
              | Returns _ => Untyped
              end
            else Done (holding self st) tt
        end
      else Done (holding self st) tt
  end.

(** [_load_conversation_history] *)
Definition _load_conversation_history (self : MultiAgentWorkflow) (fs : storage)
    : outcome unit :=
  match get_messages (conversation_id self) fs with
  | Raises e => Aborted self e
  | Returns stored_messages =>
      if truthy stored_messages then
        match replay_stored stored_messages with
        | Raises e => Aborted (holding self get_initial_state) e
        | Returns messages =>
            restore_metadata self (with_messages get_initial_state messages) fs
        end
      else Done self tt
  end.

(** [MultiAgentWorkflow.load_conversation] *)
Definition load_conversation (conversation_id : string) (self : MultiAgentWorkflow)
    (fs : storage) : outcome bool :=
  let self := {| Workflow.conversation_id := conversation_id; _state := None |} in
  match _load_conversation_history self fs with
  | Done self _ => Done self (has_key (_state self))
  | Aborted self e => Aborted self e
  | Untyped => Untyped
  end.

(** [get_greeting]; [model_invoke] is the orchestrator model's [invoke]. *)
Definition get_greeting (model_invoke : string → result message) : content :=
  try_except_Exception
    (response ← model_invoke "Todo";
     if nonempty (message_content response)
     then Returns (message_content response)
     else Returns (Text FALLBACK))
    (fun _ => Text FALLBACK).

Definition EXIT_WORDS : list string := ["quit"; "exit"; "bye"; "goodbye"].

Section Console.

Variable World : Type.
Variable workflow_invoke : ExamHelperState → World → result ExamHelperState * World.

(** The [while] loop of [run_interactive_session]: each element of [lines]
    is what [input] returns next, paired with the clock reading a save of
    that turn would take; the end of the list is the [EOFError] that ends
    the session.  The replies printed are collected in order. *)
Fixpoint interactive_loop (lines : list (string * string))
    (self : MultiAgentWorkflow) (fs : storage) (w : World)
    : list (option content) * MultiAgentWorkflow * storage * World :=
  match lines with
  | [] => ([], self, fs, w)
  | (line, now) :: rest =>
      let user_input := strip line in
      if bool_decide (user_input = "") then interactive_loop rest self fs w
      else if bool_decide (lower user_input ∈ EXIT_WORDS) then ([], self, fs, w)
      else
        let '(reply, self, fs, w) := chat World workflow_invoke user_input now self fs w in
        let '(replies, self, fs, w) := interactive_loop rest self fs w in
        (reply :: replies, self, fs, w)
  end.

End Console.

End Sessions.

(** ** Agent-backed tools ([app/tools/exam_helper_tools.py]) *)

Module Tools.

Import Agents.

(** The check that opens [BaseLLM.__init__]:
    [api_key or os.getenv("GOOGLE_API_KEY")] must be set and non-empty;
    [setup_model] is what building the chat model then does. *)
Definition init_agent (api_key GOOGLE_API_KEY : option string)
    (setup_model : result unit) : result unit :=
  let key :=
    match api_key with
    | Some k => if bool_decide (k = "") then GOOGLE_API_KEY else api_key
    | None => GOOGLE_API_KEY
    end in
  match key with
  | Some k =>
      if bool_decide (k = "")
      then Raises (Exn ValueError "Google API key is required. Set GOOGLE_API_KEY in .env file.")
      else setup_model
  | None => Raises (Exn ValueError "Google API key is required. Set GOOGLE_API_KEY in .env file.")
  end.

(** [_build_state_from_context] *)
Definition _build_state_from_context (context : string) : ExamHelperState :=
  {| messages := Some (if bool_decide (context = "") then []
                       else [HumanMessage (Text context)]);
     user_query := None; user_intent := None; session_summary := None;
     turn_count := None; current_response := None; State.error := None;
     orchestrator_result := None |}.

(** [result.get(key, fallback)] on the dict a handler returns; its keys are
    [success], the handler's result key, and [error]. *)
Definition result_get {P} (r : HandlerResult P) (key : string)
    (fallback : option P) : option P :=
  if bool_decide (key = result_key r) then result_value r else fallback.

Section AgentTools.

Variable str_of : json → string.
Variable GOOGLE_API_KEY : option string.
Variable setup_model : result unit.

(** [_get_agent]: [_agent_cache] is modelled by the set of class names
    that have an instance. *)
Definition _get_agent (name : string) (cache : gset string)
    : result unit * gset string :=
  if bool_decide (name ∈ cache) then (Returns tt, cache)
  else
    match init_agent None GOOGLE_API_KEY setup_model with
    | Returns _ => (Returns tt, {[ name ]} ∪ cache)
    | Raises e => (Raises e, cache)
    end.

(** [agent_tool_fn] of the [explainer] tool; [model] is the explainer's
    [self.model.ainvoke]. *)
Definition explainer_tool_fn (model : list message → result message)
    (message context : string) (cache : gset string)
    : result (option content) * gset string :=
  match _get_agent "ExplainerAgent" cache with
  | (Raises e, cache) => (Raises e, cache)
  | (Returns _, cache) =>
      let state := _build_state_from_context context in
      let result := explainer_process_query str_of model message (Some state) in
      (Returns (result_get result
                  (get_result_key (BaseAgent := ExplainerAgent str_of))
                  (Some (Text ""))),
       cache)
  end.

(** [agent_tool_fn] of the [learner] tool. *)
Definition learner_tool_fn
    (tool_loop : string → list message → result (list message))
    (message context : string) (cache : gset string)
    : result (option string) * gset string :=
  match _get_agent "LearnerAgent" cache with
  | (Raises e, cache) => (Raises e, cache)
  | (Returns _, cache) =>
      let state := _build_state_from_context context in
      let result := learner_process_query str_of tool_loop message (Some state) in
      (Returns (result_get result
                  (get_result_key (BaseAgent := LearnerAgent str_of))
                  (Some "")),
       cache)
  end.

End AgentTools.

End Tools.

(** ** The retrieval tool ([app/tools/firecrawl_tool.py]) *)

Module Firecrawl.

(** One entry of [search_result.web]. *)
Record source := { title : string; url : string }.

(** [markdown[:4000]] and the block appended to [contents]. *)
Definition source_block (item : source) (markdown : string) : string :=
  "Title: " ++ title item ++ LF ++ "Source: " ++ url item ++ LF ++
  substring 0 4000 markdown.

Section Tool.

(** [Firecrawl(...).search(query=query, limit=num_results).web]; the empty
    list stands for a falsy [web]. *)
Variable search : string → Z → result (list source).

(** [app.scrape(url)]: the page's [markdown]; [None] when there is no page
    or no markdown. *)
Variable scrape : string → result (option string).

(** The [for] loop over [search_result.web]. *)
Fixpoint scrape_all (items : list source) : result (list string) :=
  match items with
  | [] => Returns []
  | item :: rest =>
      page ← scrape (url item);
      contents ← scrape_all rest;
      Returns match page with
              | Some markdown =>
                  if bool_decide (markdown = "") then contents
                  else source_block item markdown :: contents
              | None => contents
              end
  end.

(** [firecrawl_tool] *)
Definition firecrawl_tool (query : string) (num_results : Z) : result string :=
  web ← search query num_results;
  if bool_decide (web = []) then Returns "No relevant sources found."
  else
    contents ← scrape_all web;
    Returns (join (LF ++ LF) contents).

End Tool.

End Firecrawl.

(** ** The specification's wording, for comparison with the code *)

Module Requirements.

(** The last element of a list that satisfies [p]. *)
Definition last_such {A} (p : A → bool) (l : list A) : option A :=
  head (filter (λ x, p x = true) (rev l)).

(** The extraction policy as the specification words it: the content of
    the last tool output with content if there is one, otherwise the content
    of the last assistant message with content and no tool calls, otherwise
    the empty string. *)
Definition reply_policy (trace : list message) : content :=
  match last_such OrchestratorNode.tool_output trace with
  | Some msg => message_content msg
  | None =>
      match last_such plain_assistant trace with
      | Some msg => message_content msg
      | None => Text ""
      end
  end.

(** The persistence filter as the specification words it: user messages,
    and assistant messages that have content and no tool calls. *)
Definition user_or_plain_assistant (msg : message) : bool :=
  match msg with
  | HumanMessage _ => true
  | _ => plain_assistant msg
  end.

(** The persisted form of a message that passes the filter. *)
Definition stored_form (msg : message) : json :=
  JObj {[ "role" := JStr match msg with
                         | HumanMessage _ => "user"
                         | _ => "assistant"
                         end;
          "content" := content_json (message_content msg) ]}.

Definition persisted_messages (trace : list message) : list json :=
  map stored_form (filter (λ msg, user_or_plain_assistant msg = true) trace).

(** White space as the specification's trimming takes it: the code points
    below 256 that count as white space (tab to carriage return, the four
    information separators, space, NEL and no-break space). *)
Definition white_space : list nat := [9; 10; 11; 12; 13; 28; 29; 30; 31; 32; 133; 160].

Definition white (c : ascii) : bool := bool_decide (nat_of_ascii c ∈ white_space).

(** Nothing but white space. *)
Fixpoint blank (s : string) : bool :=
  match s with
  | EmptyString => true
  | String c s' => white c && blank s'
  end.

Definition first_char (s : string) : option ascii :=
  match s with
  | EmptyString => None
  | String c _ => Some c
  end.

Fixpoint last_char (s : string) : option ascii :=
  match s with
  | EmptyString => None
  | String c s' =>
      match s' with
      | EmptyString => Some c
      | String _ _ => last_char s'
      end
  end.

(** Neither the first nor the last character is white space. *)
Definition bare (s : string) : bool :=
  negb (from_option white false (first_char s)) &&
  negb (from_option white false (last_char s)).

(** [core] is [s] trimmed: [s] is [core] between two runs of white space,
    and [core] has none at either end. *)
Definition trimmed (s core : string) : Prop :=
  ∃ pre post, s = pre ++ core ++ post ∧ blank pre = true ∧ blank post = true ∧
              bare core = true.

(** [s] spells the lower-case word [label] in some mix of upper and lower
    case: character by character it is the letter of [label] or the capital
    32 code points below it. *)
Fixpoint spells (s label : string) : bool :=
  match s, label with
  | EmptyString, EmptyString => true
  | String c s', String l label' =>
      (bool_decide (c = l) || bool_decide (nat_of_ascii c + 32 = nat_of_ascii l)%nat)
      && spells s' label'
  | _, _ => false
  end.

(** The classification as the specification words it: the reply, trimmed
    and without regard to case, is accepted when it is one of the two known
    labels; any other reply is [unknown]. *)
Definition accepted (core : string) : string :=
  if spells core "explain" then "explain"
  else if spells core "learn" then "learn"
  else "unknown".

(** A session of the coordinator as the data model counts it:
    [process_query] once per input (a message and the clock reading of its
    save), the returned dicts collected in order. *)
Fixpoint round_trips {World : Type}
    (workflow_invoke : ExamHelperState → World → result ExamHelperState * World)
    (inputs : list (string * string)) (self : Workflow.MultiAgentWorkflow)
    (fs : gmap string ConversationStore.file) (w : World)
    : list Workflow.QueryResult * Workflow.MultiAgentWorkflow
      * gmap string ConversationStore.file * World :=
  match inputs with
  | [] => ([], self, fs, w)
  | (user_message, now) :: rest =>
      let '(result, self, fs, w) :=
        Workflow.process_query World workflow_invoke user_message now self fs w in
      let '(results, self, fs, w) := round_trips workflow_invoke rest self fs w in
      (result :: results, self, fs, w)
  end.

(** The number of completed round trips among them: the calls of
    [process_query] that succeeded. *)
Definition completed (results : list Workflow.QueryResult) : Z :=
  Z.of_nat (length (List.filter Workflow.success results)).

(** The counter a coordinator shows: [turn_count] of the state it works on,
    0 when the state has no such entry. *)
Definition counter (self : Workflow.MultiAgentWorkflow) : Z :=
  default 0%Z (turn_count (Workflow._get_current_state self).1).

(** The counting the data model asks of the coordinator, call by call: a
    call of [process_query] that succeeds raises the counter by one, and a
    call that does not leaves it. *)
Definition counts_round_trips {World : Type}
    (workflow_invoke : ExamHelperState → World → result ExamHelperState * World)
    : Prop :=
  ∀ user_message now self fs w,
    let outcome :=
      Workflow.process_query World workflow_invoke user_message now self fs w in
    counter outcome.1.1.2
    = (counter self + if Workflow.success outcome.1.1.1 then 1 else 0)%Z.

(** The lines of a console session that become turns: trimmed, blank ones
    left out, up to the first exit word. *)
Fixpoint turns_of (lines : list (string * string)) : list (string * string) :=
  match lines with
  | [] => []
  | (line, now) :: rest =>
      if bool_decide (strip line = "") then turns_of rest
      else if bool_decide (lower (strip line) ∈ Sessions.EXIT_WORDS) then []
      else (strip line, now) :: turns_of rest
  end.

End Requirements.

(** * Properties *)

Import ConversationStore.

(** ** Conversation store *)

Section StoreFacts.

Implicit Types (fs : storage) (msgs : list json) (meta : option (gmap string json)).

Lemma bind_returns {A B} (m : result A) (k : A -> result B) (b : B) :
  m ≫= k = Returns b → ∃ a, m = Returns a ∧ k a = Returns b.
Proof. destruct m as [a|e]; simpl; [eauto | discriminate]. Qed.

(** What a completed [save_conversation] leaves on disk. *)
Lemma save_conversation_written now id msgs meta fs fs' :
  save_conversation now id msgs meta fs = Returns fs' →
  ∃ rec created,
    fs' = <[_get_conversation_path id := Document (JObj rec)]> fs ∧
    rec !! "conversation_id" = Some (JStr id) ∧
    rec !! "updated_at" = Some (JStr now) ∧
    rec !! "messages" = Some (JList msgs) ∧
    rec !! "metadata" = Some (JObj (or_empty meta)) ∧
    rec !! "created_at" = Some created ∧
    (fs !! _get_conversation_path id = None → created = JStr now) ∧
    (∀ o, fs !! _get_conversation_path id = Some (Document (JObj o)) →
          created = default (JStr now) (o !! "created_at")).
Proof.
  unfold save_conversation. intros Hsave.
  apply bind_returns in Hsave as (created & Hcreated & Hret).
  injection Hret as <-.
  eexists _, created. split; [reflexivity|].
  repeat split; try reflexivity.
  - intros Hnone. rewrite Hnone in Hcreated. by injection Hcreated.
  - intros o Ho. rewrite Ho in Hcreated. simpl in Hcreated. by injection Hcreated.
Qed.

End StoreFacts.

Section StoreRoundTrip.

Implicit Types (fs : storage) (msgs : list json) (meta : option (gmap string json)).

(** A file that is absent, or that holds a JSON object, can be saved over. *)
Lemma save_conversation_returns now id msgs meta fs :
  (∀ f, fs !! _get_conversation_path id = Some f → ∃ o, f = Document (JObj o)) →
  ∃ fs', save_conversation now id msgs meta fs = Returns fs'.
Proof.
  intros Hfile. unfold save_conversation.
  destruct (fs !! _get_conversation_path id) as [f|] eqn:Hf; simpl; [|eauto].
  destruct (Hfile f eq_refl) as [o ->]. simpl. eauto.
Qed.

Lemma load_conversation_document id data fs :
  fs !! _get_conversation_path id = Some (Document data) →
  load_conversation id fs = Returns data.
Proof. unfold load_conversation. by intros ->. Qed.

(** [save_conversation] returns exactly when the file of the id is absent,
    holds a JSON object, or fails to open or decode with an exception its
    [except (json.JSONDecodeError, KeyError)] clause catches. *)
Lemma save_conversation_returns_iff now id msgs meta fs :
  (∃ fs', save_conversation now id msgs meta fs = Returns fs') ↔
  (∀ f, fs !! _get_conversation_path id = Some f →
        (∃ o, f = Document (JObj o)) ∨
        (∃ e, f = Unreadable e ∧ caught_by [JSONDecodeError; KeyError] e = true)).
Proof.
  unfold save_conversation.
  destruct (fs !! _get_conversation_path id) as [f|] eqn:Hf;
    [|split; [intros _ f [= ]|eauto]].
  destruct f as [data|e]; unfold try_except, json_load;
    cbn [mbind result_bind bind].
  - destruct data as [| n | s | l | o]; cbn [get_method mbind result_bind bind].
    5: { split; [intros _ f [= <-]; left; eauto | eauto]. }
    all: split;
      [ intros [fs' Hsave]; discriminate Hsave
      | intros Hfile; destruct (Hfile _ eq_refl) as [[o' [= ]]|(e & [= ] & _)] ].
  - destruct (caught_by [JSONDecodeError; KeyError] e) eqn:Hcaught;
      cbn [mbind result_bind bind].
    + split; [|eauto]. intros _ f [= <-]. right. eauto.
    + split; [intros [fs' Hsave]; discriminate Hsave|].
      intros Hfile. destruct (Hfile _ eq_refl) as [[o [= ]]|(e' & [= <-] & Hc)].
      congruence.
Qed.




End StoreRoundTrip.

Section StoreAliasing.

Implicit Types (fs : storage) (msgs : list json) (meta : option (gmap string json)).

(** Every operation reaches the directory through the sanitized id only. *)
Lemma path_of_safe_id id1 id2 :
  safe_id id1 = safe_id id2 → _get_conversation_path id1 = _get_conversation_path id2.
Proof. unfold _get_conversation_path. by intros ->. Qed.

Lemma get_messages_record id rec msgs fs :
  fs !! _get_conversation_path id = Some (Document (JObj rec)) →
  rec !! "messages" = Some (JList msgs) →
  get_messages id fs = Returns (JList msgs).
Proof.
  intros Hfile Hmsgs. unfold get_messages.
  rewrite (load_conversation_document _ _ _ Hfile). simpl.
  case_bool_decide as Hempty; simpl.
  - rewrite Hempty, lookup_empty in Hmsgs. discriminate.
  - by rewrite Hmsgs.
Qed.

(** C10. Two identifiers with the same sanitized form address one record:
    the three read and delete operations agree on every directory, and a
    save under one identifier (over a file that is absent or holds a record)
    is what [load_conversation], [get_messages] and [delete_conversation]
    observe under the other. *)
Theorem aliased_ids_share_record id1 id2 now msgs meta fs :
  safe_id id1 = safe_id id2 →
  (∀ f, fs !! _get_conversation_path id1 = Some f → ∃ o, f = Document (JObj o)) →
  (∀ fs0, load_conversation id2 fs0 = load_conversation id1 fs0 ∧
          get_messages id2 fs0 = get_messages id1 fs0 ∧
          delete_conversation id2 fs0 = delete_conversation id1 fs0) ∧
  ∃ fs' rec,
    save_conversation now id1 msgs meta fs = Returns fs' ∧
    load_conversation id2 fs' = Returns (JObj rec) ∧
    rec !! "conversation_id" = Some (JStr id1) ∧
    rec !! "messages" = Some (JList msgs) ∧
    get_messages id2 fs' = Returns (JList msgs) ∧
    (delete_conversation id2 fs').1 = true ∧
    load_conversation id1 (delete_conversation id2 fs').2 = Returns JNull.
Proof.
  intros Hsafe Hfile. apply path_of_safe_id in Hsafe as Hpath. split.
  - intros fs0. unfold get_messages, load_conversation, delete_conversation.
    by rewrite Hpath.
  - destruct (save_conversation_returns now id1 msgs meta fs Hfile) as [fs' Hsave].
    destruct (save_conversation_written _ _ _ _ _ _ Hsave)
      as (rec & created & -> & Hid & _ & Hmsgs & _).
    set (fs' := <[_get_conversation_path id1 := Document (JObj rec)]> fs).
    assert (Hrec : fs' !! _get_conversation_path id2 = Some (Document (JObj rec))).
    { rewrite <- Hpath. apply lookup_insert_eq. }
    exists fs', rec. repeat split; try done.
    + by apply load_conversation_document.
    + by apply get_messages_record with rec.
    + unfold delete_conversation. by rewrite Hrec.
    + unfold delete_conversation. rewrite Hrec. simpl.
      unfold load_conversation. by rewrite Hpath, lookup_delete_eq.
Qed.

Lemma aliased_ids_share_record_witness :
  safe_id "a/b" = "a_b" ∧ safe_id "a\b" = "a_b" ∧ safe_id "a_b" = "a_b" ∧
  ∃ fs' rec,
    save_conversation "2026-01-01T10:00:00" "a/b" [JStr "m"] None ∅ = Returns fs' ∧
    load_conversation "a\b" fs' = Returns (JObj rec) ∧
    rec !! "conversation_id" = Some (JStr "a/b") ∧
    rec !! "messages" = Some (JList [JStr "m"]) ∧
    get_messages "a\b" fs' = Returns (JList [JStr "m"]) ∧
    (delete_conversation "a\b" fs').1 = true ∧
    load_conversation "a/b" (delete_conversation "a\b" fs').2 = Returns JNull.
Proof.
  repeat split; try reflexivity.
  apply (aliased_ids_share_record "a/b" "a\b" "2026-01-01T10:00:00" [JStr "m"] None ∅).
  - reflexivity.
  - intros f Hf. rewrite lookup_empty in Hf. discriminate.
Defined.

End StoreAliasing.

Section StoreReads.

Implicit Types (fs : storage) (e : exn).

(** The two classes the store's read operations catch. *)
Abbreviation absorbed e := (caught_by [JSONDecodeError; OSError] e).

Lemma load_conversation_missing id fs :
  fs !! _get_conversation_path id = None →
  load_conversation id fs = Returns JNull ∧ get_messages id fs = Returns (JList []).
Proof.
  intros Hnone. unfold get_messages, load_conversation. by rewrite Hnone.
Qed.

Lemma load_conversation_absorbs id fs e :
  fs !! _get_conversation_path id = Some (Unreadable e) → absorbed e = true →
  load_conversation id fs = Returns JNull ∧ get_messages id fs = Returns (JList []).
Proof.
  intros Hfile Hcaught.
  assert (Hload : load_conversation id fs = Returns JNull).
  { unfold load_conversation. rewrite Hfile.
    unfold try_except, json_load. by rewrite Hcaught. }
  split; [done|]. unfold get_messages. by rewrite Hload.
Qed.

Lemma collect_members files acc l s :
  collect files acc = Returns l → s ∈ l →
  s ∈ acc ∨ ∃ name data, (name, Document data) ∈ files ∧ summary data = Returns s.
Proof.
  revert acc. induction files as [|[name f] rest IH]; intros acc; simpl.
  - intros [= <-]. auto.
  - destruct (try_except _ _ _) as [acc'|e'] eqn:Hstep; simpl; [|discriminate].
    intros Hrest Hs. destruct (IH _ Hrest Hs) as [Hacc'|(n & d & Hin & Hsum)].
    + unfold try_except in Hstep.
      destruct f as [data|e0]; cbn [json_load mbind result_bind bind] in Hstep.
      * destruct (summary data) as [s0|e0] eqn:Hsum;
          cbn [mbind result_bind bind] in Hstep.
        -- injection Hstep as <-. apply elem_of_app in Hacc' as [?|Hnew]; [auto|].
           apply list_elem_of_singleton in Hnew as ->. right.
           exists name, data. split; [left|done].
        -- destruct (absorbed e0); [|discriminate]. injection Hstep as <-. auto.
      * destruct (absorbed e0); [|discriminate]. injection Hstep as <-. auto.
    + right. exists n, d. split; [by right|done].
Qed.

Lemma glob_json_lookup fs name f :
  (name, f) ∈ glob_json fs → fs !! name = Some f.
Proof.
  unfold glob_json. intros Hin. apply list_elem_of_filter in Hin as [_ Hin].
  by apply elem_of_map_to_list in Hin.
Qed.

Lemma load_conversation_passes id fs e :
  fs !! _get_conversation_path id = Some (Unreadable e) → absorbed e = false →
  load_conversation id fs = Raises e ∧ get_messages id fs = Raises e.
Proof.
  intros Hfile Hcaught.
  assert (Hload : load_conversation id fs = Raises e).
  { unfold load_conversation. rewrite Hfile.
    unfold try_except, json_load. by rewrite Hcaught. }
  split; [done|]. unfold get_messages. by rewrite Hload.
Qed.

(** [get_messages] on a decoded document. *)
Lemma get_messages_document id fs data :
  fs !! _get_conversation_path id = Some (Document data) →
  (truthy data = false → get_messages id fs = Returns (JList [])) ∧
  (∀ o, data = JObj o → o ≠ ∅ →
        get_messages id fs = Returns (default (JList []) (o !! "messages"))) ∧
  (truthy data = true → (∀ o, data ≠ JObj o) →
   ∃ e, get_messages id fs = Raises e ∧ exn_cls e = AttributeError).
Proof.
  intros Hfile. unfold get_messages.
  rewrite (load_conversation_document _ _ _ Hfile). cbn [mbind result_bind bind].
  split; [by intros ->|]. split.
  - intros o -> Hne. simpl. by rewrite (bool_decide_eq_false_2 _ Hne).
  - intros -> Hother. destruct data as [| n | s | l | o]; simpl; eauto.
    by destruct (Hother o).
Qed.

(** One file of the loop of [list_conversations] whose reading raises. *)
Lemma collect_unreadable name e files acc :
  collect ((name, Unreadable e) :: files) acc
  = if absorbed e then collect files acc else Raises e.
Proof.
  cbn [collect]. unfold try_except, json_load. cbn [mbind result_bind bind].
  by destruct (absorbed e).
Qed.

(** One file of that loop whose document is not an object. *)
Lemma collect_not_a_record name data files acc :
  (∀ o, data ≠ JObj o) →
  ∃ e, collect ((name, Document data) :: files) acc = Raises e ∧
       exn_cls e = AttributeError.
Proof.
  intros Hother. cbn [collect]. unfold try_except, json_load, summary.
  destruct data as [| n | s | l | o]; cbn [get_method mbind result_bind bind];
    eauto. by destruct (Hother o).
Qed.

(** [list.sort]: what it returns is a rearrangement of its input. *)
Variable sort_reverse :
  (gmap string json → json) → list (gmap string json) → result (list (gmap string json)).
Hypothesis sort_permutes :
  ∀ key l l', sort_reverse key l = Returns l' → l' ≡ₚ l.

(** C9, as amended.  Once [file_path.exists()] has answered: a missing
    record, and a record whose opening or decoding raises [JSONDecodeError]
    or [IOError], make [load_conversation] return [None] and [get_messages]
    return the empty list; any other exception raised there passes through
    both.  A decoded document is returned as it is; [get_messages] answers
    the empty list for a falsy one, the [messages] entry for a non-empty
    object, and raises [AttributeError] for a truthy one that is no object.
    The loop of [list_conversations] skips a file whose reading raises one
    of the two classes, lets any other exception through, raises
    [AttributeError] on a document that is no object, and every entry of a
    listing comes from a file that could be read. *)
Theorem read_operations_absorb_storage_errors :
  (∀ id fs, fs !! _get_conversation_path id = None →
     load_conversation id fs = Returns JNull ∧ get_messages id fs = Returns (JList [])) ∧
  (∀ id fs e, fs !! _get_conversation_path id = Some (Unreadable e) → absorbed e = true →
     load_conversation id fs = Returns JNull ∧ get_messages id fs = Returns (JList [])) ∧
  (∀ id fs e, fs !! _get_conversation_path id = Some (Unreadable e) → absorbed e = false →
     load_conversation id fs = Raises e ∧ get_messages id fs = Raises e) ∧
  (∀ id fs data, fs !! _get_conversation_path id = Some (Document data) →
     load_conversation id fs = Returns data ∧
     (truthy data = false → get_messages id fs = Returns (JList [])) ∧
     (∀ o, data = JObj o → o ≠ ∅ →
           get_messages id fs = Returns (default (JList []) (o !! "messages"))) ∧
     (truthy data = true → (∀ o, data ≠ JObj o) →
      ∃ e, get_messages id fs = Raises e ∧ exn_cls e = AttributeError)) ∧
  (∀ name e files acc,
     collect ((name, Unreadable e) :: files) acc
     = if absorbed e then collect files acc else Raises e) ∧
  (∀ name data files acc,
     (∀ o, data ≠ JObj o) →
     ∃ e, collect ((name, Document data) :: files) acc = Raises e ∧
          exn_cls e = AttributeError) ∧
  (∀ fs l s, list_conversations sort_reverse fs = Returns l → s ∈ l →
     ∃ name data, fs !! name = Some (Document data) ∧ summary data = Returns s).
Proof.
  split; [exact load_conversation_missing|].
  split; [exact load_conversation_absorbs|].
  split; [exact load_conversation_passes|].
  split.
  { intros id fs data Hfile.
    split; [by apply load_conversation_document|by apply get_messages_document]. }
  split; [exact collect_unreadable|].
  split; [exact collect_not_a_record|].
  intros fs l s. unfold list_conversations.
  destruct (collect (glob_json fs) []) as [l0|e'] eqn:Hcollect; simpl; [|discriminate].
  intros Hsort Hs. apply sort_permutes in Hsort. rewrite Hsort in Hs.
  destruct (collect_members _ _ _ _ Hcollect Hs) as [Hnil|(name & data & Hin & Hsum)].
  - by apply elem_of_nil in Hnil.
  - exists name, data. split; [by apply glob_json_lookup|done].
Qed.

End StoreReads.

Section InsertionSort.

Context {A : Type}.
Implicit Types (key : A → json) (l : list A).

Lemma lt_raises_TypeError : ∀ a b e, lt a b = Raises e → exn_cls e = TypeError.
Proof.
  fix IH 1. intros [| n | s | l | o] b e; destruct b as [| m | t | k | p]; simpl;
    try (intros [= <-]; reflexivity).
  revert k. induction l as [|x l IHl]; intros [|y k]; try discriminate.
  destruct (decide (x = y)); [apply IHl | apply IH].
Qed.

Lemma insert_reverse_raises key x l e :
  insert_reverse key x l = Raises e → exn_cls e = TypeError.
Proof.
  induction l as [|y ys IHl]; simpl; [discriminate|].
  destruct (lt (key x) (key y)) as [[|]|e'] eqn:Hlt.
  - destruct (insert_reverse key x ys); [discriminate|]. intros [= <-]. by apply IHl.
  - discriminate.
  - intros [= <-]. eauto using lt_raises_TypeError.
Qed.

Lemma insertion_sort_reverse_raises key l e :
  insertion_sort_reverse key l = Raises e → exn_cls e = TypeError.
Proof.
  induction l as [|x xs IHl]; simpl; [discriminate|].
  destruct (insertion_sort_reverse key xs).
  - apply insert_reverse_raises.
  - intros [= <-]. by apply IHl.
Qed.

Lemma insert_reverse_permutes key x l l' :
  insert_reverse key x l = Returns l' → l' ≡ₚ x :: l.
Proof.
  revert l'. induction l as [|y ys IHl]; intros l'; simpl.
  - by intros [= <-].
  - destruct (lt (key x) (key y)) as [[|]|e'].
    + destruct (insert_reverse key x ys) as [r|]; [|discriminate].
      intros [= <-]. rewrite (IHl r eq_refl). apply Permutation_swap.
    + by intros [= <-].
    + discriminate.
Qed.

Lemma insertion_sort_reverse_permutes key l l' :
  insertion_sort_reverse key l = Returns l' → l' ≡ₚ l.
Proof.
  revert l'. induction l as [|x xs IHl]; intros l'; simpl.
  - by intros [= <-].
  - destruct (insertion_sort_reverse key xs) as [sorted|]; [|discriminate].
    intros Hins. apply insert_reverse_permutes in Hins.
    by rewrite Hins, (IHl sorted eq_refl).
Qed.

End InsertionSort.

(** C9, as amended, on a directory with a record that is not valid JSON, one
    that cannot be opened, one whose bytes are no text, and one that holds
    the empty list. *)
Lemma read_operations_absorb_storage_errors_witness :
  let fs : storage :=
    {[ "s1.json" := Unreadable (Exn JSONDecodeError "Expecting value: line 1 column 1 (char 0)");
       "s2.json" := Unreadable (Exn OSError "[Errno 13] Permission denied: 's2.json'");
       "s3.json" := Unreadable (Exn UnicodeDecodeError "invalid start byte");
       "s4.json" := Document (JList []) ]} in
  (load_conversation "s1" fs = Returns JNull ∧ get_messages "s1" fs = Returns (JList [])) ∧
  (load_conversation "s2" fs = Returns JNull ∧ get_messages "s2" fs = Returns (JList [])) ∧
  (load_conversation "s3" fs = Raises (Exn UnicodeDecodeError "invalid start byte") ∧
   get_messages "s3" fs = Raises (Exn UnicodeDecodeError "invalid start byte")) ∧
  (load_conversation "s4" fs = Returns (JList []) ∧
   get_messages "s4" fs = Returns (JList [])) ∧
  (∀ l s, list_conversations insertion_sort_reverse fs = Returns l → s ∈ l →
          ∃ name data, fs !! name = Some (Document data) ∧ summary data = Returns s).
Proof.
  intros fs.
  destruct (read_operations_absorb_storage_errors insertion_sort_reverse
              insertion_sort_reverse_permutes)
    as (_ & Habsorb & Hpass & Hdoc & _ & _ & Hlist).
  split.
  { apply (Habsorb "s1" fs
             (Exn JSONDecodeError "Expecting value: line 1 column 1 (char 0)"));
      reflexivity. }
  split.
  { apply (Habsorb "s2" fs (Exn OSError "[Errno 13] Permission denied: 's2.json'"));
      reflexivity. }
  split.
  { apply (Hpass "s3" fs (Exn UnicodeDecodeError "invalid start byte")); reflexivity. }
  split; [|apply Hlist].
  destruct (Hdoc "s4" fs (JList []) eq_refl) as (Hload & Hfalsy & _).
  split; [exact Hload|apply Hfalsy; reflexivity].
Defined.

(** C9 as stated fails: bytes that are not text in the default encoding make
    [json.load] raise [UnicodeDecodeError], which [load_conversation] lets
    through; and a file holding the JSON list [[1]] makes [get_messages] and
    [list_conversations] raise [AttributeError]. *)
Lemma load_conversation_lets_decode_error_through :
  (∃ e, load_conversation "s1"
          {[ "s1.json" := Unreadable (Exn UnicodeDecodeError "invalid start byte") ]}
        = Raises e ∧ exn_cls e = UnicodeDecodeError) ∧
  (∃ e, get_messages "s1" {[ "s1.json" := Document (JList [JInt 1]) ]} = Raises e ∧
        exn_cls e = AttributeError) ∧
  (∃ e, list_conversations insertion_sort_reverse
          {[ "s1.json" := Document (JList [JInt 1]) ]} = Raises e ∧
        exn_cls e = AttributeError).
Proof.
  split; [|split]; eexists; (split; [vm_compute; reflexivity|reflexivity]).
Qed.

(** ** Intent classifier *)

Section IntentFacts.

Import IntentDetector.

Variable str_of : json → string.
Variable GOOGLE_API_KEY : option string.
Variable completion : nat → string → result message.

(** The label [detect_intent] derives from a textual reply. *)
Lemma accepted_label reply :
  (if bool_decide (lower (strip reply) ∈ ["explain"; "learn"])
   then lower (strip reply) else "unknown") ∈ ["explain"; "learn"; "unknown"].
Proof.
  case_bool_decide as Hin.
  - apply list_elem_of_In. apply list_elem_of_In in Hin. simpl in *. tauto.
  - apply list_elem_of_In. simpl. tauto.
Qed.

(** Whatever the completion service does, the label is one of the three. *)
Lemma detect_intent_label (message : content) (calls : nat) :
  (detect_intent str_of GOOGLE_API_KEY completion message calls).1
    ∈ ["explain"; "learn"; "unknown"].
Proof.
  unfold detect_intent, classify.
  destruct (get_llm GOOGLE_API_KEY) as [[]|e0]; simpl;
    [|apply list_elem_of_In; simpl; tauto].
  destruct (completion calls _) as [response|e1]; simpl;
    [|apply list_elem_of_In; simpl; tauto].
  destruct (message_content response) as [reply|blocks]; simpl;
    [|apply list_elem_of_In; simpl; tauto].
  pose proof (accepted_label reply) as Hlabel. by case_bool_decide.
Qed.

(** [str.isspace] agrees with the specification's white space. *)
Lemma isspace_white (c : ascii) : isspace c = Requirements.white c.
Proof. destruct c as [[] [] [] [] [] [] [] []]; vm_compute; reflexivity. Qed.

Lemma lstrip_blank (pre t : string) :
  Requirements.blank pre = true → lstrip (pre ++ t) = lstrip t.
Proof.
  induction pre as [|c pre IH]; simpl; [done|].
  intros [Hc Hpre]%andb_true_iff. rewrite isspace_white, Hc. auto.
Qed.

Lemma lstrip_all_blank (s : string) : Requirements.blank s = true → lstrip s = "".
Proof.
  induction s as [|c s IH]; simpl; [done|].
  intros [Hc Hs]%andb_true_iff. rewrite isspace_white, Hc. auto.
Qed.

Lemma lstrip_bare (t : string) :
  from_option Requirements.white false (Requirements.first_char t) = false →
  lstrip t = t.
Proof. destruct t as [|c t]; simpl; [done|]. rewrite isspace_white. by intros ->. Qed.

Lemma rstrip_all_blank (s : string) : Requirements.blank s = true → rstrip s = "".
Proof.
  induction s as [|c s IH]; simpl; [done|].
  intros [Hc Hs]%andb_true_iff. rewrite (IH Hs), isspace_white, Hc. done.
Qed.

Lemma rstrip_blank (t post : string) :
  Requirements.blank post = true → rstrip (t ++ post) = rstrip t.
Proof.
  intros Hpost. induction t as [|c t IH]; simpl; [by apply rstrip_all_blank|].
  by rewrite IH.
Qed.

Lemma rstrip_bare (t : string) :
  from_option Requirements.white false (Requirements.last_char t) = false →
  rstrip t = t.
Proof.
  induction t as [|c t IH]; [done|].
  destruct t as [|d t].
  - simpl. rewrite isspace_white. by intros ->.
  - intros Hlast. change (rstrip (String c (String d t)))
      with (match rstrip (String d t) with
            | EmptyString => if isspace c then EmptyString else String c EmptyString
            | r => String c r
            end).
    rewrite (IH Hlast). done.
Qed.

(** The code's [strip] meets the specification's trimming: a trimmed form
    of [s] is [strip s]. *)
Lemma trimmed_strip (s core : string) : Requirements.trimmed s core → strip s = core.
Proof.
  intros (pre & post & -> & Hpre & Hpost & [Hfirst Hlast]%andb_true_iff).
  apply negb_true_iff in Hfirst, Hlast.
  unfold strip. rewrite (lstrip_blank _ _ Hpre).
  destruct core as [|c core].
  - change ("" ++ post) with post. by rewrite (lstrip_all_blank _ Hpost).
  - rewrite lstrip_bare by exact Hfirst.
    rewrite (rstrip_blank _ _ Hpost). by apply rstrip_bare.
Qed.

Lemma lstrip_split (s : string) :
  ∃ pre, s = pre ++ lstrip s ∧ Requirements.blank pre = true ∧
         from_option Requirements.white false (Requirements.first_char (lstrip s)) = false.
Proof.
  induction s as [|c s (pre & Hs & Hpre & Hfirst)]; simpl.
  - by exists "".
  - destruct (isspace c) eqn:Hc.
    + exists (String c pre). cbn [Requirements.blank].
      rewrite <- isspace_white, Hc.
      split; [|done]. change (String c s = String c (pre ++ lstrip s)). by rewrite <- Hs.
    + exists "". simpl. by rewrite <- isspace_white.
Qed.

Lemma rstrip_split (t : string) :
  ∃ post, t = rstrip t ++ post ∧ Requirements.blank post = true ∧
          from_option Requirements.white false (Requirements.last_char (rstrip t)) = false ∧
          (from_option Requirements.white false (Requirements.first_char t) = false →
           from_option Requirements.white false (Requirements.first_char (rstrip t)) = false).
Proof.
  induction t as [|c t (post & Ht & Hpost & Hlast & _)]; simpl.
  - by exists "".
  - destruct (rstrip t) as [|d r] eqn:Hr.
    + change ("" ++ post) with post in Ht. subst post.
      destruct (isspace c) eqn:Hc.
      * exists (String c t). cbn [Requirements.blank].
        rewrite <- isspace_white, Hc. repeat split; done.
      * exists t. simpl. rewrite <- isspace_white, Hc. done.
    + exists post. change (String c (String d r) ++ post) with (String c (String d r ++ post)).
      rewrite <- Ht. done.
Qed.

(** Every string has a trimmed form. *)
Lemma strip_trimmed (s : string) : Requirements.trimmed s (strip s).
Proof.
  destruct (lstrip_split s) as (pre & Hs & Hpre & Hfirst).
  destruct (rstrip_split (lstrip s)) as (post & Ht & Hpost & Hlast & Hkeep).
  exists pre, post. unfold strip. rewrite <- Ht.
  split; [done|]. split; [done|]. split; [done|].
  unfold Requirements.bare. by rewrite (Hkeep Hfirst), Hlast.
Qed.

(** Lower-casing a character gives a lower-case ASCII letter exactly from
    that letter and from its capital. *)
Lemma lower_char_letter (c l : ascii) :
  (97 ≤ nat_of_ascii l ≤ 122)%nat →
  lower_char c = l ↔ c = l ∨ (nat_of_ascii c + 32 = nat_of_ascii l)%nat.
Proof.
  intros Hl. unfold lower_char.
  pose proof (nat_ascii_bounded c) as Hc.
  destruct (_ || _)%nat eqn:Hupper.
  - apply orb_true_iff in Hupper as [[Hu|Hu]%orb_true_iff|Hu];
      apply andb_true_iff in Hu as [Hlo Hhi];
      apply Nat.leb_le in Hlo, Hhi.
    all: split;
      [ intros <-; right; rewrite nat_ascii_embedding by lia; reflexivity
      | intros [->|Heq]; [lia|rewrite Heq; apply ascii_nat_embedding] ].
  - apply orb_false_iff in Hupper as [[Hu1 Hu2]%orb_false_iff Hu3].
    apply andb_false_iff in Hu1, Hu2, Hu3.
    split; [auto|]. intros [->|Heq]; [done|].
    exfalso. destruct Hu1 as [Hu1|Hu1]; apply Nat.leb_gt in Hu1; lia.
Qed.

(** Lower-casing a string gives a word of lower-case ASCII letters exactly
    when the string spells that word. *)
Lemma lower_spells (label : string) :
  Forall (λ l, 97 ≤ nat_of_ascii l ≤ 122)%nat (list_ascii_of_string label) →
  ∀ s, lower s = label ↔ Requirements.spells s label = true.
Proof.
  induction label as [|l label IH]; intros Hletters s; destruct s as [|c s]; simpl;
    try (split; [discriminate|discriminate]); [done|].
  simpl in Hletters. apply Forall_cons in Hletters as [Hl Hletters].
  rewrite andb_true_iff, orb_true_iff, !bool_decide_eq_true, <- (IH Hletters s),
    <- (lower_char_letter c l Hl).
  split; [by intros [= -> ->]|by intros [-> ->]].
Qed.

(** The label [detect_intent] keeps of a trimmed reply is the one the
    specification accepts. *)
Lemma accepted_lower (core : string) :
  (if bool_decide (lower core ∈ ["explain"; "learn"]) then lower core else "unknown")
  = Requirements.accepted core.
Proof.
  assert (Hexplain : lower core = "explain" ↔ Requirements.spells core "explain" = true).
  { apply lower_spells. repeat constructor; simpl; lia. }
  assert (Hlearn : lower core = "learn" ↔ Requirements.spells core "learn" = true).
  { apply lower_spells. repeat constructor; simpl; lia. }
  unfold Requirements.accepted.
  destruct (Requirements.spells core "explain") eqn:He.
  - rewrite (proj2 Hexplain eq_refl). done.
  - destruct (Requirements.spells core "learn") eqn:Hl.
    + rewrite (proj2 Hlearn eq_refl). done.
    + rewrite bool_decide_eq_false_2; [done|].
      intros Hin. apply list_elem_of_In in Hin. simpl in Hin.
      destruct Hin as [Heq|[Heq|[]]]; symmetry in Heq.
      * apply Hexplain in Heq. congruence.
      * apply Hlearn in Heq. congruence.
Qed.

(** C5. [detect_intent] always returns, with one of the three labels, after
    at most one request to the completion service.  Every textual reply has
    a trimmed form, and the label is decided by it: [explain] or [learn]
    when the reply, white space at both ends and letter case set aside,
    spells that word, [unknown] for any other reply; a reply that is not
    text, a failing request and a missing API key yield [unknown]. *)
Theorem detect_intent_closed_and_total (message : content) (calls : nat) :
  let prompt := INTENT_DETECTOR_PROMPT (format_content str_of message) in
  let outcome := detect_intent str_of GOOGLE_API_KEY completion message calls in
  outcome.1 ∈ ["explain"; "learn"; "unknown"] ∧
  (outcome.2 = calls ∨ outcome.2 = S calls) ∧
  (∀ reply, ∃ core, Requirements.trimmed reply core) ∧
  (∀ response reply core,
     get_llm GOOGLE_API_KEY = Returns tt →
     completion calls prompt = Returns response →
     message_content response = Text reply →
     Requirements.trimmed reply core →
     outcome = (Requirements.accepted core, S calls)) ∧
  (∀ response blocks,
     completion calls prompt = Returns response →
     message_content response = Blocks blocks → outcome.1 = "unknown") ∧
  (∀ e, completion calls prompt = Raises e → outcome.1 = "unknown") ∧
  (∀ e, get_llm GOOGLE_API_KEY = Raises e → outcome = ("unknown", calls)).
Proof.
  intros prompt outcome. subst outcome. unfold detect_intent, classify. fold prompt.
  assert (Htrim : ∀ reply, ∃ core, Requirements.trimmed reply core)
    by (intros reply; exists (strip reply); apply strip_trimmed).
  destruct (get_llm GOOGLE_API_KEY) as [[]|e0] eqn:Hllm; simpl.
  - destruct (completion calls prompt) as [response|e1] eqn:Hreply; simpl.
    + destruct (message_content response) as [reply|blocks] eqn:Hcontent; simpl.
      * assert (Hlabel :
          try_except_Exception
            (if bool_decide (lower (strip reply) ∈ ["explain"; "learn"])
             then Returns (lower (strip reply)) else Returns "unknown")
            (λ _, "unknown")
          = Requirements.accepted (strip reply)).
        { rewrite <- accepted_lower. by case_bool_decide. }
        rewrite Hlabel. split; [rewrite <- accepted_lower; apply accepted_label|].
        split; [auto|]. split; [exact Htrim|].
        split; [|split; [|split]]; try (intros; discriminate).
        -- intros response' reply' core _ [= <-]. rewrite Hcontent. intros [= <-] Hcore.
           by rewrite (trimmed_strip _ _ Hcore).
        -- intros response' blocks' [= <-]. rewrite Hcontent. discriminate.
      * split; [apply list_elem_of_In; simpl; tauto|]. split; [auto|].
        split; [exact Htrim|].
        split; [|split; [|split]]; try (intros; discriminate); try done.
        intros response' reply' core _ [= <-]. rewrite Hcontent. discriminate.
    + split; [apply list_elem_of_In; simpl; tauto|]. split; [auto|].
      split; [exact Htrim|].
      split; [|split; [|split]]; try (intros; discriminate); done.
  - split; [apply list_elem_of_In; simpl; tauto|]. split; [auto|].
    split; [exact Htrim|].
    split; [|split; [|split]]; try (intros; discriminate); done.
Qed.

End IntentFacts.

(** C5 on the two replies the specification names ([Explain] in mixed case
    with a trailing space, and [banana]), on [LeArN] between a tab and a
    space in front and a no-break space and a line feed behind, on a failing
    request and on a missing API key. *)
Lemma detect_intent_closed_and_total_witness :
  let reply_of text : nat → string → result message :=
    λ _ _, Returns (AIMessage (Text text) []) in
  let wrapped :=
    String (ascii_of_nat 9) (String (ascii_of_nat 32) "LeArN") ++
    String (ascii_of_nat 160) (String (ascii_of_nat 10) "") in
  IntentDetector.detect_intent (λ _, "") (Some "key") (reply_of "Explain ") (Text "what is a stack?") 0
    = ("explain", 1) ∧
  IntentDetector.detect_intent (λ _, "") (Some "key") (reply_of "banana") (Text "what is a stack?") 0
    = ("unknown", 1) ∧
  IntentDetector.detect_intent (λ _, "") (Some "key") (reply_of wrapped) (Text "teach me") 0
    = ("learn", 1) ∧
  IntentDetector.detect_intent (λ _, "") (Some "key") (reply_of " explain it") (Text "teach me") 0
    = ("unknown", 1) ∧
  IntentDetector.detect_intent (λ _, "") (Some "key")
    (λ _ _, Raises (Exn RuntimeError "timeout")) (Text "what is a stack?") 0
    = ("unknown", 1) ∧
  IntentDetector.detect_intent (λ _, "") None (reply_of "learn") (Text "what is a stack?") 0
    = ("unknown", 0).
Proof.
  intros reply_of wrapped. split; [|split; [|split; [|split; [|split]]]].
  - destruct (detect_intent_closed_and_total (λ _, "") (Some "key") (reply_of "Explain ")
                (Text "what is a stack?") 0) as (_ & _ & _ & Htext & _).
    apply (Htext (AIMessage (Text "Explain ") []) "Explain " "Explain");
      try reflexivity.
    exists "", " ". repeat split; reflexivity.
  - destruct (detect_intent_closed_and_total (λ _, "") (Some "key") (reply_of "banana")
                (Text "what is a stack?") 0) as (_ & _ & _ & Htext & _).
    apply (Htext (AIMessage (Text "banana") []) "banana" "banana"); try reflexivity.
    exists "", "". repeat split; reflexivity.
  - destruct (detect_intent_closed_and_total (λ _, "") (Some "key") (reply_of wrapped)
                (Text "teach me") 0) as (_ & _ & _ & Htext & _).
    apply (Htext (AIMessage (Text wrapped) []) wrapped "LeArN"); try reflexivity.
    exists (String (ascii_of_nat 9) (String (ascii_of_nat 32) "")),
      (String (ascii_of_nat 160) (String (ascii_of_nat 10) "")).
    repeat split; reflexivity.
  - destruct (detect_intent_closed_and_total (λ _, "") (Some "key") (reply_of " explain it")
                (Text "teach me") 0) as (_ & _ & _ & Htext & _).
    apply (Htext (AIMessage (Text " explain it") []) " explain it" "explain it");
      try reflexivity.
    exists " ", "". repeat split; reflexivity.
  - reflexivity.
  - destruct (detect_intent_closed_and_total (λ _, "") None (reply_of "learn")
                (Text "what is a stack?") 0) as (_ & _ & _ & _ & _ & _ & Hkey).
    apply (Hkey (Exn ValueError "Please set GOOGLE_API_KEY in your .env file")).
    reflexivity.
Defined.

(** ** Capability handlers *)

Section HandlerFacts.

Import Agents.

(** A handler result is populated as a whole: a success carries a value and
    no error, a failure carries no value and at least one error. *)
Abbreviation populated r :=
  (if success r
   then result_value r ≠ None ∧ result_error r = []
   else result_value r = None ∧ result_error r ≠ []).

(** The failure a handler reports for the exception [e]. *)
Abbreviation reports r e :=
  (success r = false ∧ result_value r = None ∧ result_error r = [exn_str e]).

Context (agent : BaseAgent).
Variable str_of : json → string.
Variable model : list message → result message.
Variable tool_loop : string → list message → result (list message).
Variable react_agent : string → list message → result (list message).

Lemma try_except_Exception_populated {P} (body : result (HandlerResult P)) key :
  (∀ r, body = Returns r → populated r) →
  populated (try_except_Exception body (failed key)).
Proof.
  intros Hbody. destruct body as [r|e]; simpl; [by apply Hbody | done].
Qed.

Ltac returned_result :=
  repeat match goal with
         | |- context [mbind _ ?m] => destruct m; simpl; try discriminate
         end;
  intros [= <-]; simpl; done.

(** C7. Each of the four handlers returns a result populated as a whole,
    whatever the model or tool loop does; and when the call to the model or
    tool loop raises, the result is the failure carrying the text of that
    exception. *)
Theorem handlers_isolate_failures (query : string) (state : option ExamHelperState) :
  (populated (process_query model query state) ∧
   populated (explainer_process_query str_of model query state) ∧
   populated (learner_process_query str_of tool_loop query state) ∧
   populated (orchestrator_process_query react_agent query state)) ∧
  (∀ prompt e,
     get_prompt state = Returns prompt →
     model [SystemMessage (Text prompt); HumanMessage (Text query)] = Raises e →
     reports (process_query model query state) e) ∧
  (∀ prompt e,
     get_prompt (BaseAgent := ExplainerAgent str_of) state = Returns prompt →
     model [SystemMessage (Text prompt); HumanMessage (Text query)] = Raises e →
     reports (explainer_process_query str_of model query state) e) ∧
  (∀ prompt e,
     get_prompt (BaseAgent := LearnerAgent str_of) state = Returns prompt →
     tool_loop prompt [HumanMessage (Text query)] = Raises e →
     reports (learner_process_query str_of tool_loop query state) e) ∧
  (∀ prompt e,
     get_prompt (BaseAgent := OrchestratorAgent) state = Returns prompt →
     react_agent prompt
       match state with
       | Some st => if has_keys st then default [] (messages st) else []
       | None => []
       end = Raises e →
     reports (orchestrator_process_query react_agent query state) e).
Proof.
  split; [|split; [|split; [|split]]].
  - repeat split.
    + unfold process_query. apply try_except_Exception_populated. intros r.
      returned_result.
    + unfold explainer_process_query. apply try_except_Exception_populated. intros r.
      returned_result.
    + unfold learner_process_query. apply try_except_Exception_populated. intros r.
      returned_result.
    + unfold orchestrator_process_query. apply try_except_Exception_populated. intros r.
      returned_result.
  - intros prompt e Hprompt Hmodel. unfold process_query.
    rewrite Hprompt. simpl. by rewrite Hmodel.
  - intros prompt e Hprompt Hmodel. unfold explainer_process_query.
    rewrite Hprompt. simpl. by rewrite Hmodel.
  - intros prompt e Hprompt Hloop. unfold learner_process_query.
    rewrite Hprompt. simpl. by rewrite Hloop.
  - intros prompt e Hprompt Hloop. unfold orchestrator_process_query.
    rewrite Hprompt. simpl. by rewrite Hloop.
Qed.

End HandlerFacts.

(** C7 with a model and tool loops that raise [boom]: every handler reports
    [boom] and returns. *)
Lemma handlers_isolate_failures_witness :
  let boom := Exn RuntimeError "quota exceeded" in
  let r1 := Agents.explainer_process_query (λ _, "") (λ _, Raises boom) "what is a stack?" None in
  let r2 := Agents.learner_process_query (λ _, "") (λ _ _, Raises boom) "notes on stacks" None in
  let r3 := Agents.orchestrator_process_query (λ _ _, Raises boom) "hello" None in
  (Agents.success r1 = false ∧ Agents.result_value r1 = None ∧ Agents.result_error r1 = ["quota exceeded"]) ∧
  (Agents.success r2 = false ∧ Agents.result_value r2 = None ∧ Agents.result_error r2 = ["quota exceeded"]) ∧
  (Agents.success r3 = false ∧ Agents.result_value r3 = None ∧ Agents.result_error r3 = ["quota exceeded"]).
Proof.
  intros boom r1 r2 r3.
  destruct (handlers_isolate_failures (Agents.OrchestratorAgent) (λ _, "")
              (λ _, Raises boom) (λ _ _, Raises boom) (λ _ _, Raises boom)
              "what is a stack?" None) as (_ & _ & Hexplainer & _).
  destruct (handlers_isolate_failures (Agents.OrchestratorAgent) (λ _, "")
              (λ _, Raises boom) (λ _ _, Raises boom) (λ _ _, Raises boom)
              "notes on stacks" None) as (_ & _ & _ & Hlearner & _).
  destruct (handlers_isolate_failures (Agents.OrchestratorAgent) (λ _, "")
              (λ _, Raises boom) (λ _ _, Raises boom) (λ _ _, Raises boom)
              "hello" None) as (_ & _ & _ & _ & Horchestrator).
  split; [|split].
  - eapply (Hexplainer _ boom); reflexivity.
  - eapply (Hlearner _ boom); reflexivity.
  - eapply (Horchestrator _ boom); reflexivity.
Defined.

(** ** Router: the extraction of the reply *)

Section ExtractionFacts.

Import OrchestratorNode Requirements.

(** A message the second loop passes over without stopping or raising. *)
Abbreviation passed msg :=
  (tool_output msg = false ∧
   (plain_assistant msg = true → ∃ s, message_content msg = Text s)).

Lemma scan_passes (skipped rest : list message) (ai_message : string) :
  Forall (λ msg, passed msg) skipped →
  ∃ ai_message', scan (skipped ++ rest) ai_message = scan rest ai_message'.
Proof.
  revert ai_message. induction skipped as [|msg skipped IH]; intros ai_message Hpassed.
  - eauto.
  - apply Forall_cons in Hpassed as [[Htool Hplain] Hpassed]. simpl. rewrite Htool.
    destruct (plain_assistant msg).
    + destruct (Hplain eq_refl) as [s ->]. simpl. by apply IH.
    + by apply IH.
Qed.

(** The first half of the policy holds: with a tool output in the trace,
    and textual assistant messages after it, the reply is the content of the
    last tool output. *)
Lemma extract_reply_prefers_tool_output (before after : list message) (c : content) :
  nonempty c = true →
  Forall (λ msg, passed msg) after →
  extract_reply (before ++ ToolMessage c :: after) = Returns c.
Proof.
  intros Hc Hafter. unfold extract_reply.
  rewrite rev_app_distr. simpl. rewrite <- app_assoc. simpl.
  destruct (scan_passes (rev after) (ToolMessage c :: rev before) "") as [ai Hscan].
  { by apply Forall_rev. }
  rewrite Hscan. simpl. rewrite Hc. simpl.
  case_bool_decide as Hempty; [|done]. by subst c.
Qed.

Lemma scan_snoc (skipped : list message) (msg : message) (ai_message ai' : string) :
  Forall (λ msg, passed msg) skipped → passed msg →
  scan skipped ai_message = Returns (Text "", ai') →
  ∃ ai'', scan (skipped ++ [msg]) ai_message = Returns (Text "", ai'') ∧
          Text ai'' = if plain_assistant msg then message_content msg else Text ai'.
Proof.
  revert ai_message. induction skipped as [|m skipped IH]; intros ai_message Hpassed Hmsg.
  - simpl. intros [= <-]. destruct Hmsg as [-> Hplain].
    destruct (plain_assistant msg); [|eauto].
    destruct (Hplain eq_refl) as [s ->]. simpl. eauto.
  - apply Forall_cons in Hpassed as [[Htool Hplain] Hpassed]. simpl. rewrite Htool.
    destruct (plain_assistant m).
    + destruct (Hplain eq_refl) as [s ->]. simpl. by apply IH.
    + by apply IH.
Qed.

Lemma scan_without_tool_output (trace : list message) (ai_message : string) :
  Forall (λ msg, passed msg) trace →
  ∃ ai', scan (rev trace) ai_message = Returns (Text "", ai') ∧
         Text ai' = match head (filter (λ msg, plain_assistant msg = true) trace) with
                    | Some msg => message_content msg
                    | None => Text ai_message
                    end.
Proof.
  induction trace as [|msg trace IH]; intros Hpassed; [simpl; eauto|].
  apply Forall_cons in Hpassed as [Hmsg Hpassed].
  destruct (IH Hpassed) as (ai' & Hscan & Hai'). simpl rev.
  destruct (scan_snoc (rev trace) msg ai_message ai') as (ai'' & Hscan' & Hai'');
    [by apply Forall_rev | done | done |].
  exists ai''. split; [done|]. rewrite Hai''.
  rewrite filter_cons. destruct (plain_assistant msg) eqn:Hplain.
  - by rewrite decide_True.
  - rewrite decide_False by done.
    destruct (head _); [|done]. done.
Qed.

(** What the loop computes when no tool output stops it: the content of the
    first assistant message with content and no tool calls. *)
Lemma extract_reply_without_tool_output (trace : list message) :
  Forall (λ msg, passed msg) trace →
  extract_reply trace =
    Returns match head (filter (λ msg, plain_assistant msg = true) trace) with
            | Some msg => message_content msg
            | None => Text ""
            end.
Proof.
  intros Hpassed. unfold extract_reply.
  destruct (scan_without_tool_output trace "" Hpassed) as (ai' & -> & Hai').
  simpl. by rewrite Hai'.
Qed.

(** C1 at a two-turn trace without tool output: the policy asks for the
    last assistant message, [a2]; the loop keeps overwriting [ai_message] on
    its way to the start of the trace and ends with the first one, [a1]. *)
Theorem extract_reply_returns_first_assistant_message :
  let trace := [HumanMessage (Text "q1"); AIMessage (Text "a1") [];
                HumanMessage (Text "q2"); AIMessage (Text "a2") []] in
  extract_reply trace = Returns (Text "a1") ∧ reply_policy trace = Text "a2".
Proof. split; reflexivity. Qed.

End ExtractionFacts.

(** ** Coordinator: what is persisted *)

Section PersistenceFacts.

Import Workflow Requirements.

Lemma persisted_as_required (trace : list message) :
  flat_map persisted trace = persisted_messages trace.
Proof.
  unfold persisted_messages. induction trace as [|msg trace IH]; [done|].
  simpl. rewrite IH. destruct msg as [c | c tool_calls | c | c]; simpl; try done.
  unfold filter at 2. simpl.
  destruct (nonempty c); simpl; [|done].
  case_bool_decide; simpl; done.
Qed.

(** No tool result and no assistant message that calls tools is stored. *)
Lemma tool_traffic_not_persisted (msg : message) :
  match msg with
  | ToolMessage _ => persisted msg = []
  | AIMessage _ tool_calls => tool_calls ≠ [] → persisted msg = []
  | _ => True
  end.
Proof.
  destruct msg as [c | c tool_calls | c | c]; simpl; try done.
  intros Hcalls. destruct (nonempty c); [|done]. by case_bool_decide.
Qed.

(** C8. Saving a state whose record file is absent or holds a record
    writes, as the record's messages, exactly the user messages and the
    assistant messages that have content and no tool calls, in the order of
    the trace. *)
Theorem persisted_record_filters_tool_traffic now self st fs :
  _state self = Some st →
  (∀ f, fs !! _get_conversation_path (conversation_id self) = Some f →
        ∃ o, f = Document (JObj o)) →
  ∃ fs' rec,
    _save_conversation now self fs = Returns fs' ∧
    load_conversation (conversation_id self) fs' = Returns (JObj rec) ∧
    rec !! "messages" = Some (JList (persisted_messages (default [] (messages st)))) ∧
    get_messages (conversation_id self) fs'
      = Returns (JList (persisted_messages (default [] (messages st)))).
Proof.
  intros Hstate Hfile. unfold _save_conversation. rewrite Hstate.
  rewrite persisted_as_required.
  match goal with |- context [save_conversation now ?i ?m ?d fs] =>
    destruct (save_conversation_returns now i m d fs Hfile) as [fs' Hsave] end.
  destruct (save_conversation_written _ _ _ _ _ _ Hsave)
    as (rec & created & Hfs' & _ & _ & Hmsgs & _).
  assert (Hrec : fs' !! _get_conversation_path (conversation_id self)
                 = Some (Document (JObj rec))).
  { rewrite Hfs'. apply lookup_insert_eq. }
  exists fs', rec. repeat split; try done.
  - by apply load_conversation_document.
  - by apply get_messages_record with rec.
Qed.

Lemma persisted_record_filters_tool_traffic_witness :
  let trace := [HumanMessage (Text "explain stacks");
                AIMessage (Text "") [JObj {[ "name" := JStr "explainer" ]}];
                ToolMessage (Text "A stack is a LIFO list.");
                AIMessage (Text "A stack is a last-in, first-out list.") []] in
  let self := {| conversation_id := "s1";
                 _state := Some {| messages := Some trace; user_query := Some "explain stacks";
                                   user_intent := Some "explain"; session_summary := Some "";
                                   turn_count := Some 0%Z; current_response := Some None;
                                   State.error := Some []; orchestrator_result := Some None |} |} in
  ∃ fs' rec,
    _save_conversation "2026-01-01T10:00:00" self ∅ = Returns fs' ∧
    load_conversation "s1" fs' = Returns (JObj rec) ∧
    rec !! "messages" = Some (JList
      [JObj {[ "role" := JStr "user"; "content" := JStr "explain stacks" ]};
       JObj {[ "role" := JStr "assistant";
               "content" := JStr "A stack is a last-in, first-out list." ]}]) ∧
    get_messages "s1" fs' = Returns (JList
      [JObj {[ "role" := JStr "user"; "content" := JStr "explain stacks" ]};
       JObj {[ "role" := JStr "assistant";
               "content" := JStr "A stack is a last-in, first-out list." ]}]).
Proof.
  intros trace self.
  apply (persisted_record_filters_tool_traffic "2026-01-01T10:00:00" self
           {| messages := Some trace; user_query := Some "explain stacks";
              user_intent := Some "explain"; session_summary := Some "";
              turn_count := Some 0%Z; current_response := Some None;
              State.error := Some []; orchestrator_result := Some None |} ∅).
  - reflexivity.
  - intros f Hf. rewrite lookup_empty in Hf. discriminate.
Defined.

End PersistenceFacts.

(** ** Coordinator: one turn and many *)

Section CoordinatorFacts.

Import Workflow.

Variable World : Type.
Variable workflow_invoke : ExamHelperState → World → result ExamHelperState * World.

Implicit Types (self : MultiAgentWorkflow) (fs : storage) (w : World).

(** The state a coordinator works on: the one it holds, or the initial one. *)
Abbreviation current self := (_get_current_state self).1.

(** After [process_query] the coordinator holds either the state with the
    user message appended (the graph or the save raised before a final state
    was stored) or the state the graph returned. *)
Lemma process_query_state user_message now self fs w :
  let st_in := with_user_message (current self) user_message in
  let outcome := process_query World workflow_invoke user_message now self fs w in
  _state outcome.1.1.2 = Some st_in ∨
  ∃ final, (workflow_invoke st_in w).1 = Returns final ∧
           _state outcome.1.1.2 = Some final.
Proof.
  intros st_in outcome. subst outcome st_in. unfold process_query.
  destruct (_get_current_state self) as [st self0] eqn:Hcur. simpl.
  destruct (workflow_invoke (with_user_message st user_message) w) as [[final|e] w'];
    simpl; [|by left].
  destruct (_save_conversation _ _ _); simpl; right; eauto.
Qed.

(** An entry of the state that the opening assignments and the graph leave
    alone is the same after a turn, and after any number of turns. *)
Lemma process_query_keeps {V} (entry : ExamHelperState → V) (held : V → Prop) :
  (∀ st user_message, entry (with_user_message st user_message) = entry st) →
  (∀ st w final, held (entry st) → (workflow_invoke st w).1 = Returns final →
                 entry final = entry st) →
  ∀ user_message now self fs w,
    held (entry (current self)) →
    entry (current (process_query World workflow_invoke user_message now self fs w).1.1.2)
    = entry (current self).
Proof.
  intros Hopen Hgraph user_message now self fs w Hheld.
  destruct (process_query_state user_message now self fs w) as [Hst|(final & Hinv & Hst)].
  - unfold _get_current_state at 1. rewrite Hst. simpl. apply Hopen.
  - unfold _get_current_state at 1. rewrite Hst. simpl.
    rewrite (Hgraph _ _ _ ltac:(by rewrite Hopen) Hinv). apply Hopen.
Qed.

Lemma chat_coordinator user_message now self fs w :
  (chat World workflow_invoke user_message now self fs w).1.1.2
  = (process_query World workflow_invoke user_message now self fs w).1.1.2.
Proof.
  unfold chat. by destruct (process_query _ _ _ _ _ _ _) as [[[? ?] ?] ?].
Qed.

Lemma chats_keep {V} (entry : ExamHelperState → V) (held : V → Prop) :
  (∀ st user_message, entry (with_user_message st user_message) = entry st) →
  (∀ st w final, held (entry st) → (workflow_invoke st w).1 = Returns final →
                 entry final = entry st) →
  ∀ inputs self fs w,
    held (entry (current self)) →
    entry (current (chats World workflow_invoke inputs self fs w).1.1.2)
    = entry (current self).
Proof.
  intros Hopen Hgraph inputs.
  induction inputs as [|[user_input now] rest IH]; intros self fs w Hheld; [done|].
  simpl.
  pose proof (process_query_keeps entry held Hopen Hgraph user_input now self fs w Hheld)
    as Hturn.
  rewrite <- chat_coordinator in Hturn.
  destruct (chat World workflow_invoke user_input now self fs w) as [[[reply self1] fs1] w1].
  simpl in Hturn.
  specialize (IH self1 fs1 w1 ltac:(by rewrite Hturn)).
  destruct (chats World workflow_invoke rest self1 fs1 w1) as [[[replies self2] fs2] w2].
  simpl in *. by rewrite IH.
Qed.

End CoordinatorFacts.

(** ** Router: intent and counter *)

Section NodeFacts.

Import Agents OrchestratorNode Workflow.

Variable str_of : json → string.
Variable GOOGLE_API_KEY : option string.
Variable completion : nat → string → result message.
Context (orchestrator_agent : BaseAgent).
Variable react_agent : string → list message → result (list message).

Abbreviation node := (process str_of GOOGLE_API_KEY completion orchestrator_agent react_agent).
Abbreviation graph := (router_graph str_of GOOGLE_API_KEY completion orchestrator_agent react_agent).

(** The dict [process] returns is one of two: the update of a completed
    dispatch, or the failure dict. *)
Lemma process_cases (st : ExamHelperState) (calls : nat) :
  let upd := (node st calls).1 in
  turn_count upd = None ∧
  ((∃ intent, user_intent upd = Some intent ∧
              is_Some (messages upd) ∧
              (∃ reply, orchestrator_result upd = Some (Some reply)) ∧
              ((default "unknown" (user_intent st) ≠ "unknown" ∨
                nonempty (last_user_content (rev (default [] (messages st)))) = false) →
               intent = default "unknown" (user_intent st)) ∧
              (intent = default "unknown" (user_intent st) ∨
               intent ∈ ["explain"; "learn"; "unknown"])) ∨
   (user_intent upd = None ∧ messages upd = None ∧
    orchestrator_result upd = Some None ∧ is_Some (State.error upd))).
Proof.
  unfold process.
  set (user_msg := last_user_content _).
  set (known := default "unknown" (user_intent st)).
  destruct (bool_decide (known = "unknown") && nonempty user_msg) eqn:Hask.
  - pose proof (detect_intent_label str_of GOOGLE_API_KEY completion user_msg calls)
      as Hlabel.
    destruct (IntentDetector.detect_intent _ _ _ _ _) as [intent calls'].
    simpl in Hlabel. simpl.
    destruct (get_prompt (Some st)) as [prompt|e]; simpl; [|split; [done|right; eauto]].
    destruct (react_agent prompt _) as [trace|e]; simpl; [|split; [done|right; eauto]].
    destruct (extract_reply trace) as [reply|e]; simpl; [|split; [done|right; eauto]].
    split; [done|]. left. exists intent. repeat split; eauto.
    apply andb_true_iff in Hask as [Hunknown Hmsg].
    apply bool_decide_eq_true in Hunknown.
    intros [Hknown|Hempty]; [done|]. by rewrite Hempty in Hmsg.
  - simpl.
    destruct (get_prompt (Some st)) as [prompt|e]; simpl; [|split; [done|right; eauto]].
    destruct (react_agent prompt _) as [trace|e]; simpl; [|split; [done|right; eauto]].
    destruct (extract_reply trace) as [reply|e]; simpl; [|split; [done|right; eauto]].
    split; [done|]. left. exists known. repeat split; eauto.
Qed.

(** With a known intent the classifier's completion service gets no request. *)
Lemma process_skips_classifier (st : ExamHelperState) (calls : nat) :
  default "unknown" (user_intent st) ≠ "unknown" → (node st calls).2 = calls.
Proof.
  intros Hknown. unfold process.
  rewrite (bool_decide_eq_false_2 _ Hknown). done.
Qed.

Lemma router_graph_returns (st : ExamHelperState) (calls : nat) :
  (graph st calls).1 = Returns (dict_update st (node st calls).1) ∧
  (graph st calls).2 = (node st calls).2.
Proof. unfold router_graph. by destruct (process _ _ _ _ _ _ _). Qed.

Lemma router_graph_keeps_turn_count st calls final :
  (graph st calls).1 = Returns final → turn_count final = turn_count st.
Proof.
  rewrite (proj1 (router_graph_returns st calls)). intros [= <-].
  pose proof (process_cases st calls) as Hcases. cbv zeta in Hcases.
  destruct Hcases as [Hcount _].
  unfold dict_update. cbn [turn_count]. by rewrite Hcount.
Qed.

Lemma router_graph_keeps_known_intent st calls final label :
  user_intent st = Some label → label ≠ "unknown" →
  (graph st calls).1 = Returns final → user_intent final = Some label.
Proof.
  intros Hintent Hknown. rewrite (proj1 (router_graph_returns st calls)). intros [= <-].
  pose proof (process_cases st calls) as Hcases. cbv zeta in Hcases.
  destruct Hcases as [_ [(intent & Hupd & _ & _ & Hsame & _)|(Hupd & _)]];
    unfold dict_update; cbn [user_intent]; rewrite Hupd; [|by rewrite Hintent].
  rewrite Hsame; rewrite Hintent; simpl; auto.
Qed.

(** A run of the counting graph raises the counter by one. *)
Lemma counting_graph_counts st calls final :
  (counting_graph str_of GOOGLE_API_KEY completion orchestrator_agent react_agent
     st calls).1 = Returns final →
  turn_count final = Some (default 0 (turn_count st) + 1)%Z.
Proof.
  unfold counting_graph.
  pose proof (router_graph_keeps_turn_count st calls) as Hkept.
  destruct (graph st calls) as [[routed|e] calls']; simpl in *; [|discriminate].
  intros [= <-]. simpl. by rewrite (Hkept routed eq_refl).
Qed.

End NodeFacts.

(** ** Coordinator: reply, counter and intent across turns *)

Section TurnFacts.

Import Agents OrchestratorNode Workflow.

Variable World : Type.
Variable workflow_invoke : ExamHelperState → World → result ExamHelperState * World.

Variable str_of : json → string.
Variable GOOGLE_API_KEY : option string.
Variable completion : nat → string → result message.
Context (orchestrator_agent : BaseAgent).
Variable react_agent : string → list message → result (list message).

Implicit Types (self : MultiAgentWorkflow) (fs : storage) (w : World).

Abbreviation current self := (_get_current_state self).1.

(** The three ways a call of [process_query] ends. *)
Lemma process_query_outcome user_message now self fs w :
  let st_in := with_user_message (current self) user_message in
  let holding st := {| conversation_id := conversation_id self; _state := Some st |} in
  let outcome := process_query World workflow_invoke user_message now self fs w in
  match workflow_invoke st_in w with
  | (Raises e, w') => outcome = (failure e, holding st_in, fs, w')
  | (Returns final, w') =>
      match _save_conversation now (holding final) fs with
      | Raises e => outcome = (failure e, holding final, fs, w')
      | Returns fs' =>
          outcome =
            ({| success := true;
                response := Some (default (Some (Text FALLBACK)) (orchestrator_result final));
                state := Some final;
                Workflow.error := None |},
             holding final, fs', w')
      end
  end.
Proof.
  unfold process_query, _get_current_state.
  destruct (_state self) as [st|]; simpl;
    destruct (workflow_invoke _ w) as [[final|e] w']; simpl; try done;
    destruct (_save_conversation _ _ _); done.
Qed.

(** A failed call answers with the fallback sentence; the text of the
    exception is in the [error] entry only. *)
Lemma process_query_failure_reply user_message now self fs w :
  let result := (process_query World workflow_invoke user_message now self fs w).1.1.1 in
  success result = false → response result = Some (Some (Text FALLBACK)).
Proof.
  pose proof (process_query_outcome user_message now self fs w) as Hout.
  cbv zeta in Hout. intros result. subst result.
  destruct (workflow_invoke _ w) as [[final|e] w']; [|by rewrite Hout].
  destruct (_save_conversation _ _ _); by rewrite Hout.
Qed.

(** Whatever the graph is: when the state it returns holds
    [orchestrator_result: None], a completed call answers [None]. *)
Lemma process_query_None_reply user_message now self fs w final :
  let outcome := process_query World workflow_invoke user_message now self fs w in
  (workflow_invoke (with_user_message (current self) user_message) w).1 = Returns final →
  orchestrator_result final = Some None →
  success outcome.1.1.1 = true →
  response outcome.1.1.1 = Some None ∧
  (chat World workflow_invoke user_message now self fs w).1.1.1 = None.
Proof.
  pose proof (process_query_outcome user_message now self fs w) as Hout.
  cbv zeta in Hout. intros outcome. subst outcome. unfold chat.
  destruct (workflow_invoke _ w) as [[final'|e] w']; simpl; [|discriminate].
  intros [= ->] Hreply.
  destruct (_save_conversation _ _ _); rewrite Hout; simpl; [|discriminate].
  by rewrite Hreply.
Qed.

(** What a completed call leaves in the record's metadata. *)
Lemma process_query_persists user_message now self fs w :
  let outcome := process_query World workflow_invoke user_message now self fs w in
  success outcome.1.1.1 = true →
  ∃ final rec,
    (workflow_invoke (with_user_message (current self) user_message) w).1 = Returns final ∧
    _state outcome.1.1.2 = Some final ∧
    load_conversation (conversation_id self) outcome.1.2 = Returns (JObj rec) ∧
    rec !! "metadata" = Some (JObj
      {[ "user_intent" := JStr (default "unknown" (user_intent final));
         "turn_count" := JInt (default 0%Z (turn_count final)) ]}).
Proof.
  pose proof (process_query_outcome user_message now self fs w) as Hout.
  cbv zeta in Hout. intros outcome. subst outcome.
  destruct (workflow_invoke _ w) as [[final|e] w']; [|by rewrite Hout].
  destruct (_save_conversation _ _ _) as [fs'|e] eqn:Hsave; rewrite Hout; [|done].
  intros _. unfold _save_conversation in Hsave. simpl in Hsave.
  destruct (save_conversation_written _ _ _ _ _ _ Hsave)
    as (rec & created & -> & _ & _ & _ & Hmeta & _).
  exists final, rec. repeat split; try done.
  apply load_conversation_document. simpl. apply lookup_insert_eq.
Qed.

(** The counter starts at 0 and nothing under [app/] adds to it: the
    router's returned dict has no [turn_count] entry; [process_query] and
    [chat] leave the counter as they found it whenever the state graph does;
    and a completed call persists the counter of the state the graph
    returned. *)
Lemma turn_count_is_carried :
  turn_count get_initial_state = Some 0%Z ∧
  (∀ st calls,
     turn_count (process str_of GOOGLE_API_KEY completion orchestrator_agent
                   react_agent st calls).1 = None) ∧
  ((∀ st w final, (workflow_invoke st w).1 = Returns final →
                  turn_count final = turn_count st) →
   ∀ inputs self fs w,
     turn_count (current (chats World workflow_invoke inputs self fs w).1.1.2)
     = turn_count (current self)) ∧
  (∀ user_message now self fs w,
     let outcome := process_query World workflow_invoke user_message now self fs w in
     success outcome.1.1.1 = true →
     ∃ final rec meta,
       (workflow_invoke (with_user_message (current self) user_message) w).1
         = Returns final ∧
       load_conversation (conversation_id self) outcome.1.2 = Returns (JObj rec) ∧
       rec !! "metadata" = Some (JObj meta) ∧
       meta !! "turn_count" = Some (JInt (default 0%Z (turn_count final)))).
Proof.
  split; [done|]. split; [|split].
  - intros st calls. apply process_cases.
  - intros Hgraph inputs self fs w.
    apply (chats_keep World workflow_invoke turn_count (λ _, True)); eauto.
  - intros user_message now self fs w outcome Hsuccess.
    destruct (process_query_persists user_message now self fs w Hsuccess)
      as (final & rec & Hfinal & _ & Hload & Hmeta).
    eexists final, rec, _. repeat split; eauto.
Qed.

(** C4. A state whose intent is [explain] or [learn] goes through the
    router without a request to the classifier, and the router's dict either
    repeats that intent or (on failure) has no intent entry, so the state
    keeps it; from [unknown] the intent becomes one of the three labels; and
    across any number of turns the coordinator keeps a known intent whenever
    the state graph does. *)
Theorem known_intent_is_kept :
  (∀ st calls label,
     user_intent st = Some label → label ∈ ["explain"; "learn"] →
     let out := process str_of GOOGLE_API_KEY completion orchestrator_agent
                  react_agent st calls in
     out.2 = calls ∧
     (user_intent out.1 = Some label ∨ user_intent out.1 = None) ∧
     user_intent (dict_update st out.1) = Some label) ∧
  (∀ st calls,
     default "unknown" (user_intent st) = "unknown" →
     let out := process str_of GOOGLE_API_KEY completion orchestrator_agent
                  react_agent st calls in
     default "unknown" (user_intent (dict_update st out.1))
       ∈ ["explain"; "learn"; "unknown"]) ∧
  ((∀ st w final label,
      user_intent st = Some label → label ≠ "unknown" →
      (workflow_invoke st w).1 = Returns final → user_intent final = Some label) →
   ∀ inputs self fs w label,
     user_intent (current self) = Some label → label ∈ ["explain"; "learn"] →
     user_intent (current (chats World workflow_invoke inputs self fs w).1.1.2)
     = Some label).
Proof.
  assert (Hlabels : ∀ label : string, label ∈ ["explain"; "learn"] → label ≠ "unknown").
  { intros label Hin ->. apply list_elem_of_In in Hin. simpl in Hin.
    destruct Hin as [?|[?|[]]]; discriminate. }
  split; [|split].
  - intros st calls label Hintent Hlabel out. subst out.
    apply Hlabels in Hlabel.
    pose proof (process_cases str_of GOOGLE_API_KEY completion orchestrator_agent
                  react_agent st calls) as Hcases. cbv zeta in Hcases.
    split.
    { apply process_skips_classifier. by rewrite Hintent. }
    destruct Hcases as [_ [(intent & Hupd & _ & _ & Hsame & _)|(Hupd & _)]].
    + rewrite Hsame in Hupd by (rewrite Hintent; simpl; auto).
      rewrite Hintent in Hupd. simpl in Hupd.
      split; [by left|]. unfold dict_update. cbn [user_intent]. by rewrite Hupd.
    + split; [by right|]. unfold dict_update. cbn [user_intent]. by rewrite Hupd.
  - intros st calls Hunknown out. subst out.
    pose proof (process_cases str_of GOOGLE_API_KEY completion orchestrator_agent
                  react_agent st calls) as Hcases. cbv zeta in Hcases.
    destruct Hcases as [_ [(intent & Hupd & _ & _ & _ & Hwhich)|(Hupd & _)]];
      unfold dict_update; cbn [user_intent]; rewrite Hupd; simpl.
    + destruct Hwhich as [->|Hin]; [|done].
      rewrite Hunknown. apply list_elem_of_In. simpl. tauto.
    + rewrite Hunknown. apply list_elem_of_In. simpl. tauto.
  - intros Hgraph inputs self fs w label Hintent Hlabel.
    rewrite <- Hintent.
    apply (chats_keep World workflow_invoke user_intent
             (λ v, ∃ known, v = Some known ∧ known ≠ "unknown")).
    + done.
    + intros st w0 final (known & Hknown & Hne) Hfinal.
      rewrite Hknown. eauto.
    + exists label. split; [done|]. by apply Hlabels.
Qed.

End TurnFacts.

(** ** Coordinator: counting round trips *)

Section CountingFacts.

Import Workflow.

Variable World : Type.
Variable workflow_invoke : ExamHelperState → World → result ExamHelperState * World.

Implicit Types (self : MultiAgentWorkflow) (fs : storage) (w : World).

Abbreviation current self := (_get_current_state self).1.
Abbreviation counter := Requirements.counter.
Abbreviation holding self st :=
  {| conversation_id := conversation_id self; _state := Some st |}.

(** The record's file is absent or holds a JSON object. *)
Abbreviation record_ok self fs :=
  (∀ f, fs !! _get_conversation_path (conversation_id self) = Some f →
        ∃ o, f = Document (JObj o)).

Lemma _save_conversation_returns now self st fs :
  record_ok self fs → ∃ fs', _save_conversation now (holding self st) fs = Returns fs'.
Proof. intros Hfile. unfold _save_conversation. simpl. by apply save_conversation_returns. Qed.

Lemma _save_conversation_raises now self st fs e :
  fs !! _get_conversation_path (conversation_id self) = Some (Unreadable e) →
  caught_by [JSONDecodeError; KeyError] e = false →
  _save_conversation now (holding self st) fs = Raises e.
Proof.
  intros Hfile Hcaught. unfold _save_conversation, save_conversation. simpl.
  rewrite Hfile. unfold try_except, json_load. cbn [mbind result_bind bind].
  by rewrite Hcaught.
Qed.

Lemma _save_conversation_keeps now self st fs fs' :
  _save_conversation now (holding self st) fs = Returns fs' → record_ok self fs'.
Proof.
  unfold _save_conversation. simpl. intros Hsave.
  destruct (save_conversation_written _ _ _ _ _ _ Hsave) as (rec & created & -> & _).
  intros f. rewrite lookup_insert_eq. intros [= <-]. eauto.
Qed.

(** A call whose save raises after the graph has returned: it reports
    failure, and the coordinator keeps the state the graph returned. *)
Lemma process_query_save_raises user_message now self fs w final e :
  let outcome := process_query World workflow_invoke user_message now self fs w in
  (workflow_invoke (with_user_message (current self) user_message) w).1 = Returns final →
  fs !! _get_conversation_path (conversation_id self) = Some (Unreadable e) →
  caught_by [JSONDecodeError; KeyError] e = false →
  success outcome.1.1.1 = false ∧ Workflow.error outcome.1.1.1 = Some (exn_str e) ∧
  _state outcome.1.1.2 = Some final ∧ outcome.1.2 = fs.
Proof.
  pose proof (process_query_outcome World workflow_invoke user_message now self fs w) as Hout.
  cbv zeta in Hout. intros outcome. subst outcome.
  destruct (workflow_invoke _ w) as [[final'|e'] w']; simpl; [|discriminate].
  intros [= ->] Hfile Hcaught.
  rewrite (_save_conversation_raises now self final fs e Hfile Hcaught) in Hout.
  by rewrite Hout.
Qed.

(** Whatever graph is wired, as long as one of its runs returns: the
    coordinator does not count completed round trips call by call, because
    the state the graph returned is kept when the save that follows raises. *)
Lemma counts_round_trips_refuted self user_message w final :
  (workflow_invoke (with_user_message (current self) user_message) w).1 = Returns final →
  ¬ Requirements.counts_round_trips workflow_invoke.
Proof.
  intros Hrun Hcounts.
  pose proof (Hcounts user_message "" self ∅ w) as Hfresh.
  pose proof (Hcounts user_message "" self
                {[ _get_conversation_path (conversation_id self)
                   := Unreadable (Exn OSError "Permission denied") ]} w) as Hdenied.
  cbv zeta in Hfresh, Hdenied.
  destruct (process_query_save_raises user_message "" self _ w final
              (Exn OSError "Permission denied") Hrun (lookup_singleton_eq _ _) eq_refl)
    as (Hfailure & _ & Hstate & _).
  rewrite Hfailure in Hdenied.
  pose proof (process_query_outcome World workflow_invoke user_message "" self ∅ w) as Hout.
  cbv zeta in Hout.
  destruct (workflow_invoke _ w) as [[final'|e'] w']; simpl in Hrun; [|discriminate].
  injection Hrun as ->.
  destruct (_save_conversation_returns "" self final ∅) as [fs' Hsave].
  { intros f. rewrite lookup_empty. discriminate. }
  rewrite Hsave in Hout. rewrite Hout in Hfresh. simpl in Hfresh.
  unfold Requirements.counter in Hfresh, Hdenied.
  unfold _get_current_state in Hdenied at 1.
  rewrite Hstate in Hdenied. simpl in Hfresh, Hdenied. lia.
Qed.

(** The graph to be wired, as far as the counter goes: a run that returns
    has raised it by one. *)
Hypothesis graph_counts :
  ∀ st w final, (workflow_invoke st w).1 = Returns final →
                turn_count final = Some (default 0 (turn_count st) + 1)%Z.

Lemma process_query_counts user_message now self fs w :
  let outcome := process_query World workflow_invoke user_message now self fs w in
  (∀ final, (workflow_invoke (with_user_message (current self) user_message) w).1
            = Returns final →
            turn_count (current outcome.1.1.2) = Some (counter self + 1)%Z ∧
            conversation_id outcome.1.1.2 = conversation_id self) ∧
  (∀ e, (workflow_invoke (with_user_message (current self) user_message) w).1 = Raises e →
        success outcome.1.1.1 = false ∧
        turn_count (current outcome.1.1.2) = turn_count (current self) ∧
        conversation_id outcome.1.1.2 = conversation_id self ∧ outcome.1.2 = fs).
Proof.
  pose proof (process_query_outcome World workflow_invoke user_message now self fs w) as Hout.
  cbv zeta in Hout. intros outcome. subst outcome.
  pose proof (graph_counts (with_user_message (current self) user_message) w) as Hcount.
  destruct (workflow_invoke _ w) as [[final|e] w']; simpl in *.
  - split; [|discriminate]. intros final' [= <-].
    destruct (_save_conversation _ _ _); rewrite Hout; simpl;
      by rewrite (Hcount final eq_refl).
  - split; [discriminate|]. intros e' _. by rewrite Hout.
Qed.

(** Over a record file that can be saved to, a call succeeds exactly when
    the graph returns, and the file stays one that can be saved to. *)
Lemma process_query_success user_message now self fs w :
  let outcome := process_query World workflow_invoke user_message now self fs w in
  record_ok self fs →
  record_ok self outcome.1.2 ∧
  (success outcome.1.1.1 = true ↔
   ∃ final, (workflow_invoke (with_user_message (current self) user_message) w).1
            = Returns final).
Proof.
  pose proof (process_query_outcome World workflow_invoke user_message now self fs w) as Hout.
  cbv zeta in Hout. intros outcome Hfile. subst outcome.
  destruct (workflow_invoke _ w) as [[final|e] w']; simpl in *.
  - destruct (_save_conversation_returns now self final fs Hfile) as [fs' Hsave].
    rewrite Hsave in Hout. rewrite Hout. simpl.
    split; [by apply (_save_conversation_keeps now self final fs fs')|].
    split; eauto.
  - rewrite Hout. simpl. split; [done|]. split; [discriminate|]. by intros [final [= ]].
Qed.


End CountingFacts.

(** ** Concrete turns through the router graph *)

Section Scenarios.

Import Agents Workflow.

(** A classifier that answers [explain], a tool loop that appends one
    assistant message to the history, and one that raises. *)
Abbreviation says_explain :=
  (λ (_ : nat) (_ : string), Returns (AIMessage (Text "explain") [])).
Abbreviation answering :=
  (λ (_ : string) (history : list message),
     Returns (history ++ [AIMessage (Text "Recursion is a function calling itself.") []])%list).
Abbreviation failing :=
  (λ (_ : string) (_ : list message),
     @Raises (list message) (Exn RuntimeError "quota exceeded")).
Abbreviation router_with loop :=
  (router_graph (λ _, "") (Some "key") says_explain OrchestratorAgent loop).
Abbreviation fresh := {| conversation_id := "s1"; _state := None |}.

Abbreviation counting_with loop :=
  (counting_graph (λ _, "") (Some "key") says_explain OrchestratorAgent loop).



(** C3 at a turn whose tool loop raises: the router returns
    [orchestrator_result: None], the key is present in the final state, so
    [dict.get] does not take its default; [process_query] reports success
    with the response [None], and [chat] returns [None]. *)
Theorem chat_returns_None_when_router_fails :
  let outcome :=
    process_query nat (router_with failing) "Can you explain recursion?"
      "2026-01-01T10:00:00" fresh ∅ 0 in
  success outcome.1.1.1 = true ∧
  response outcome.1.1.1 = Some None ∧
  (chat nat (router_with failing) "Can you explain recursion?"
     "2026-01-01T10:00:00" fresh ∅ 0).1.1.1 = None.
Proof. repeat split; reflexivity. Qed.

(** C4 on a conversation whose intent is [explain]: two further turns, one
    of them failing, leave the intent in place, and the router makes no
    request to the classifier. *)
Lemma known_intent_is_kept_witness :
  let st := {| messages := Some [HumanMessage (Text "Can you explain recursion?")];
               user_query := Some "Can you explain recursion?";
               user_intent := Some "explain"; session_summary := Some "";
               turn_count := Some 0%Z; current_response := Some None;
               State.error := Some []; orchestrator_result := Some None |} in
  let self := {| conversation_id := "s1"; _state := Some st |} in
  (OrchestratorNode.process (λ _, "") (Some "key") says_explain OrchestratorAgent
     failing st 7).2 = 7 ∧
  user_intent
    (_get_current_state
       (chats nat (router_with answering)
          [("thanks", "2026-01-01T10:01:00"); ("more", "2026-01-01T10:02:00")]
          self ∅ 0).1.1.2).1
  = Some "explain".
Proof.
  intros st self.
  destruct (known_intent_is_kept nat (router_with answering)
              (λ _, "") (Some "key") says_explain OrchestratorAgent failing)
    as (Hnode & _ & Hturns).
  split.
  - apply (Hnode st 7 "explain"); [reflexivity|]. apply list_elem_of_In. simpl. tauto.
  - apply (Hturns (router_graph_keeps_known_intent _ _ _ _ _)
             _ self ∅ 0 "explain"); [reflexivity|].
    apply list_elem_of_In. simpl. tauto.
Defined.

End Scenarios.

(** * Further properties of the code *)

(** ** Conversation store: deleting, overwriting, neighbours *)

Section StoreOperations.

Implicit Types (fs : storage) (msgs : list json) (meta : option (gmap string json)).

Lemma length_append (s t : string) :
  String.length (s ++ t) = String.length s + String.length t.
Proof. induction s as [|a s IH]; simpl; [done|by rewrite IH]. Qed.

Lemma append_cancel_r (s1 s2 t : string) : s1 ++ t = s2 ++ t → s1 = s2.
Proof.
  revert s2. induction s1 as [|a s1 IH]; intros [|b s2]; simpl; try done.
  - intros Heq. apply (f_equal String.length) in Heq.
    rewrite ?length_append in Heq. simpl in Heq. rewrite ?length_append in Heq. lia.
  - intros Heq. apply (f_equal String.length) in Heq.
    rewrite ?length_append in Heq. simpl in Heq. rewrite ?length_append in Heq. lia.
  - intros [= -> Heq]. f_equal. by apply IH.
Qed.

Lemma path_inj id1 id2 :
  _get_conversation_path id1 = _get_conversation_path id2 → safe_id id1 = safe_id id2.
Proof. apply append_cancel_r. Qed.

(** X1. [delete_conversation] answers [True] exactly when a file was there;
    afterwards the record is gone for [load_conversation] and
    [get_messages], a second delete answers [False], and no other file is
    touched. *)
Theorem delete_conversation_removes_record id fs :
  let answer := (delete_conversation id fs).1 in
  let fs' := (delete_conversation id fs).2 in
  (answer = true ↔ is_Some (fs !! _get_conversation_path id)) ∧
  load_conversation id fs' = Returns JNull ∧
  get_messages id fs' = Returns (JList []) ∧
  (delete_conversation id fs').1 = false ∧
  (∀ other, safe_id other ≠ safe_id id →
     load_conversation other fs' = load_conversation other fs).
Proof.
  intros answer fs'. subst answer fs'. unfold delete_conversation.
  destruct (fs !! _get_conversation_path id) as [f|] eqn:Hfile; simpl.
  - split; [split; eauto|].
    assert (Hgone : delete (_get_conversation_path id) fs !! _get_conversation_path id = None)
      by apply lookup_delete_eq.
    split; [by apply load_conversation_missing|].
    split; [by apply load_conversation_missing|].
    split; [by rewrite Hgone|].
    intros other Hother. unfold load_conversation.
    rewrite lookup_delete_ne; [done|]. intros Heq. by apply Hother, path_inj.
  - split; [split; [done|by intros [? ?]]|].
    split; [by apply load_conversation_missing|].
    split; [by apply load_conversation_missing|].
    split; [by rewrite Hfile|done].
Qed.

(** X2. A save writes one file: records under identifiers with another
    sanitized form read as before. *)
Theorem save_conversation_leaves_other_records now id msgs meta fs fs' other :
  save_conversation now id msgs meta fs = Returns fs' →
  safe_id other ≠ safe_id id →
  load_conversation other fs' = load_conversation other fs ∧
  get_messages other fs' = get_messages other fs ∧
  (delete_conversation other fs').1 = (delete_conversation other fs).1.
Proof.
  intros Hsave Hother.
  destruct (save_conversation_written _ _ _ _ _ _ Hsave) as (rec & created & -> & _).
  assert (Hlookup : <[_get_conversation_path id := Document (JObj rec)]> fs
                      !! _get_conversation_path other
                    = fs !! _get_conversation_path other).
  { rewrite lookup_insert_ne; [done|].
    intros Heq. by apply Hother, eq_sym, path_inj. }
  unfold get_messages, load_conversation, delete_conversation.
  rewrite Hlookup. repeat split; try done.
  by destruct (fs !! _get_conversation_path other).
Qed.

Lemma save_conversation_leaves_other_records_witness :
  let fs : storage :=
    {[ "s1.json" := Document (JObj {[ "messages" := JList [JStr "old"] ]}) ]} in
  ∃ fs',
    save_conversation "2026-01-01T10:00:00" "s2" [JStr "new"] None fs = Returns fs' ∧
    load_conversation "s1" fs'
    = Returns (JObj {[ "messages" := JList [JStr "old"] ]}) ∧
    get_messages "s1" fs' = Returns (JList [JStr "old"]).
Proof.
  intros fs.
  destruct (save_conversation_returns "2026-01-01T10:00:00" "s2" [JStr "new"] None fs)
    as [fs' Hsave].
  { intros f Hf. vm_compute in Hf. discriminate. }
  exists fs'. split; [exact Hsave|].
  destruct (save_conversation_leaves_other_records _ _ _ _ _ _ "s1" Hsave)
    as (Hload & Hmsgs & _); [discriminate|].
  by rewrite Hload, Hmsgs.
Defined.

(** X3. Saving over a file that cannot be read back: when the read raises
    [JSONDecodeError] (or [KeyError]) the save goes through and starts a new
    [created_at]; any other exception leaves the save undone and reaches the
    caller; so does the [AttributeError] of a file whose JSON is not an
    object. *)
Theorem save_conversation_over_damaged_file now id msgs meta fs :
  (∀ e, fs !! _get_conversation_path id = Some (Unreadable e) →
        if caught_by [JSONDecodeError; KeyError] e
        then ∃ fs' rec,
               save_conversation now id msgs meta fs = Returns fs' ∧
               load_conversation id fs' = Returns (JObj rec) ∧
               rec !! "created_at" = Some (JStr now) ∧
               rec !! "messages" = Some (JList msgs)
        else save_conversation now id msgs meta fs = Raises e) ∧
  (∀ data, fs !! _get_conversation_path id = Some (Document data) →
           (∀ o, data ≠ JObj o) →
           ∃ e, save_conversation now id msgs meta fs = Raises e ∧
                exn_cls e = AttributeError).
Proof.
  split.
  - intros e Hfile.
    destruct (caught_by [JSONDecodeError; KeyError] e) eqn:Hcaught.
    + assert (Hsave : ∃ fs', save_conversation now id msgs meta fs = Returns fs').
      { unfold save_conversation. rewrite Hfile.
        unfold try_except, json_load. cbn [mbind result_bind bind].
        rewrite Hcaught. cbn [mbind result_bind bind]. eauto. }
      destruct Hsave as [fs' Hsave].
      assert (Hcreated : ∃ rec, fs' = <[_get_conversation_path id := Document (JObj rec)]> fs
                                ∧ rec !! "created_at" = Some (JStr now)
                                ∧ rec !! "messages" = Some (JList msgs)).
      { unfold save_conversation in Hsave. rewrite Hfile in Hsave.
        unfold try_except, json_load in Hsave. cbn [mbind result_bind bind] in Hsave.
        rewrite Hcaught in Hsave. cbn [mbind result_bind bind] in Hsave.
        injection Hsave as <-. eexists. split; [reflexivity|]. split; reflexivity. }
      destruct Hcreated as (rec & -> & Hcreated & Hmsgs).
      eexists _, rec. split; [exact Hsave|].
      split; [apply load_conversation_document, lookup_insert_eq|done].
    + unfold save_conversation. rewrite Hfile.
      unfold try_except, json_load. cbn [mbind result_bind bind].
      by rewrite Hcaught.
  - intros data Hfile Hshape. unfold save_conversation. rewrite Hfile.
    destruct data as [| n | s | l | o]; try (eexists; split; reflexivity).
    by destruct (Hshape o).
Qed.

Lemma save_conversation_over_damaged_file_witness :
  (∃ fs' rec,
     save_conversation "2026-01-01T10:00:00" "s1" [JStr "m"] None
       {[ "s1.json" := Unreadable (Exn JSONDecodeError "Expecting value") ]}
     = Returns fs' ∧
     load_conversation "s1" fs' = Returns (JObj rec) ∧
     rec !! "created_at" = Some (JStr "2026-01-01T10:00:00") ∧
     rec !! "messages" = Some (JList [JStr "m"])) ∧
  save_conversation "2026-01-01T10:00:00" "s1" [JStr "m"] None
    {[ "s1.json" := Unreadable (Exn OSError "Permission denied") ]}
  = Raises (Exn OSError "Permission denied").
Proof.
  split.
  - destruct (save_conversation_over_damaged_file "2026-01-01T10:00:00" "s1"
                [JStr "m"] None
                {[ "s1.json" := Unreadable (Exn JSONDecodeError "Expecting value") ]})
      as [Hdamaged _].
    apply (Hdamaged (Exn JSONDecodeError "Expecting value")). reflexivity.
  - destruct (save_conversation_over_damaged_file "2026-01-01T10:00:00" "s1"
                [JStr "m"] None
                {[ "s1.json" := Unreadable (Exn OSError "Permission denied") ]})
      as [Hdamaged _].
    apply (Hdamaged (Exn OSError "Permission denied")). reflexivity.
Defined.

End StoreOperations.

(** ** Conversation store: appending a message, merging metadata, clearing *)

Section StoreUpdates.

Implicit Types (fs : storage) (rec meta : gmap string json) (l : list json).

Lemma truthy_record rec key value : rec !! key = Some value → truthy (JObj rec) = true.
Proof.
  intros Hkey. simpl. case_bool_decide as Hempty; [|done].
  rewrite Hempty, lookup_empty in Hkey. discriminate.
Qed.

Lemma or_empty_dict (m : gmap string json) :
  (if truthy (JObj m) then JObj m else JObj ∅) = JObj m.
Proof. simpl. case_bool_decide; simpl; [by subst|done]. Qed.

(** What [write_record] leaves over a file that holds a record. *)
Lemma write_record_over_record now id messages metadata fs rec :
  fs !! _get_conversation_path id = Some (Document (JObj rec)) →
  ∃ rec',
    (write_record now id messages metadata fs).1
      = <[_get_conversation_path id := Document (JObj rec')]> fs ∧
    (write_record now id messages metadata fs).2 = (_ ← len messages; Returns tt) ∧
    rec' !! "messages" = Some messages ∧
    rec' !! "metadata" = Some (if truthy metadata then metadata else JObj ∅) ∧
    rec' !! "updated_at" = Some (JStr now) ∧
    rec' !! "created_at" = Some (default (JStr now) (rec !! "created_at")).
Proof.
  intros Hfile. unfold write_record. rewrite Hfile. simpl.
  eexists. repeat split; reflexivity.
Qed.

(** What [write_record] leaves where there was no file. *)
Lemma write_record_fresh now id messages metadata fs :
  fs !! _get_conversation_path id = None →
  ∃ rec',
    (write_record now id messages metadata fs).1
      = <[_get_conversation_path id := Document (JObj rec')]> fs ∧
    (write_record now id messages metadata fs).2 = (_ ← len messages; Returns tt) ∧
    rec' !! "messages" = Some messages ∧
    rec' !! "metadata" = Some (if truthy metadata then metadata else JObj ∅) ∧
    rec' !! "created_at" = Some (JStr now).
Proof.
  intros Hfile. unfold write_record. rewrite Hfile. simpl.
  eexists. repeat split; reflexivity.
Qed.

(** The dict [add_message] appends. *)
Abbreviation new_message timestamp role content metadata :=
  (JObj match metadata with
        | Some m =>
            if bool_decide (m = ∅)
            then {[ "role" := JStr role; "content" := JStr content;
                    "timestamp" := JStr timestamp ]}
            else <["metadata" := JObj m]>
                   {[ "role" := JStr role; "content" := JStr content;
                      "timestamp" := JStr timestamp ]}
        | None => {[ "role" := JStr role; "content" := JStr content;
                     "timestamp" := JStr timestamp ]}
        end).

(** X4. [add_message] on a record whose messages are a list: it returns, the
    new message is the last one, the earlier ones stay in order, and the
    record keeps its metadata dict and its [created_at].  Without a record
    it creates one holding just that message. *)
Theorem add_message_appends timestamp now id role content metadata fs :
  let outcome := add_message timestamp now id role content metadata fs in
  (∀ rec l m created,
     fs !! _get_conversation_path id = Some (Document (JObj rec)) →
     rec !! "messages" = Some (JList l) →
     rec !! "metadata" = Some (JObj m) →
     rec !! "created_at" = Some created →
     outcome.2 = Returns tt ∧
     get_messages id outcome.1
       = Returns (JList (l ++ [new_message timestamp role content metadata])) ∧
     ∃ rec', load_conversation id outcome.1 = Returns (JObj rec') ∧
             rec' !! "metadata" = Some (JObj m) ∧
             rec' !! "created_at" = Some created ∧
             rec' !! "updated_at" = Some (JStr now)) ∧
  (fs !! _get_conversation_path id = None →
   outcome.2 = Returns tt ∧
   get_messages id outcome.1
     = Returns (JList [new_message timestamp role content metadata]) ∧
   ∃ rec', load_conversation id outcome.1 = Returns (JObj rec') ∧
           rec' !! "metadata" = Some (JObj ∅) ∧
           rec' !! "created_at" = Some (JStr now)).
Proof.
  intros outcome. subst outcome. split.
  - intros rec l m created Hfile Hmsgs Hmeta Hcreated.
    unfold add_message.
    rewrite (get_messages_record _ _ _ _ Hfile Hmsgs).
    rewrite (load_conversation_document _ _ _ Hfile).
    cbn [mbind result_bind bind list_append].
    rewrite (truthy_record _ _ _ Hmsgs).
    cbn [get_method mbind result_bind bind]. rewrite Hmeta. cbn [default].
    match goal with |- context [write_record now id ?ms ?md fs] =>
      destruct (write_record_over_record now id ms md fs rec Hfile)
        as (rec' & Hfs & Hout & Hmsgs' & Hmeta' & Hupd' & Hcreated') end.
    rewrite Hfs, Hout. split; [done|].
    assert (Hrec' : <[_get_conversation_path id := Document (JObj rec')]> fs
                      !! _get_conversation_path id = Some (Document (JObj rec')))
      by apply lookup_insert_eq.
    split; [by apply get_messages_record with rec'|].
    exists rec'. split; [by apply load_conversation_document|].
    unfold Datatypes.id in Hmeta'.
    rewrite or_empty_dict in Hmeta'. rewrite Hcreated in Hcreated'. done.
  - intros Hfile. unfold add_message.
    destruct (load_conversation_missing id fs Hfile) as [Hload Hget].
    rewrite Hget, Hload. cbn [mbind result_bind bind list_append truthy app].
    match goal with |- context [write_record now id ?ms ?md fs] =>
      destruct (write_record_fresh now id ms md fs Hfile)
        as (rec' & Hfs & Hout & Hmsgs' & Hmeta' & Hcreated') end.
    rewrite Hfs, Hout. split; [done|].
    assert (Hrec' : <[_get_conversation_path id := Document (JObj rec')]> fs
                      !! _get_conversation_path id = Some (Document (JObj rec')))
      by apply lookup_insert_eq.
    split; [by apply get_messages_record with rec'|].
    exists rec'. split; [by apply load_conversation_document|done].
Qed.

Lemma add_message_appends_witness :
  let fs : storage :=
    {[ "s1.json" := Document (JObj {[ "messages" := JList [JStr "first"];
                                      "metadata" := JObj {[ "user_intent" := JStr "learn" ]};
                                      "created_at" := JStr "2026-01-01T09:00:00" ]}) ]} in
  let outcome := add_message "2026-01-01T10:00:00" "2026-01-01T10:00:01" "s1"
                   "user" "hello" None fs in
  outcome.2 = Returns tt ∧
  get_messages "s1" outcome.1
    = Returns (JList [JStr "first";
                      JObj {[ "role" := JStr "user"; "content" := JStr "hello";
                              "timestamp" := JStr "2026-01-01T10:00:00" ]}]) ∧
  ∃ rec', load_conversation "s1" outcome.1 = Returns (JObj rec') ∧
          rec' !! "metadata" = Some (JObj {[ "user_intent" := JStr "learn" ]}) ∧
          rec' !! "created_at" = Some (JStr "2026-01-01T09:00:00") ∧
          rec' !! "updated_at" = Some (JStr "2026-01-01T10:00:01").
Proof.
  intros fs outcome.
  destruct (add_message_appends "2026-01-01T10:00:00" "2026-01-01T10:00:01" "s1"
              "user" "hello" None fs) as [Hrecord _].
  eapply (Hrecord _ [JStr "first"]); reflexivity.
Defined.

(** X5. [update_metadata] on a record whose metadata is a dict and whose
    messages are a list: it returns, the given keys take their new values,
    the other keys keep theirs, and messages and [created_at] are as before.
    Without a record it creates one with no messages and the given metadata. *)
Theorem update_metadata_merges now id meta fs :
  let outcome := update_metadata now id meta fs in
  (∀ rec l m created,
     fs !! _get_conversation_path id = Some (Document (JObj rec)) →
     rec !! "messages" = Some (JList l) →
     rec !! "metadata" = Some (JObj m) →
     rec !! "created_at" = Some created →
     outcome.2 = Returns tt ∧
     ∃ rec' m',
       load_conversation id outcome.1 = Returns (JObj rec') ∧
       rec' !! "metadata" = Some (JObj m') ∧
       (∀ key value, meta !! key = Some value → m' !! key = Some value) ∧
       (∀ key, meta !! key = None → m' !! key = m !! key) ∧
       rec' !! "messages" = Some (JList l) ∧
       rec' !! "created_at" = Some created) ∧
  (fs !! _get_conversation_path id = None →
   outcome.2 = Returns tt ∧
   ∃ rec', load_conversation id outcome.1 = Returns (JObj rec') ∧
           rec' !! "metadata" = Some (JObj meta) ∧
           rec' !! "messages" = Some (JList [])).
Proof.
  intros outcome. subst outcome. split.
  - intros rec l m created Hfile Hmsgs Hmeta Hcreated.
    unfold update_metadata.
    rewrite (load_conversation_document _ _ _ Hfile).
    rewrite (truthy_record _ _ _ Hmsgs).
    cbn [get_method mbind result_bind bind]. rewrite Hmeta, Hmsgs.
    unfold Datatypes.id. cbn -[write_record union].
    destruct (write_record_over_record now id (JList l) (JObj (meta ∪ m)) fs rec Hfile)
      as (rec' & Hfs & Hout & Hmsgs' & Hmeta' & Hupd' & Hcreated').
    rewrite Hfs, Hout. split; [done|].
    exists rec', (meta ∪ m).
    split; [apply load_conversation_document, lookup_insert_eq|].
    rewrite or_empty_dict in Hmeta'. rewrite Hcreated in Hcreated'.
    split; [done|]. split; [|split; [|done]].
    + intros key value Hkey. by apply lookup_union_Some_l.
    + intros key Hkey. by apply lookup_union_r.
  - intros Hfile. unfold update_metadata.
    destruct (load_conversation_missing id fs Hfile) as [-> _]. cbn [truthy].
    destruct (write_record_fresh now id (JList []) (JObj meta) fs Hfile)
      as (rec' & Hfs & Hout & Hmsgs' & Hmeta' & Hcreated').
    rewrite Hfs, Hout. split; [done|].
    exists rec'. split; [apply load_conversation_document, lookup_insert_eq|].
    rewrite or_empty_dict in Hmeta'. done.
Qed.

Lemma update_metadata_merges_witness :
  let fs : storage :=
    {[ "s1.json" := Document (JObj {[ "messages" := JList [JStr "first"];
                                      "metadata" := JObj {[ "user_intent" := JStr "unknown";
                                                            "turn_count" := JInt 0 ]};
                                      "created_at" := JStr "2026-01-01T09:00:00" ]}) ]} in
  let outcome := update_metadata "2026-01-01T10:00:00" "s1"
                   {[ "user_intent" := JStr "learn" ]} fs in
  outcome.2 = Returns tt ∧
  ∃ rec' m',
    load_conversation "s1" outcome.1 = Returns (JObj rec') ∧
    rec' !! "metadata" = Some (JObj m') ∧
    m' !! "user_intent" = Some (JStr "learn") ∧
    m' !! "turn_count" = Some (JInt 0) ∧
    rec' !! "messages" = Some (JList [JStr "first"]).
Proof.
  intros fs outcome.
  destruct (update_metadata_merges "2026-01-01T10:00:00" "s1"
              {[ "user_intent" := JStr "learn" ]} fs) as [Hrecord _].
  destruct (Hrecord _ [JStr "first"]
              {[ "user_intent" := JStr "unknown"; "turn_count" := JInt 0 ]}
              (JStr "2026-01-01T09:00:00") eq_refl eq_refl eq_refl eq_refl)
    as (Hout & rec' & m' & Hload & Hmeta & Hnew & Hold & Hmsgs & _).
  split; [exact Hout|]. exists rec', m'.
  split; [exact Hload|]. split; [exact Hmeta|].
  split; [by apply Hnew|]. split; [by rewrite Hold|exact Hmsgs].
Defined.

End StoreUpdates.

Section StoreClearing.

Implicit Types (fs : storage).

Lemma clear_all_fold (files : list (string * file)) (count : nat) fs :
  let cleared := fold_left (λ acc nf, (S acc.1, delete nf.1 acc.2)) files (count, fs) in
  cleared.1 = count + length files ∧
  ∀ name, cleared.2 !! name
          = if bool_decide (name ∈ files.*1) then None else fs !! name.
Proof.
  revert count fs. induction files as [|[n f] files IH]; intros count fs.
  - simpl. split; [lia|]. intros name.
    done.
  - destruct (IH (S count) (delete n fs)) as [Hcount Hlookup].
    cbn [fold_left fst snd length] in *. split; [rewrite Hcount; lia|].
    intros name. rewrite Hlookup. rewrite fmap_cons. cbn [fst].
    destruct (decide (name = n)) as [->|Hne].
    + rewrite (bool_decide_eq_true_2 (n ∈ n :: files.*1)) by left.
      case_bool_decide; [done|apply lookup_delete_eq].
    + rewrite lookup_delete_ne by done.
      case_bool_decide as Hin; case_bool_decide as Hin'; try done.
      * destruct Hin'. by right.
      * apply elem_of_cons in Hin' as [?|?]; done.
Qed.

Lemma glob_json_names fs name :
  name ∈ (glob_json fs).*1 ↔ is_Some (fs !! name) ∧ endswith name ".json" = true.
Proof.
  unfold glob_json. rewrite list_elem_of_fmap. split.
  - intros ([n f] & -> & Hin). apply list_elem_of_filter in Hin as [Hjson Hin].
    apply elem_of_map_to_list in Hin. simpl in *. eauto.
  - intros [[f Hf] Hjson]. exists (name, f). split; [done|].
    apply list_elem_of_filter. split; [done|]. by apply elem_of_map_to_list.
Qed.

(** X6. [clear_all] counts and removes exactly the files named [*.json]: every
    other file stays, nothing is left for [glob] to find, and clearing again
    counts 0. *)
Theorem clear_all_removes_json_files fs :
  (clear_all fs).1 = length (glob_json fs) ∧
  (∀ name, (clear_all fs).2 !! name
           = if endswith name ".json" then None else fs !! name) ∧
  glob_json (clear_all fs).2 = [] ∧
  (clear_all (clear_all fs).2).1 = 0.
Proof.
  destruct (clear_all_fold (glob_json fs) 0 fs) as [Hcount Hlookup].
  cbv zeta in Hcount, Hlookup. fold (clear_all fs) in Hcount, Hlookup.
  assert (Hcleared : ∀ name, (clear_all fs).2 !! name
                            = if endswith name ".json" then None else fs !! name).
  { intros name. rewrite Hlookup. case_bool_decide as Hin.
    - apply glob_json_names in Hin as [_ ->]. done.
    - destruct (endswith name ".json") eqn:Hjson; [|done].
      destruct (fs !! name) as [f|] eqn:Hf; [|done].
      destruct Hin. apply glob_json_names. eauto. }
  assert (Hnone : glob_json (clear_all fs).2 = []).
  { unfold glob_json.
    destruct (filter _ (map_to_list (clear_all fs).2)) as [|[n f] rest] eqn:Hfilter; [done|].
    assert (Hin : (n, f) ∈ filter (λ nf : string * file, endswith nf.1 ".json" = true)
                             (map_to_list (clear_all fs).2)).
    { rewrite Hfilter. left. }
    apply list_elem_of_filter in Hin as [Hjson Hin].
    apply elem_of_map_to_list in Hin. rewrite Hcleared in Hin.
    simpl in Hjson. by rewrite Hjson in Hin. }
  split; [done|]. split; [done|]. split; [done|].
  unfold clear_all at 1. by rewrite Hnone.
Qed.

End StoreClearing.

(** ** Conversation context and text extraction *)

Section ContextFacts.

Variable str_of : json → string.

Lemma last_n_app {A} (old recent : list A) (n : nat) :
  length recent = n → last_n n (old ++ recent)%list = recent.
Proof.
  intros Hlen. unfold last_n. rewrite length_app, Hlen.
  replace (length old + n - n) with (length old) by lia.
  by rewrite drop_app_length.
Qed.

Lemma context_parts_textual (msgs : list message) :
  Forall (λ msg, ∃ s, message_content msg = Text s) msgs →
  ∃ parts, context_parts str_of msgs = Returns parts.
Proof.
  induction msgs as [|msg msgs IH]; intros Htext; [simpl; eauto|].
  apply Forall_cons in Htext as [[s Hs] Htext].
  destruct (IH Htext) as [parts Hparts]. simpl. rewrite Hparts.
  destruct msg as [c | c tool_calls | c | c]; simpl in *; subst; simpl; eauto.
  destruct (negb (bool_decide (s = "")) && bool_decide (tool_calls = [])); simpl;
    [|eauto].
  destruct (100 <? String.length s)%nat; simpl; eauto.
Qed.


End ContextFacts.


Section TextExtraction.

Import Agents OrchestratorNode.

(** A content block of type [text]. *)
Abbreviation text_block s := (JObj {[ "type" := JStr "text"; "text" := JStr s ]}).

Lemma text_parts_app (l1 l2 : list json) :
  text_parts (l1 ++ l2)%list
  = (parts1 ← text_parts l1; parts2 ← text_parts l2; Returns (parts1 ++ parts2)%list).
Proof.
  induction l1 as [|block l1 IH]; simpl.
  - by destruct (text_parts l2).
  - destruct (text_part block) as [part|e]; simpl; [|done].
    rewrite IH. destruct (text_parts l1) as [parts1|e]; simpl; [|done].
    destruct (text_parts l2) as [parts2|e]; simpl; [|done].
    by rewrite app_assoc.
Qed.

Lemma text_parts_text_blocks (texts : list string) :
  text_parts (map (λ s, text_block s) texts) = Returns (map JStr texts).
Proof.
  induction texts as [|s texts IH]; [done|].
  cbn [map text_parts]. rewrite IH. reflexivity.
Qed.

Lemma strings_of_strings (texts : list string) :
  strings_of (map JStr texts) = Returns texts.
Proof.
  unfold strings_of. generalize 0.
  induction texts as [|s texts IH]; intros i; [done|]. simpl. by rewrite IH.
Qed.

(** X9. [_extract_text]: a string comes back as it is; text blocks come back
    joined by line feeds; a dict block of another type is skipped; and a
    block of type [text] without a [text] key raises [KeyError]. *)
Theorem _extract_text_of_blocks :
  (∀ s, _extract_text (Text s) = Returns s) ∧
  (∀ texts, _extract_text (Blocks (map (λ s, text_block s) texts))
            = Returns (join LF texts)) ∧
  (∀ before d after,
     d !! "type" ≠ Some (JStr "text") →
     _extract_text (Blocks (before ++ JObj d :: after)%list)
     = _extract_text (Blocks (before ++ after)%list)) ∧
  (∀ d after,
     d !! "type" = Some (JStr "text") → d !! "text" = None →
     ∃ e, _extract_text (Blocks (JObj d :: after)) = Raises e ∧
          exn_cls e = KeyError).
Proof.
  split; [done|]. split; [|split].
  - intros texts. unfold _extract_text.
    rewrite text_parts_text_blocks. simpl. by rewrite strings_of_strings.
  - intros before d after Htype. unfold _extract_text.
    rewrite !text_parts_app. simpl.
    rewrite (bool_decide_eq_false_2 _ Htype). simpl.
    destruct (text_parts before) as [parts1|e]; simpl; [|done].
    by destruct (text_parts after).
  - intros d after Htype Htext. unfold _extract_text. simpl.
    rewrite (bool_decide_eq_true_2 _ Htype), Htext. simpl. eauto.
Qed.

Lemma kept_parts_strings (texts : list string) :
  kept_parts (map JStr texts) = Returns (filter (λ s, strip s ≠ "") texts).
Proof.
  induction texts as [|s texts IH]; [done|]. simpl. rewrite IH. simpl.
  rewrite filter_cons. case_bool_decide; [by rewrite decide_False by auto|].
  by rewrite decide_True.
Qed.

(** X10. [_extract_text_from_message] of the learner: a string comes back as it
    is, blank or not; from a list of text blocks the blank segments are
    dropped and the others joined by line feeds; a dict without a [text]
    key counts as an empty segment; a [text] that is not a string raises
    [AttributeError]. *)
Theorem _extract_text_from_message_of_blocks (str_of : json → string) :
  (∀ s tool_calls,
     _extract_text_from_message str_of (AIMessage (Text s) tool_calls) = Returns s) ∧
  (∀ texts tool_calls,
     _extract_text_from_message str_of
       (AIMessage (Blocks (map (λ s, text_block s) texts)) tool_calls)
     = Returns (join LF (filter (λ s, strip s ≠ "") texts))) ∧
  (∀ d blocks tool_calls,
     d !! "text" = None →
     _extract_text_from_message str_of (AIMessage (Blocks (JObj d :: blocks)) tool_calls)
     = _extract_text_from_message str_of (AIMessage (Blocks blocks) tool_calls)) ∧
  (∀ d n blocks tool_calls,
     d !! "text" = Some (JInt n) →
     ∃ e, _extract_text_from_message str_of
            (AIMessage (Blocks (JObj d :: blocks)) tool_calls) = Raises e ∧
          exn_cls e = AttributeError).
Proof.
  split; [done|]. split; [|split].
  - intros texts tool_calls. unfold _extract_text_from_message. simpl.
    rewrite map_map. simpl. by rewrite kept_parts_strings.
  - intros d blocks tool_calls Htext. unfold _extract_text_from_message. simpl.
    rewrite Htext. simpl.
    destruct (kept_parts (map (block_part str_of) blocks)); simpl; [|done].
    reflexivity.
  - intros d n blocks tool_calls Htext. unfold _extract_text_from_message. simpl.
    rewrite Htext. simpl. eauto.
Qed.

End TextExtraction.

(** ** Router: what is classified, and what a failed dispatch returns *)

Section RouterFacts.

Import Agents OrchestratorNode IntentDetector.

Variable str_of : json → string.
Variable GOOGLE_API_KEY : option string.
Variable completion : nat → string → result message.
Context (orchestrator_agent : BaseAgent).
Variable react_agent : string → list message → result (list message).

Abbreviation node := (process str_of GOOGLE_API_KEY completion orchestrator_agent react_agent).

(** A message that is not a [HumanMessage]. *)
Abbreviation not_from_user msg :=
  (match msg with HumanMessage _ => False | _ => True end).

Lemma last_user_content_found (before after : list message) (c : content) :
  Forall (λ msg, not_from_user msg) after →
  last_user_content (rev (before ++ HumanMessage c :: after)%list) = c.
Proof.
  intros Hafter. rewrite rev_app_distr. simpl. rewrite <- app_assoc. simpl.
  apply Forall_rev in Hafter.
  induction (rev after) as [|msg rest IH]; [done|].
  apply Forall_cons in Hafter as [Hmsg Hrest]. simpl.
  destruct msg; try done; by apply IH.
Qed.

Lemma last_user_content_none (msgs : list message) :
  Forall (λ msg, not_from_user msg) msgs → last_user_content (rev msgs) = Text "".
Proof.
  intros Hmsgs. apply Forall_rev in Hmsgs.
  induction (rev msgs) as [|msg rest IH]; [done|].
  apply Forall_cons in Hmsgs as [Hmsg Hrest]. simpl.
  destruct msg; try done; by apply IH.
Qed.


(** X12. A dispatch that raises, in the prompt, in the tool-calling loop or in
    the extraction, yields the dict with [orchestrator_result: None] and the
    one-element [error] list naming the exception, and nothing else: folded
    into the state it leaves messages, intent, counter and query as they
    were. *)
Theorem process_failure_leaves_state (st : ExamHelperState) (calls : nat) (e : exn) :
  (prompt ← get_prompt (Some st);
   trace ← react_agent prompt (default [] (messages st));
   extract_reply trace) = Raises e →
  (node st calls).1
  = {| messages := None; user_query := None; user_intent := None;
       session_summary := None; turn_count := None; current_response := None;
       State.error := Some [("Orchestrator node failed: " ++ exn_str e)%string];
       orchestrator_result := Some None |} ∧
  let st' := Workflow.dict_update st (node st calls).1 in
  messages st' = messages st ∧ user_intent st' = user_intent st ∧
  turn_count st' = turn_count st ∧ user_query st' = user_query st ∧
  orchestrator_result st' = Some None.
Proof.
  intros Hraises.
  assert (Hdict : (node st calls).1
    = {| messages := None; user_query := None; user_intent := None;
         session_summary := None; turn_count := None; current_response := None;
         State.error := Some [("Orchestrator node failed: " ++ exn_str e)%string];
         orchestrator_result := Some None |}).
  { unfold process.
    destruct (bool_decide _ && nonempty _);
      [destruct (detect_intent _ _ _ _ _) as [intent calls']|]; simpl.
    - destruct (get_prompt (Some st)) as [prompt|e1]; simpl in *;
        [|by injection Hraises as ->].
      destruct (react_agent prompt _) as [trace|e2]; simpl in *;
        [|by injection Hraises as ->].
      destruct (extract_reply trace) as [reply|e3]; simpl in *;
        [discriminate|by injection Hraises as ->].
    - destruct (get_prompt (Some st)) as [prompt|e1]; simpl in *;
        [|by injection Hraises as ->].
      destruct (react_agent prompt _) as [trace|e2]; simpl in *;
        [|by injection Hraises as ->].
      destruct (extract_reply trace) as [reply|e3]; simpl in *;
        [discriminate|by injection Hraises as ->]. }
  split; [exact Hdict|]. rewrite Hdict. done.
Qed.

End RouterFacts.


Lemma process_failure_leaves_state_witness :
  let st := {| messages := Some [HumanMessage (Text "what is a heap?")];
               user_query := Some "what is a heap?";
               user_intent := Some "explain"; session_summary := Some "";
               turn_count := Some 0%Z; current_response := Some None;
               State.error := Some []; orchestrator_result := Some None |} in
  let upd := (OrchestratorNode.process (λ _, "") None (λ _ _, Raises (Exn RuntimeError "no"))
                Agents.OrchestratorAgent
                (λ _ _, Raises (Exn RuntimeError "quota exceeded")) st 0).1 in
  State.error upd = Some ["Orchestrator node failed: quota exceeded"] ∧
  messages (Workflow.dict_update st upd) = messages st ∧
  user_intent (Workflow.dict_update st upd) = Some "explain".
Proof.
  intros st upd. subst upd.
  destruct (process_failure_leaves_state (λ _, "") None
              (λ _ _, Raises (Exn RuntimeError "no")) Agents.OrchestratorAgent
              (λ _ _, Raises (Exn RuntimeError "quota exceeded")) st 0
              (Exn RuntimeError "quota exceeded") eq_refl)
    as (Hdict & Hmsgs & Hintent & _).
  rewrite Hdict at 1. split; [reflexivity|]. split; [exact Hmsgs|exact Hintent].
Defined.

(** ** Agent-backed tools *)

Section ToolFacts.

Import Agents Tools.

Variable str_of : json → string.
Variable GOOGLE_API_KEY : option string.
Variable setup_model : result unit.

Lemma _get_agent_ready name cache :
  name ∈ cache ∨ init_agent None GOOGLE_API_KEY setup_model = Returns tt →
  (_get_agent GOOGLE_API_KEY setup_model name cache).1 = Returns tt ∧
  name ∈ (_get_agent GOOGLE_API_KEY setup_model name cache).2.
Proof.
  unfold _get_agent. intros [Hin|Hinit].
  - by rewrite bool_decide_eq_true_2.
  - case_bool_decide; [done|]. rewrite Hinit. simpl. split; [done|set_solver].
Qed.

(** X14. The [explainer] tool, once its agent exists or can be built: it answers
    with the content of the model's reply; when the model raises, the
    handler's dict holds [None] under the result key, so the tool answers
    [None], not the [""] given as default; the agent is in the cache
    afterwards.  When the agent is not cached and cannot be built, the
    [ValueError] reaches the caller and the cache is as before. *)
Theorem explainer_tool_fn_outcomes (model : list message → result message)
    (message context : string) (cache : gset string) :
  let request := [SystemMessage (Text (EXPLAINER_AGENT_PROMPT ""));
                  HumanMessage (Text message)] in
  let out := explainer_tool_fn str_of GOOGLE_API_KEY setup_model model
               message context cache in
  ("ExplainerAgent" ∈ cache ∨ init_agent None GOOGLE_API_KEY setup_model = Returns tt →
   "ExplainerAgent" ∈ out.2 ∧
   (∀ response, model request = Returns response →
                out.1 = Returns (Some (message_content response))) ∧
   (∀ e, model request = Raises e → out.1 = Returns None)) ∧
  ("ExplainerAgent" ∉ cache →
   ∀ e, init_agent None GOOGLE_API_KEY setup_model = Raises e →
        out = (Raises e, cache)).
Proof.
  intros request out. subst out. split.
  - intros Hready.
    destruct (_get_agent_ready "ExplainerAgent" cache Hready) as [Hagent Hcached].
    unfold explainer_tool_fn.
    destruct (_get_agent GOOGLE_API_KEY setup_model "ExplainerAgent" cache)
      as [[[]|e] cache'] eqn:Hget; simpl in Hagent, Hcached; [|discriminate].
    simpl fst. simpl snd. split; [done|].
    assert (Hprompt : get_prompt (BaseAgent := ExplainerAgent str_of)
                        (Some (_build_state_from_context context))
                      = Returns (EXPLAINER_AGENT_PROMPT "")).
    { unfold _build_state_from_context. simpl. by case_bool_decide. }
    unfold explainer_process_query. rewrite Hprompt.
    cbn [mbind result_bind bind]. fold request.
    split.
    + intros response ->. reflexivity.
    + intros e ->. reflexivity.
  - intros Hfresh e Hinit. unfold explainer_tool_fn, _get_agent.
    rewrite bool_decide_eq_false_2 by done. by rewrite Hinit.
Qed.

End ToolFacts.

Lemma explainer_tool_fn_outcomes_witness :
  let boom : list message → result message :=
    λ _, Raises (Exn RuntimeError "quota exceeded") in
  (Tools.explainer_tool_fn (λ _, "") (Some "key") (Returns tt) boom
     "what is a heap?" "" ∅).1 = Returns None ∧
  Tools.explainer_tool_fn (λ _, "") None (Returns tt) boom "what is a heap?" "" ∅
  = (Raises (Exn ValueError "Google API key is required. Set GOOGLE_API_KEY in .env file."), ∅).
Proof.
  intros boom.
  destruct (explainer_tool_fn_outcomes (λ _, "") (Some "key") (Returns tt) boom
              "what is a heap?" "" ∅) as [Hready _].
  destruct (explainer_tool_fn_outcomes (λ _, "") None (Returns tt) boom
              "what is a heap?" "" ∅) as [_ Hfresh].
  split.
  - destruct Hready as (_ & _ & Hfails); [by right|].
    by apply (Hfails (Exn RuntimeError "quota exceeded")).
  - apply Hfresh; [set_solver|reflexivity].
Defined.

(** ** Retrieval tool *)

Section FirecrawlFacts.

Import Firecrawl.

Variable search : string → Z → result (list source).
Variable scrape : string → result (option string).

Lemma length_substring_le (n : nat) (s : string) :
  (String.length (substring 0 n s) ≤ n)%nat.
Proof.
  revert s. induction n as [|n IH]; intros [|c s]; simpl; try lia.
  specialize (IH s). lia.
Qed.

Lemma scrape_all_nothing (items : list source) :
  (∀ item, item ∈ items →
           scrape (url item) = Returns None ∨ scrape (url item) = Returns (Some "")) →
  scrape_all scrape items = Returns [].
Proof.
  induction items as [|item rest IH]; intros Hnone; [done|]. simpl.
  rewrite IH by (intros i Hi; apply Hnone; by right).
  destruct (Hnone item) as [->| ->]; [left|done|done].
Qed.

(** X15. [firecrawl_tool]: no search result gives the fixed sentence; results
    none of whose pages has markdown give the empty string, not that
    sentence; a failing search reaches the caller; and a block never holds
    more than 4000 characters of a page. *)
Theorem firecrawl_tool_edges (query : string) (num_results : Z) :
  (search query num_results = Returns [] →
   firecrawl_tool search scrape query num_results
   = Returns "No relevant sources found.") ∧
  (∀ web, search query num_results = Returns web → web ≠ [] →
          (∀ item, item ∈ web →
                   scrape (url item) = Returns None ∨
                   scrape (url item) = Returns (Some "")) →
          firecrawl_tool search scrape query num_results = Returns "") ∧
  (∀ e, search query num_results = Raises e →
        firecrawl_tool search scrape query num_results = Raises e) ∧
  (∀ item markdown,
     (String.length (source_block item markdown)
      ≤ String.length ("Title: " ++ title item ++ LF ++ "Source: " ++ url item ++ LF)
        + 4000)%nat).
Proof.
  split; [|split; [|split]].
  - intros Hsearch. unfold firecrawl_tool. by rewrite Hsearch.
  - intros web Hsearch Hweb Hpages. unfold firecrawl_tool. rewrite Hsearch. simpl.
    rewrite bool_decide_eq_false_2 by done.
    by rewrite (scrape_all_nothing web Hpages).
  - intros e Hsearch. unfold firecrawl_tool. by rewrite Hsearch.
  - intros item markdown. unfold source_block.
    pose proof (length_substring_le 4000 markdown) as Hcut.
    rewrite !length_append in *. lia.
Qed.

End FirecrawlFacts.

Lemma firecrawl_tool_edges_witness :
  let found : string → Z → result (list Firecrawl.source) :=
    λ _ _, Returns [{| Firecrawl.title := "Heaps"; Firecrawl.url := "https://e.org/heaps" |}] in
  Firecrawl.firecrawl_tool (λ _ _, Returns []) (λ _, Returns None) "heaps" 1
    = Returns "No relevant sources found." ∧
  Firecrawl.firecrawl_tool found (λ _, Returns None) "heaps" 1 = Returns "".
Proof.
  intros found. split.
  - by apply (firecrawl_tool_edges (λ _ _, Returns []) (λ _, Returns None) "heaps" 1).
  - destruct (firecrawl_tool_edges found (λ _, Returns None) "heaps" 1)
      as (_ & Hempty & _).
    apply (Hempty [{| Firecrawl.title := "Heaps"; Firecrawl.url := "https://e.org/heaps" |}]);
      [reflexivity|discriminate|auto].
Defined.

(** ** Hydration, greeting and the console loop *)

Section SessionFacts.

Import Workflow Requirements.

Implicit Types (self : MultiAgentWorkflow) (fs : storage) (st : ExamHelperState).

(** X16. [get_greeting] never raises and never answers with empty content: it
    is the model's reply when that has content, and the fallback sentence
    when the reply is empty or the model raises. *)
Theorem get_greeting_never_empty (model_invoke : string → result message) :
  nonempty (Sessions.get_greeting model_invoke) = true ∧
  (∀ response, model_invoke "Todo" = Returns response →
     Sessions.get_greeting model_invoke
     = if nonempty (message_content response) then message_content response
       else Text FALLBACK) ∧
  (∀ e, model_invoke "Todo" = Raises e →
        Sessions.get_greeting model_invoke = Text FALLBACK).
Proof.
  unfold Sessions.get_greeting.
  destruct (model_invoke "Todo") as [response|e]; simpl.
  - destruct (nonempty (message_content response)) eqn:Hcontent; simpl.
    + split; [done|]. split; [|intros; discriminate].
      intros response' [= <-]. by rewrite Hcontent.
    + split; [done|]. split; [|intros; discriminate].
      intros response' [= <-]. by rewrite Hcontent.
  - split; [done|]. split; [intros; discriminate|done].
Qed.

(** Content that the message constructors accept. *)
Abbreviation well_formed c :=
  (match c with
   | Text _ => True
   | Blocks l => forallb Sessions.valid_block l = true
   end).

Lemma message_content_of_json (c : content) :
  well_formed c → Sessions.message_content_of (content_json c) = Returns c.
Proof. destruct c as [s|l]; simpl; [done|]. by intros ->. Qed.

Lemma replayed_stored_form (role : string) (c : content) :
  well_formed c →
  Sessions.replayed (JObj {[ "role" := JStr role; "content" := content_json c ]})
  = if bool_decide (role = "user") then Returns [HumanMessage c]
    else if bool_decide (role = "assistant") then Returns [AIMessage c []]
    else Returns [].
Proof.
  intros Hc. unfold Sessions.replayed, get_method.
  assert (Hrole : ({[ "role" := JStr role; "content" := content_json c ]}
                    : gmap string json) !! "role" = Some (JStr role)) by reflexivity.
  assert (Hcontent : ({[ "role" := JStr role; "content" := content_json c ]}
                       : gmap string json) !! "content" = Some (content_json c))
    by reflexivity.
  rewrite Hrole, Hcontent. cbn [default from_option mbind result_bind bind].
  unfold Datatypes.id. rewrite (message_content_of_json c Hc).
  cbn [mbind result_bind bind].
  repeat case_bool_decide; congruence.
Qed.

Lemma replay_persisted (trace : list message) :
  Forall (λ msg, well_formed (message_content msg)) trace →
  Sessions.replay (persisted_messages trace)
  = Returns (filter (λ msg, user_or_plain_assistant msg = true) trace).
Proof.
  unfold persisted_messages.
  induction trace as [|msg trace IH]; intros Hvalid; [done|].
  apply Forall_cons in Hvalid as [Hmsg Hvalid]. specialize (IH Hvalid).
  rewrite filter_cons.
  destruct (decide (user_or_plain_assistant msg = true)) as [Hkept|Hdropped]; [|done].
  cbn [map Sessions.replay]. rewrite IH.
  destruct msg as [c | c tool_calls | c | c]; simpl in Hkept; try discriminate.
  - unfold stored_form. cbn [message_content].
    rewrite (replayed_stored_form "user" c Hmsg). reflexivity.
  - apply andb_true_iff in Hkept as [_ Hcalls].
    apply bool_decide_eq_true in Hcalls as ->.
    unfold stored_form. cbn [message_content].
    rewrite (replayed_stored_form "assistant" c Hmsg). reflexivity.
Qed.

(** X17. Saving a state and hydrating a new coordinator from the record: the
    state starts from the initial one, holds the user messages and the
    plain assistant messages of the saved trace in order, and has the saved
    intent and counter.  The contents must be ones the message constructors
    accept, and at least one message must have been persisted. *)
Theorem hydration_restores_saved_state now self st fs :
  _state self = Some st →
  (∀ f, fs !! _get_conversation_path (conversation_id self) = Some f →
        ∃ o, f = Document (JObj o)) →
  Forall (λ msg, well_formed (message_content msg)) (default [] (messages st)) →
  filter (λ msg, user_or_plain_assistant msg = true) (default [] (messages st)) ≠ [] →
  ∃ fs',
    _save_conversation now self fs = Returns fs' ∧
    Sessions._load_conversation_history
      {| conversation_id := conversation_id self; _state := None |} fs'
    = Sessions.Done
        {| conversation_id := conversation_id self;
           _state := Some
             (Sessions.with_turn_count
                (Sessions.with_user_intent
                   (Sessions.with_messages get_initial_state
                      (filter (λ msg, user_or_plain_assistant msg = true)
                         (default [] (messages st))))
                   (default "unknown" (user_intent st)))
                (default 0%Z (turn_count st))) |} tt.
Proof.
  intros Hstate Hfile Hvalid Hkept.
  unfold _save_conversation. rewrite Hstate. rewrite persisted_as_required.
  match goal with |- context [save_conversation now ?i ?m ?d fs] =>
    destruct (save_conversation_returns now i m d fs Hfile) as [fs' Hsave] end.
  destruct (save_conversation_written _ _ _ _ _ _ Hsave)
    as (rec & created & Hfs' & _ & _ & Hmsgs & Hmeta & _).
  assert (Hrec : fs' !! _get_conversation_path (conversation_id self)
                 = Some (Document (JObj rec))).
  { rewrite Hfs'. apply lookup_insert_eq. }
  exists fs'. split; [done|].
  unfold Sessions._load_conversation_history. cbn [conversation_id].
  rewrite (get_messages_record _ _ _ _ Hrec Hmsgs).
  assert (Hsome : truthy (JList (persisted_messages (default [] (messages st)))) = true).
  { simpl. case_bool_decide as Hnil; [|done].
    unfold persisted_messages in Hnil. apply fmap_nil_inv in Hnil. done. }
  rewrite Hsome. cbn [Sessions.replay_stored].
  rewrite (replay_persisted _ Hvalid).
  unfold Sessions.restore_metadata. cbn [conversation_id].
  rewrite (load_conversation_document _ _ _ Hrec).
  rewrite (truthy_record _ _ _ Hmsgs).
  cbn [get_method]. rewrite Hmeta. reflexivity.
Qed.

Lemma hydration_restores_saved_state_witness :
  let trace := [HumanMessage (Text "explain stacks");
                AIMessage (Text "") [JObj {[ "name" := JStr "explainer" ]}];
                ToolMessage (Text "A stack is a LIFO list.");
                AIMessage (Text "A stack is a last-in, first-out list.") []] in
  let st := {| messages := Some trace; user_query := Some "explain stacks";
               user_intent := Some "explain"; session_summary := Some "";
               turn_count := Some 0%Z; current_response := Some None;
               State.error := Some [];
               orchestrator_result := Some (Some (Text "A stack is a LIFO list.")) |} in
  ∃ fs' hydrated,
    _save_conversation "2026-01-01T10:00:00"
      {| conversation_id := "s1"; _state := Some st |} ∅ = Returns fs' ∧
    Sessions._load_conversation_history {| conversation_id := "s1"; _state := None |} fs'
    = Sessions.Done {| conversation_id := "s1"; _state := Some hydrated |} tt ∧
    messages hydrated
    = Some [HumanMessage (Text "explain stacks");
            AIMessage (Text "A stack is a last-in, first-out list.") []] ∧
    user_intent hydrated = Some "explain" ∧
    orchestrator_result hydrated = Some None.
Proof.
  intros trace st.
  destruct (hydration_restores_saved_state "2026-01-01T10:00:00"
              {| conversation_id := "s1"; _state := Some st |} st ∅)
    as (fs' & Hsave & Hload).
  - reflexivity.
  - intros f Hf. rewrite lookup_empty in Hf. discriminate.
  - repeat constructor.
  - discriminate.
  - eexists fs', _. split; [exact Hsave|]. split; [exact Hload|].
    repeat split; reflexivity.
Defined.

(** X18. Hydration finds nothing when there is no record, and also when the
    record holds no message: the coordinator keeps no state then, the
    record's metadata is not read, and [load_conversation] answers [False]. *)
Theorem hydration_without_messages (conversation_id : string) self fs :
  (fs !! _get_conversation_path conversation_id = None ∨
   ∃ rec, fs !! _get_conversation_path conversation_id = Some (Document (JObj rec)) ∧
          rec !! "messages" = Some (JList [])) →
  Sessions.load_conversation conversation_id self fs
  = Sessions.Done {| Workflow.conversation_id := conversation_id; _state := None |} false.
Proof.
  intros Hnone. unfold Sessions.load_conversation, Sessions._load_conversation_history.
  cbn [Workflow.conversation_id].
  assert (Hmsgs : get_messages conversation_id fs = Returns (JList [])).
  { destruct Hnone as [Hnone|(rec & Hrec & Hempty)].
    - by apply load_conversation_missing.
    - by apply get_messages_record with rec. }
  by rewrite Hmsgs.
Qed.

Lemma hydration_without_messages_witness :
  Sessions.load_conversation "s1" {| conversation_id := "old"; _state := None |}
    {[ "s1.json" := Document (JObj {[ "messages" := JList [];
                                       "metadata" := JObj {[ "user_intent" := JStr "learn" ]} ]}) ]}
  = Sessions.Done {| conversation_id := "s1"; _state := None |} false.
Proof.
  apply hydration_without_messages. right. eexists. split; reflexivity.
Defined.

Variable World : Type.
Variable workflow_invoke : ExamHelperState → World → result ExamHelperState * World.

(** X19. The console loop is [chat] applied in turn to the lines that count:
    trimmed, blank lines left out, and nothing after the first exit word
    ([quit], [exit], [bye], [goodbye], in any case). *)
Theorem interactive_loop_runs_turns (lines : list (string * string)) self fs (w : World) :
  Sessions.interactive_loop World workflow_invoke lines self fs w
  = chats World workflow_invoke (turns_of lines) self fs w.
Proof.
  revert self fs w. induction lines as [|[line now] rest IH]; intros self fs w; [done|].
  simpl. case_bool_decide; [apply IH|].
  case_bool_decide; [done|]. simpl.
  destruct (chat World workflow_invoke (strip line) now self fs w) as [[[reply self1] fs1] w1].
  by rewrite IH.
Qed.

End SessionFacts.

(** ** Listing, failed turns, the learner's last message, the dispatch *)

Section ListingFacts.

Implicit Types (fs : storage) (e : exn).

Lemma substring_append_tail (s t : string) :
  substring (String.length s) (String.length t) (s ++ t) = t.
Proof.
  induction s as [|a s IH].
  - change ("" ++ t) with t. simpl String.length.
    induction t as [|b t IHt]; simpl; [done|by rewrite IHt].
  - exact IH.
Qed.

Lemma endswith_append (s t : string) : endswith (s ++ t) t = true.
Proof.
  unfold endswith. rewrite length_append.
  replace (String.length s + String.length t - String.length t)
    with (String.length s) by lia.
  rewrite substring_append_tail, String.eqb_refl.
  rewrite andb_true_r. apply Nat.leb_le. lia.
Qed.

Lemma collect_keeps files (acc : list (gmap string json)) l s :
  collect files acc = Returns l → s ∈ acc → s ∈ l.
Proof.
  revert acc. induction files as [|[name f] rest IH]; intros acc; simpl.
  - by intros [= <-].
  - destruct (try_except _ _ _) as [acc'|e'] eqn:Hstep; simpl; [|discriminate].
    intros Hrest Hs. apply (IH acc' Hrest).
    unfold try_except in Hstep.
    destruct f as [data|e0]; cbn [json_load mbind result_bind bind] in Hstep.
    + destruct (summary data) as [s0|e0]; cbn [mbind result_bind bind] in Hstep.
      * injection Hstep as <-. apply elem_of_app. by left.
      * destruct (caught_by _ e0); [|discriminate]. by injection Hstep as <-.
    + destruct (caught_by _ e0); [|discriminate]. by injection Hstep as <-.
Qed.

Lemma collect_lists files (acc : list (gmap string json)) l name data s :
  collect files acc = Returns l → (name, Document data) ∈ files →
  summary data = Returns s → s ∈ l.
Proof.
  revert acc. induction files as [|[n f] rest IH]; intros acc; simpl.
  - intros _ Hin. by apply elem_of_nil in Hin.
  - destruct (try_except _ _ _) as [acc'|e'] eqn:Hstep; simpl; [|discriminate].
    intros Hrest Hin Hsum. apply elem_of_cons in Hin as [[= <- <-]|Hin].
    + apply (collect_keeps rest acc' l s Hrest).
      unfold try_except in Hstep. cbn [json_load mbind result_bind bind] in Hstep.
      rewrite Hsum in Hstep. cbn [mbind result_bind bind] in Hstep.
      injection Hstep as <-. apply elem_of_app. right. by left.
    + by apply (IH acc' Hrest Hin Hsum).
Qed.

Variable sort_reverse :
  (gmap string json → json) → list (gmap string json) → result (list (gmap string json)).
Hypothesis sort_permutes :
  ∀ key l l', sort_reverse key l = Returns l' → l' ≡ₚ l.

(** X7. A conversation that has been saved is in every listing that
    [list_conversations] returns afterwards, under the identifier it was
    saved with, with the clock reading of the save as [updated_at] and the
    number of its messages as [message_count]. *)
Theorem saved_conversation_is_listed now id msgs meta fs fs' l :
  save_conversation now id msgs meta fs = Returns fs' →
  list_conversations sort_reverse fs' = Returns l →
  ∃ entry, entry ∈ l ∧
           entry !! "conversation_id" = Some (JStr id) ∧
           entry !! "updated_at" = Some (JStr now) ∧
           entry !! "message_count" = Some (JInt (Z.of_nat (length msgs))).
Proof.
  intros Hsave Hlist.
  destruct (save_conversation_written _ _ _ _ _ _ Hsave)
    as (rec & created & -> & Hid & Hupdated & Hmsgs & _ & Hcreated & _).
  unfold list_conversations in Hlist.
  destruct (collect _ []) as [l0|e] eqn:Hcollect; simpl in Hlist; [|discriminate].
  apply sort_permutes in Hlist.
  assert (Hsummary : summary (JObj rec)
            = Returns {[ "conversation_id" := JStr id; "created_at" := created;
                         "updated_at" := JStr now;
                         "message_count" := JInt (Z.of_nat (length msgs)) ]}).
  { unfold summary, get_method. rewrite Hid, Hupdated, Hmsgs, Hcreated. reflexivity. }
  exists {[ "conversation_id" := JStr id; "created_at" := created;
            "updated_at" := JStr now;
            "message_count" := JInt (Z.of_nat (length msgs)) ]}.
  split; [|repeat split; reflexivity].
  rewrite Hlist. eapply collect_lists; [exact Hcollect| |exact Hsummary].
  unfold glob_json. apply list_elem_of_filter. split.
  - apply endswith_append.
  - apply elem_of_map_to_list, lookup_insert_eq.
Qed.

End ListingFacts.

Lemma saved_conversation_is_listed_witness :
  ∃ fs' l,
    save_conversation "2026-01-01T10:00:00" "s1" [JStr "a"; JStr "b"] None ∅ = Returns fs' ∧
    list_conversations insertion_sort_reverse fs' = Returns l ∧
    ∃ entry, entry ∈ l ∧
             entry !! "conversation_id" = Some (JStr "s1") ∧
             entry !! "updated_at" = Some (JStr "2026-01-01T10:00:00") ∧
             entry !! "message_count" = Some (JInt 2).
Proof.
  eexists _, _. split; [vm_compute; reflexivity|]. split; [vm_compute; reflexivity|].
  eapply (saved_conversation_is_listed insertion_sort_reverse
            insertion_sort_reverse_permutes "2026-01-01T10:00:00" "s1"
            [JStr "a"; JStr "b"] None ∅);
    vm_compute; reflexivity.
Defined.

Section MoreTurnFacts.

Import Agents OrchestratorNode Workflow.

Variable World : Type.
Variable workflow_invoke : ExamHelperState → World → result ExamHelperState * World.

Implicit Types (self : MultiAgentWorkflow) (fs : storage) (w : World).

(** X20. A turn whose state graph raises: [process_query] reports
    [success: False] with the fallback sentence and the text of the
    exception under [error]; the user message stays appended to the state in
    memory; nothing is written to the store. *)
Theorem failed_turn_is_not_persisted user_message now self fs w e :
  (workflow_invoke
     (with_user_message (_get_current_state self).1 user_message) w).1 = Raises e →
  let outcome := process_query World workflow_invoke user_message now self fs w in
  success outcome.1.1.1 = false ∧
  response outcome.1.1.1 = Some (Some (Text FALLBACK)) ∧
  Workflow.error outcome.1.1.1 = Some (exn_str e) ∧
  _state outcome.1.1.2
    = Some (with_user_message (_get_current_state self).1 user_message) ∧
  outcome.1.2 = fs.
Proof.
  intros Hraises outcome. subst outcome.
  pose proof (process_query_outcome World workflow_invoke user_message now self fs w)
    as Hout. cbv zeta in Hout.
  destruct (workflow_invoke _ w) as [[final|e'] w']; simpl in Hraises; [discriminate|].
  injection Hraises as ->. by rewrite Hout.
Qed.

Variable str_of : json → string.
Variable GOOGLE_API_KEY : option string.
Variable completion : nat → string → result message.

(** X13. The router calls the tool loop at most once, with the orchestrator
    prompt built from the intent stored in the state (not the label just
    computed) and with the full message history: a tool loop that answers
    this one request in the same way gives the same result. *)
Theorem process_dispatches_stored_intent (st : ExamHelperState) (calls : nat)
    (react_agent react_agent' : string → list message → result (list message)) :
  has_keys st = true →
  react_agent (ORCHESTRATOR_PROMPT (default "unknown" (user_intent st)))
    (default [] (messages st))
  = react_agent' (ORCHESTRATOR_PROMPT (default "unknown" (user_intent st)))
      (default [] (messages st)) →
  process str_of GOOGLE_API_KEY completion OrchestratorAgent react_agent st calls
  = process str_of GOOGLE_API_KEY completion OrchestratorAgent react_agent' st calls.
Proof.
  intros Hkeys Hsame. unfold process. cbn [get_prompt OrchestratorAgent].
  rewrite Hkeys. cbn [mbind result_bind bind]. by rewrite Hsame.
Qed.

(** X21. [LearnerAgent.process_query] reads its answer off the last message of
    the tool loop's trace: a textual last message is the value as it is; an
    empty trace is reported as a failure with the text of the [IndexError]. *)
Theorem learner_reads_last_message
    (tool_loop : string → list message → result (list message))
    (query : string) (state : option ExamHelperState) (prompt : string) :
  get_prompt (BaseAgent := LearnerAgent str_of) state = Returns prompt →
  (∀ trace final s,
     tool_loop prompt [HumanMessage (Text query)] = Returns (trace ++ [final])%list →
     message_content final = Text s →
     let r := learner_process_query str_of tool_loop query state in
     Agents.success r = true ∧ result_value r = Some s) ∧
  (tool_loop prompt [HumanMessage (Text query)] = Returns [] →
   let r := learner_process_query str_of tool_loop query state in
   Agents.success r = false ∧ result_value r = None ∧
   result_error r = ["list index out of range"]).
Proof.
  intros Hprompt. split.
  - intros trace final s Hloop Hcontent r. subst r.
    unfold learner_process_query. rewrite Hprompt. cbn [mbind result_bind bind].
    rewrite Hloop. cbn [mbind result_bind bind].
    unfold last_item. rewrite last_snoc. cbn [mbind result_bind bind].
    unfold _extract_text_from_message. rewrite Hcontent. done.
  - intros Hloop r. subst r.
    unfold learner_process_query. rewrite Hprompt. cbn [mbind result_bind bind].
    by rewrite Hloop.
Qed.

End MoreTurnFacts.

Lemma failed_turn_is_not_persisted_witness :
  let outcome :=
    Workflow.process_query unit (λ _ w, (Raises (Exn RuntimeError "graph has no entry point"), w))
      "hello" "2026-01-01T10:00:00" {| Workflow.conversation_id := "s1"; Workflow._state := None |} ∅ tt in
  Workflow.success outcome.1.1.1 = false ∧
  Workflow.response outcome.1.1.1 = Some (Some (Text Workflow.FALLBACK)) ∧
  Workflow.error outcome.1.1.1 = Some "graph has no entry point" ∧
  (Workflow._state outcome.1.1.2 ≫= messages) = Some [HumanMessage (Text "hello")] ∧
  outcome.1.2 = ∅.
Proof.
  intros outcome.
  destruct (failed_turn_is_not_persisted unit
              (λ _ w, (Raises (Exn RuntimeError "graph has no entry point"), w)) "hello" "2026-01-01T10:00:00"
              {| Workflow.conversation_id := "s1"; Workflow._state := None |} ∅ tt
              (Exn RuntimeError "graph has no entry point") eq_refl)
    as (Hsuccess & Hreply & Herror & Hstate & Hfs).
  split; [exact Hsuccess|]. split; [exact Hreply|]. split; [exact Herror|].
  split; [|exact Hfs]. subst outcome. by rewrite Hstate.
Defined.

Lemma process_dispatches_stored_intent_witness :
  let st := {| messages := Some [HumanMessage (Text "what is a heap?")];
               user_query := Some "what is a heap?";
               user_intent := Some "unknown"; session_summary := Some "";
               turn_count := Some 0%Z; current_response := Some None;
               State.error := Some []; orchestrator_result := Some None |} in
  let classifier : nat → string → result message :=
    λ _ _, Returns (AIMessage (Text "explain") []) in
  let answering : string → list message → result (list message) :=
    λ _ history, Returns (history ++ [AIMessage (Text "A heap is a tree.") []])%list in
  let picky : string → list message → result (list message) :=
    λ prompt history,
      if bool_decide (prompt = Agents.ORCHESTRATOR_PROMPT "unknown")
      then Returns (history ++ [AIMessage (Text "A heap is a tree.") []])%list
      else Raises (Exn RuntimeError "unexpected prompt") in
  OrchestratorNode.process (λ _, "") (Some "key") classifier Agents.OrchestratorAgent
    answering st 0
  = OrchestratorNode.process (λ _, "") (Some "key") classifier Agents.OrchestratorAgent
      picky st 0.
Proof.
  intros st classifier answering picky.
  apply process_dispatches_stored_intent; reflexivity.
Defined.

Lemma learner_reads_last_message_witness :
  let r := Agents.learner_process_query (λ _, "") (λ _ _, Returns []) "notes on heaps" None in
  Agents.success r = false ∧ Agents.result_value r = None ∧
  Agents.result_error r = ["list index out of range"].
Proof.
  intros r.
  destruct (learner_reads_last_message (λ _, "") (λ _ _, Returns []) "notes on heaps" None
              (Agents.LEARNER_AGENT_PROMPT "") eq_refl) as [_ Hempty].
  by apply Hempty.
Defined.

(** [write_record] with a list of messages and a metadata dict is
    [save_conversation]. *)
Lemma write_record_save_conversation now id msgs meta fs :
  write_record now id (JList msgs) (JObj (or_empty meta)) fs
  = match save_conversation now id msgs meta fs with
    | Returns fs' => (fs', Returns tt)
    | Raises e => (fs, Raises e)
    end.
Proof.
  unfold write_record, save_conversation. rewrite or_empty_dict.
  destruct (fs !! _get_conversation_path id) as [f|]; [|done].
  destruct (try_except _ _ _); done.
Qed.
